(** * Time-series splitting utilities ([toolkit/util.py]): a shallow embedding

    The development follows the Python module function by function.
    Tables are ordered lists of rows, a row maps column names to cell
    values, Python [int] is [Z], Python [float] is an IEEE-754 binary64
    value ([spec_float] at precision 53 and maximal exponent 1024), and every
    [raise] of the source is a constructor of [pyerr]. *)

From Stdlib Require Import ZArith Lia Bool List String Ascii SpecFloat.
From stdpp Require Import base option list gmap strings.

Open Scope string_scope.
Open Scope list_scope.
Open Scope Z_scope.

(** ** Results of fallible code *)

Module Py.

(** A cell of a frame, and a timestamp bound: an integer or a string. *)
Inductive pyval :=
  | VInt (z : Z)
  | VStr (s : string).

(** The name under which [groupby] hands a group to the loop body: the cell
    value itself when the frame is grouped by one column, the tuple of the
    cell values when it is grouped by several. *)
Inductive pyname :=
  | NameScalar (v : pyval)
  | NameTuple (vs : list pyval).

(** One constructor per [raise] statement of the module (the message is the
    constructor), and the exceptions of the built-ins the module calls.  The
    two out-of-range errors carry the group name exactly when the message
    built by the source shows it. *)
Inductive pyerr :=
  | ErrNoTimestampGiven
  | ErrNoIndexGiven
  | ErrNoFractionGiven
  | ErrNegativeOffset
  | ErrFractionOutOfRange
  | ErrEmptySelection (shown_id : option pyname)
  | ErrNegativeStart (shown_id : option pyname)
  | ErrBadLocation
  | ErrIntOfNaN
  | ErrOverflow
  | ErrKey (k : string)
  | ErrIndex
  | ErrType
  | ErrNoObjectsToConcatenate
  | ErrUnpack.


Inductive result (A : Type) :=
  | Ok (a : A)
  | Raise (e : pyerr).
Arguments Ok {A} a.
Arguments Raise {A} e.

Definition bind {A B} (r : result A) (k : A -> result B) : result B :=
  match r with
  | Ok a => k a
  | Raise e => Raise e
  end.

End Py.
Export Py.

#[export] Instance result_bind : MBind result := fun A B k r => bind r k.
#[export] Instance result_ret : MRet result := fun A a => Ok a.

(** ** Numbers *)

Module Num.

Definition prec : Z := 53.
Definition emax : Z := 1024.

Abbreviation float := spec_float.

(** A numeric argument is a Python [int] or a Python [float]. *)
Inductive num :=
  | NInt (z : Z)
  | NFloat (f : float).

(** [float(z)]: the nearest binary64 value, ties to even; an integer beyond
    the largest finite value raises [OverflowError]. *)
Definition float_of_int (z : Z) : result float :=
  match binary_normalize prec emax z 0 false with
  | S754_infinity _ => Raise ErrOverflow
  | S754_nan => Raise ErrOverflow
  | f => Ok f
  end.

(** [int(f)]: truncation towards zero; [nan] and the infinities raise. *)
Definition int_of_float (f : float) : result Z :=
  match f with
  | S754_zero _ => Ok 0
  | S754_nan => Raise ErrIntOfNaN
  | S754_infinity _ => Raise ErrOverflow
  | S754_finite s m e =>
      let mag := if 0 <=? e then Z.shiftl (Zpos m) e else Z.shiftr (Zpos m) (- e) in
      Ok (if s then - mag else mag)
  end.

(** The mathematical floor of a float, for comparison with [int]. *)
Definition floor_of_float (f : float) : result Z :=
  match f with
  | S754_zero _ => Ok 0
  | S754_nan => Raise ErrIntOfNaN
  | S754_infinity _ => Raise ErrOverflow
  | S754_finite s m e =>
      if 0 <=? e then Ok (if s then - Z.shiftl (Zpos m) e else Z.shiftl (Zpos m) e)
      else if s then Ok (- ((Zpos m + 2 ^ (- e) - 1) / 2 ^ (- e)))
      else Ok (Zpos m / 2 ^ (- e))
  end.

Definition py_int (x : num) : result Z :=
  match x with
  | NInt z => Ok z
  | NFloat f => int_of_float f
  end.

Definition py_floor (x : num) : result Z :=
  match x with
  | NInt z => Ok z
  | NFloat f => floor_of_float f
  end.

(** [l * x] and [x * l] for an [int] [l]: exact on two ints, otherwise the
    int is converted and the product is rounded once. *)
Definition int_mul (l : Z) (x : num) : result num :=
  match x with
  | NInt z => Ok (NInt (l * z))
  | NFloat f => fl ← float_of_int l; Ok (NFloat (SFmul prec emax fl f))
  end.

(** [x * l]: the float operand on the left. *)
Definition mul_int (x : num) (l : Z) : result num :=
  match x with
  | NInt z => Ok (NInt (z * l))
  | NFloat f => fl ← float_of_int l; Ok (NFloat (SFmul prec emax f fl))
  end.

(** [x - k] for an [int] [k]. *)
Definition sub_int (x : num) (k : Z) : result num :=
  match x with
  | NInt z => Ok (NInt (z - k))
  | NFloat f => fk ← float_of_int k; Ok (NFloat (SFsub prec emax f fk))
  end.

Definition fzero : float := S754_zero false.
Definition fone : float := SFone prec emax.

(** [x < 0], [x < 1], [x > 1], [x != 0]: comparisons with [nan] are false,
    except [!=], which is true. *)
Definition lt_zero (x : num) : bool :=
  match x with NInt z => z <? 0 | NFloat f => SFltb f fzero end.
Definition lt_one (x : num) : bool :=
  match x with NInt z => z <? 1 | NFloat f => SFltb f fone end.
Definition gt_one (x : num) : bool :=
  match x with NInt z => 1 <? z | NFloat f => SFltb fone f end.
Definition ne_zero (x : num) : bool :=
  match x with NInt z => negb (z =? 0) | NFloat f => negb (SFeqb f fzero) end.
(** [x >= 0]. *)
Definition ge_zero (x : num) : bool :=
  match x with NInt z => 0 <=? z | NFloat f => SFleb fzero f end.

(** Floats that are not negative finite numbers: on them [int] and [floor]
    agree and are not negative. *)
Definition not_negative (f : float) : Prop :=
  match f with
  | S754_finite true _ _ => False
  | _ => True
  end.

(** The double that Python reads from a decimal literal [n/d] with small
    [n] and [d]: the correctly rounded quotient. *)
Definition decimal (n d : Z) : float :=
  SFdiv prec emax (binary_normalize prec emax n 0 false)
                  (binary_normalize prec emax d 0 false).

End Num.
Export Num.

(** ** Truthiness *)

Class Truthy (A : Type) := truthy : A -> bool.

#[export] Instance truthy_Z : Truthy Z := fun z => negb (z =? 0).
#[export] Instance truthy_string : Truthy string :=
  fun s => match s with EmptyString => false | _ => true end.
#[export] Instance truthy_num : Truthy num := ne_zero.
#[export] Instance truthy_pyval : Truthy pyval :=
  fun v => match v with VInt z => truthy z | VStr s => truthy s end.
#[export] Instance truthy_pyname : Truthy pyname :=
  fun n => match n with
           | NameScalar v => truthy v
           | NameTuple vs => match vs with [] => false | _ => true end
           end.
#[export] Instance truthy_list {A} : Truthy (list A) :=
  fun l => match l with [] => false | _ => true end.
(** [None] is falsy; an optional argument that is given is as truthy as its
    value. *)
#[export] Instance truthy_option {A} `{Truthy A} : Truthy (option A) :=
  fun o => match o with None => false | Some a => truthy a end.

(** ** Tables *)

Module Frame.

(** A row maps column names to cell values; a frame is the ordered list of its
    rows.  A column exists in a frame when every row has it. *)
Abbreviation row := (gmap string pyval).
Abbreviation frame := (list row).

Definition len {A} (df : list A) : Z := Z.of_nat (length df).

(** The bounds of a Python slice with step 1 ([slice.indices]): a negative
    index counts from the end, and both ends are clipped into [0, l]. *)
Definition clamp_index (l i : Z) : Z :=
  if i <? 0 then Z.max (i + l) 0 else Z.min i l.

(** [df.iloc[start:stop]]. *)
Definition iloc {A} (df : list A) (start stop : option Z) : list A :=
  let l := len df in
  let a := match start with None => 0 | Some s => clamp_index l s end in
  let b := match stop with None => l | Some e => clamp_index l e end in
  take (Z.to_nat (b - a)) (drop (Z.to_nat a) df).

(** The rows at positions [a, b) of a frame, for [0 <= a]. *)
Definition rows_between {A} (df : list A) (a b : Z) : list A :=
  take (Z.to_nat (b - a)) (drop (Z.to_nat a) df).

Definition cell (r : row) (c : string) : result pyval :=
  match r !! c with
  | Some v => Ok v
  | None => Raise (ErrKey c)
  end.

(** Comparison of a cell with a scalar; cells of another kind than the scalar
    do not compare. *)
Definition val_ltb (a b : pyval) : result bool :=
  match a, b with
  | VInt x, VInt y => Ok (x <? y)
  | VStr x, VStr y => Ok (String.ltb x y)
  | _, _ => Raise ErrType
  end.

Definition val_geb (a b : pyval) : result bool :=
  b' ← val_ltb a b; Ok (negb b').

(** [df[mask]] for the boolean column [mask] computed from column [c]. *)
Definition select_where (df : frame) (c : string) (p : pyval -> result bool)
  : result frame :=
  mask ← mapM (fun r => v ← cell r c; p v) df;
  Ok (fst <$> filter (fun rb => snd rb = true) (zip df mask)).

(** The order in which [groupby] presents its groups (sorted keys); ints
    come before strings. *)
Definition val_compare (a b : pyval) : comparison :=
  match a, b with
  | VInt x, VInt y => x ?= y
  | VStr x, VStr y => String.compare x y
  | VInt _, VStr _ => Lt
  | VStr _, VInt _ => Gt
  end.

Fixpoint vals_compare (a b : list pyval) : comparison :=
  match a, b with
  | [], [] => Eq
  | [], _ :: _ => Lt
  | _ :: _, [] => Gt
  | x :: a', y :: b' =>
      match val_compare x y with
      | Eq => vals_compare a' b'
      | c => c
      end
  end.

Definition name_compare (a b : pyname) : comparison :=
  match a, b with
  | NameScalar x, NameScalar y => val_compare x y
  | NameTuple x, NameTuple y => vals_compare x y
  | NameScalar _, NameTuple _ => Lt
  | NameTuple _, NameScalar _ => Gt
  end.

Fixpoint insert_row (name : pyname) (r : row) (groups : list (pyname * frame))
  : list (pyname * frame) :=
  match groups with
  | [] => [(name, [r])]
  | (n, g) :: rest =>
      match name_compare name n with
      | Eq => (n, g ++ [r]) :: rest
      | Lt => (name, [r]) :: groups
      | Gt => (n, g) :: insert_row name r rest
      end
  end.

Definition row_key (cols : string + list string) (r : row) : result pyname :=
  match cols with
  | inl c => v ← cell r c; Ok (NameScalar v)
  | inr cs => vs ← mapM (cell r) cs; Ok (NameTuple vs)
  end.

(** [df.groupby(cols)]: the groups in key order, each with its rows in frame
    order. *)
Definition groupby (cols : string + list string) (df : frame)
  : result (list (pyname * frame)) :=
  keys ← mapM (row_key cols) df;
  Ok (fold_left (fun gs kr => insert_row (fst kr) (snd kr) gs) (zip keys df) []).

(** [pd.concat]. *)
Definition pd_concat {A} (parts : list (list A)) : result (list A) :=
  match parts with
  | [] => Raise ErrNoObjectsToConcatenate
  | _ => Ok (concat parts)
  end.

End Frame.
Export Frame.

(** ** Selection primitives *)

Inductive FractionLocation := FIRST | LAST.

Definition FractionLocation_value (l : FractionLocation) : string :=
  match l with FIRST => "first" | LAST => "last" end.

Definition _get_groupby_columns (id_columns : list string) : string + list string :=
  match id_columns with
  | [c] => inl c
  | _ => inr id_columns
  end.

(** The [(id = name)] suffix is added under [if name]. *)
Definition shown (name : option pyname) : option pyname :=
  if truthy name then name else None.

Definition _split_group_by_index {A} (group_df : list A) (name : option pyname)
    (start_index end_index : option Z) : result (list A) :=
  if truthy start_index
     && match start_index with Some s => len group_df <=? s | None => false end
  then Raise (ErrEmptySelection (shown name))
  else if negb (truthy start_index) then Ok (iloc group_df None end_index)
  else if negb (truthy end_index) then Ok (iloc group_df start_index None)
  else Ok (iloc group_df start_index end_index).

(** A column compared with an optional bound; [None] does not compare. *)
Definition lt_bound (v : pyval) (bound : option pyval) : result bool :=
  match bound with Some b => val_ltb v b | None => Raise ErrType end.
Definition ge_bound (v : pyval) (bound : option pyval) : result bool :=
  match bound with Some b => val_geb v b | None => Raise ErrType end.

Definition select_by_timestamp (df : frame) (timestamp_column : string)
    (start_timestamp end_timestamp : option pyval) : result frame :=
  if negb (truthy start_timestamp) && negb (truthy end_timestamp)
  then Raise ErrNoTimestampGiven
  else if negb (truthy start_timestamp)
  then select_where df timestamp_column (fun v => lt_bound v end_timestamp)
  else if negb (truthy end_timestamp)
  then select_where df timestamp_column (fun v => ge_bound v start_timestamp)
  else select_where df timestamp_column
         (fun v => ge ← ge_bound v start_timestamp;
                   lt ← lt_bound v end_timestamp;
                   Ok (ge && lt)).

Definition select_by_index (df : frame) (id_columns : option (list string))
    (start_index end_index : option Z) : result frame :=
  if negb (truthy start_index) && negb (truthy end_index)
  then Raise ErrNoIndexGiven
  else if negb (truthy id_columns)
  then _split_group_by_index df None start_index end_index
  else
    groups ← groupby (_get_groupby_columns (default [] id_columns)) df;
    result ← mapM (fun ng => _split_group_by_index (snd ng) (Some (fst ng))
                               start_index end_index) groups;
    pd_concat result.

Definition _split_group_by_fraction {A} (group_df : list A) (name : option pyname)
    (start_fraction : option num) (start_offset : Z) (end_fraction : option num)
  : result (list A) :=
  let length := len group_df in
  start_index ←
    match start_fraction with
    | Some sf =>
        p ← int_mul length sf;
        i ← py_int p;
        let start_index := i - start_offset in
        if start_index <? 0 then Raise (ErrNegativeStart (shown name))
        else Ok (Some start_index)
    | None => Ok None
    end;
  end_index ←
    match end_fraction with
    | Some ef => p ← int_mul length ef; i ← py_int p; Ok (Some i)
    | None => Ok None
    end;
  _split_group_by_index group_df name start_index end_index.

Definition select_by_relative_fraction (df : frame) (id_columns : option (list string))
    (start_fraction : option num) (start_offset : Z) (end_fraction : option num)
  : result frame :=
  if negb (truthy start_fraction) && negb (truthy end_fraction)
  then Raise ErrNoFractionGiven
  else if start_offset <? 0 then Raise ErrNegativeOffset
  else if negb (truthy id_columns)
  then _split_group_by_fraction df None start_fraction start_offset end_fraction
  else
    groups ← groupby (_get_groupby_columns (default [] id_columns)) df;
    result ← mapM (fun ng => _split_group_by_fraction (snd ng) (Some (fst ng))
                               start_fraction start_offset end_fraction) groups;
    pd_concat result.

Definition _split_group_by_fixed_fraction {A} (group_df : list A)
    (name : option pyname) (fraction : num) (location : option string)
    (minimum_size : Z) : result (list A) :=
  let l := len group_df in
  p ← mul_int fraction (l - minimum_size);
  i ← py_int p;
  let fraction_size := i + minimum_size in
  if decide (location = Some (FractionLocation_value FIRST))
  then _split_group_by_index group_df name (Some 0) (Some fraction_size)
  else if decide (location = Some (FractionLocation_value LAST))
  then _split_group_by_index group_df name (Some (l - fraction_size)) (Some l)
  else Raise ErrBadLocation.

Definition select_by_fixed_fraction (df : frame) (id_columns : option (list string))
    (fraction : num) (location : string) (minimum_size : Z) : result frame :=
  if lt_zero fraction || gt_one fraction then Raise ErrFractionOutOfRange
  else if negb (truthy id_columns)
  then _split_group_by_fixed_fraction df None fraction (Some location) minimum_size
  else
    groups ← groupby (_get_groupby_columns (default [] id_columns)) df;
    result ← mapM (fun ng => _split_group_by_fixed_fraction (snd ng) (Some (fst ng))
                               fraction (Some location) minimum_size) groups;
    pd_concat result.

Definition _split_group_train_test {A} (group_df : list A) (name : option pyname)
    (train test : num) (valid_test_offset : Z)
  : result (list A * list A * list A) :=
  let l := len group_df in
  train_size ← (p ← int_mul l train; py_int p);
  test_size ← (p ← int_mul l test; py_int p);
  let valid_size := l - train_size - test_size in
  train_df ← _split_group_by_index group_df name (Some 0) (Some train_size);
  valid_df ← _split_group_by_index group_df name
                (Some (train_size - valid_test_offset))
                (Some (train_size + valid_size));
  test_df ← _split_group_by_index group_df name
               (Some (train_size + valid_size - valid_test_offset)) None;
  Ok (train_df, valid_df, test_df).

Definition train_test_split (df : frame) (id_columns : option (list string))
    (train test : num) (valid_test_offset : Z) : result (frame * frame * frame) :=
  if negb (truthy id_columns)
  then _split_group_train_test df None train test valid_test_offset
  else
    groups ← groupby (_get_groupby_columns (default [] id_columns)) df;
    result ← mapM (fun ng => _split_group_train_test (snd ng) (Some (fst ng))
                               train test valid_test_offset) groups;
    match result with
    | [] => Raise ErrUnpack
    | _ =>
        result_train ← pd_concat ((fun t => fst (fst t)) <$> result);
        result_valid ← pd_concat ((fun t => snd (fst t)) <$> result);
        result_test ← pd_concat (snd <$> result);
        Ok (result_train, result_valid, result_test)
    end.

(** A [for] loop that threads the variables it assigns and stops at the
    first exception. *)
Fixpoint for_each {M : Type -> Type} `{MBind M, MRet M} {S X}
    (body : S -> X -> M S) (xs : list X) (s : S) : M S :=
  match xs with
  | [] => mret s
  | x :: rest => s' ← body s x; for_each body rest s'
  end.

(** ** Split-policy resolver *)

(** A value of the split configuration: a scalar proportion or a list of
    boundaries. *)
Inductive cfgval :=
  | CScalar (x : num)
  | CList (xs : list num).

(** The selection primitive chosen for a split. *)
Inductive selector :=
  | SelectByRelativeFraction
  | SelectByIndex.

(** What [get_split_params] returns: per-split parameters with per-split
    functions, or the parameters of [train_test_split]. *)
Inductive split_plan :=
  | PerSplit (split_params : gmap string (gmap string num))
             (split_function : gmap string selector)
  | TrainTestSplit (split_params : gmap string cfgval).

Definition getitem {V} (d : gmap string V) (k : string) : result V :=
  match d !! k with
  | Some v => Ok v
  | None => Raise (ErrKey k)
  end.

(** [split_config[group][i]]. *)
Definition boundary (split_config : gmap string cfgval) (group : string) (i : nat)
  : result num :=
  v ← getitem split_config group;
  match v with
  | CList xs => match xs !! i with Some x => Ok x | None => Raise ErrIndex end
  | CScalar _ => Raise ErrType
  end.

(** [context_length if (context_length and group != "train") else 0]. *)
Definition offset_for (context_length : option Z) (group : string) : Z :=
  if truthy context_length && negb (String.eqb group "train")
  then default 0 context_length
  else 0.

Definition resolve_group (split_config : gmap string cfgval)
    (context_length : option Z)
    (acc : gmap string (gmap string num) * gmap string selector) (group : string)
  : result (gmap string (gmap string num) * gmap string selector) :=
  b0 ← boundary split_config group 0;
  fraction_mode ←
    (if lt_one b0 && ne_zero b0 then Ok true
     else b1 ← boundary split_config group 1; Ok (lt_one b1));
  if fraction_mode : bool then
    b1 ← boundary split_config group 1;
    Ok (<[group :=
           <["start_fraction" := b0]>
           (<["end_fraction" := b1]>
           (<["start_offset" := NInt (offset_for context_length group)]> ∅))]>
          (fst acc),
        <[group := SelectByRelativeFraction]> (snd acc))
  else
    start_index ← sub_int b0 (offset_for context_length group);
    b1 ← boundary split_config group 1;
    Ok (<[group :=
           <["start_index" := start_index]> (<["end_index" := b1]> ∅)]> (fst acc),
        <[group := SelectByIndex]> (snd acc)).

Definition get_split_params (split_config : gmap string cfgval)
    (context_length : option Z) : result split_plan :=
  if decide (is_Some (split_config !! "valid")) then
    acc ← for_each (resolve_group split_config context_length)
                   ["train"; "test"; "valid"] (∅, ∅);
    Ok (PerSplit (fst acc) (snd acc))
  else
    train ← getitem split_config "train";
    test ← getitem split_config "test";
    Ok (TrainTestSplit
          (<["train" := train]>
          (<["test" := test]>
          (<["valid_test_offset" :=
               CScalar (NInt (if truthy context_length
                              then default 0 context_length else 0))]> ∅)))).

(** ** List-merge utility *)

Section JoinList.
Context {A : Type} `{Countable A}.

Definition join_step (st : option (list A) * gset A) (alist : list A)
  : option (list A) * gset A :=
  let final :=
    match fst st with
    | None => alist
    | Some final => final ++ filter (fun item => item ∉ snd st) alist
    end in
  (Some final, list_to_set final).

(** [None] stands for Python's [None], which is returned when no list is
    given. *)
Definition join_list_without_repeat (lists : list (list A)) : option (list A) :=
  fst (fold_left join_step lists (None, ∅)).

(** The description of the result in words: the first list, then of each
    later list the elements that are not in the result accumulated so far. *)
Definition join_spec (first : list A) (rest : list (list A)) : list A :=
  fold_left (fun acc alist => acc ++ filter (fun item => item ∉ acc) alist)
            rest first.

End JoinList.

(** ** Legacy format reader *)

Module Text.

(** Characters that [str.strip] removes from a line decoded as cp1252. *)
Definition is_space (c : ascii) : bool :=
  let n := Z.of_nat (nat_of_ascii c) in
  ((9 <=? n) && (n <=? 13)) || ((28 <=? n) && (n <=? 32)) || (n =? 160).

Fixpoint lstrip (s : string) : string :=
  match s with
  | String c rest => if is_space c then lstrip rest else s
  | EmptyString => EmptyString
  end.

Fixpoint rstrip (s : string) : string :=
  match s with
  | String c rest =>
      match rstrip rest with
      | EmptyString => if is_space c then EmptyString else String c EmptyString
      | rest' => String c rest'
      end
  | EmptyString => EmptyString
  end.

Definition strip (s : string) : string := rstrip (lstrip s).

Fixpoint startswith (s p : string) {struct p} : bool :=
  match p with
  | EmptyString => true
  | String c p' =>
      match s with
      | String d s' => Ascii.eqb d c && startswith s' p'
      | EmptyString => false
      end
  end.

(** [s.split(sep)] for a one-character separator: never an empty list. *)
Fixpoint split (sep : ascii) (s : string) : list string :=
  match s with
  | EmptyString => [EmptyString]
  | String c rest =>
      if Ascii.eqb c sep then EmptyString :: split sep rest
      else match split sep rest with
           | w :: ws => String c w :: ws
           | [] => [String c EmptyString]
           end
  end.

End Text.
Export Text.

Module Tsf.

Inductive tsf_error :=
  | InvalidMetaData
  | MissingAttributeSectionBeforeData
  | MissingDataTag
  | MissingAttributesOrValues
  | NoNumericValues
  | AllSeriesValuesMissing
  | InvalidAttributeType
  | InvalidAttributeValue
  | EmptyFile
  | MissingAttributeSection
  | MissingSeriesInformation
  | BuiltinValueError
  | BuiltinKeyError (k : string)
  | FrameLengthMismatch.

Inductive outcome (A : Type) :=
  | Done (a : A)
  | Fail (e : tsf_error).
Arguments Done {A} a.
Arguments Fail {A} e.

#[export] Instance outcome_bind : MBind outcome :=
  fun A B k r => match r with Done a => k a | Fail e => Fail e end.
#[export] Instance outcome_ret : MRet outcome := fun A a => Done a.
#[export] Instance outcome_fmap : FMap outcome :=
  fun A B f r => match r with Done a => Done (f a) | Fail e => Fail e end.

Section Reader.

(** The built-ins that convert text: [float], [int], [strtobool] and
    [datetime.strptime] with the format of the source.  [None] is their
    [ValueError]. *)
Variable date : Type.
Variable float_of_str : string -> option float.
Variable int_of_str : string -> option Z.
Variable strtobool : string -> option bool.
Variable strptime : string -> option date.

Definition builtin {A} (o : option A) : outcome A :=
  match o with Some a => Done a | None => Fail BuiltinValueError end.

Inductive attval :=
  | AttInt (z : Z)
  | AttStr (s : string)
  | AttDate (d : date).

(** An element of [numeric_series]: the missing-value sentinel or a float. *)
Inductive sval :=
  | Missing
  | Value (f : float).

Record state := mkState {
  col_names : list string;
  col_types : list string;
  all_data : gmap string (list attval);
  all_series : list (list sval);
  line_count : Z;
  frequency : option string;
  forecast_horizon : option Z;
  contain_missing_values : option bool;
  contain_equal_length : option bool;
  found_data_tag : bool;
  found_data_section : bool;
  started_reading_data_section : bool
}.

Definition initial : state :=
  mkState [] [] ∅ [] 0 None None None None false false false.

Definition add_attribute (st : state) (name type : string) : state :=
  mkState (col_names st ++ [name]) (col_types st ++ [type]) (all_data st)
    (all_series st) (line_count st) (frequency st) (forecast_horizon st)
    (contain_missing_values st) (contain_equal_length st) (found_data_tag st)
    (found_data_section st) (started_reading_data_section st).

Definition set_frequency (st : state) (v : string) : state :=
  mkState (col_names st) (col_types st) (all_data st)
    (all_series st) (line_count st) (Some v) (forecast_horizon st)
    (contain_missing_values st) (contain_equal_length st) (found_data_tag st)
    (found_data_section st) (started_reading_data_section st).

Definition set_horizon (st : state) (v : Z) : state :=
  mkState (col_names st) (col_types st) (all_data st)
    (all_series st) (line_count st) (frequency st) (Some v)
    (contain_missing_values st) (contain_equal_length st) (found_data_tag st)
    (found_data_section st) (started_reading_data_section st).

Definition set_missing (st : state) (v : bool) : state :=
  mkState (col_names st) (col_types st) (all_data st)
    (all_series st) (line_count st) (frequency st) (forecast_horizon st)
    (Some v) (contain_equal_length st) (found_data_tag st)
    (found_data_section st) (started_reading_data_section st).

Definition set_equal_length (st : state) (v : bool) : state :=
  mkState (col_names st) (col_types st) (all_data st)
    (all_series st) (line_count st) (frequency st) (forecast_horizon st)
    (contain_missing_values st) (Some v) (found_data_tag st)
    (found_data_section st) (started_reading_data_section st).

Definition set_found_data_tag (st : state) : state :=
  mkState (col_names st) (col_types st) (all_data st)
    (all_series st) (line_count st) (frequency st) (forecast_horizon st)
    (contain_missing_values st) (contain_equal_length st) true
    (found_data_section st) (started_reading_data_section st).

(** The first data row resets [all_series] and gives every declared column
    an empty list. *)
Definition start_data_section (st : state) : state :=
  mkState (col_names st) (col_types st)
    (fold_left (fun d col => <[col := []]> d) (col_names st) (all_data st))
    [] (line_count st) (frequency st) (forecast_horizon st)
    (contain_missing_values st) (contain_equal_length st) (found_data_tag st)
    true true.

Definition set_data (st : state) (d : gmap string (list attval))
    (series : list (list sval)) : state :=
  mkState (col_names st) (col_types st) d series (line_count st) (frequency st)
    (forecast_horizon st) (contain_missing_values st) (contain_equal_length st)
    (found_data_tag st) (found_data_section st) (started_reading_data_section st).

Definition count_line (st : state) : state :=
  mkState (col_names st) (col_types st) (all_data st)
    (all_series st) (line_count st + 1) (frequency st) (forecast_horizon st)
    (contain_missing_values st) (contain_equal_length st) (found_data_tag st)
    (found_data_section st) (started_reading_data_section st).

(** [l[i]] where the source has checked the length of [l] before. *)
Definition nth_str (l : list string) (i : nat) : string := default "" (l !! i).

Definition cast_attribute (type text : string) : outcome attval :=
  if String.eqb type "numeric" then AttInt <$> builtin (int_of_str text)
  else if String.eqb type "string" then Done (AttStr text)
  else if String.eqb type "date" then AttDate <$> builtin (strptime text)
  else Fail InvalidAttributeType.

(** [all_data[col].append(v)]. *)
Definition append_to (d : gmap string (list attval)) (col : string) (v : attval)
  : outcome (gmap string (list attval)) :=
  match d !! col with
  | Some l => Done (<[col := l ++ [v]]> d)
  | None => Fail (BuiltinKeyError col)
  end.

Definition store_attribute (names types full_info : list string)
    (d : gmap string (list attval)) (i : nat) : outcome (gmap string (list attval)) :=
  att_val ← cast_attribute (nth_str types i) (nth_str full_info i);
  append_to d (nth_str names i) att_val.

Definition read_value (val : string) : outcome sval :=
  if String.eqb val "?" then Done Missing
  else Value <$> builtin (float_of_str val).

(** [numeric_series.count(replace_missing_vals_with)]: the sentinel is a
    string, which no float equals. *)
Definition is_missing (v : sval) : bool :=
  match v with Missing => true | Value _ => false end.

Definition count_missing (numeric_series : list sval) : nat :=
  length (List.filter is_missing numeric_series).

Definition read_data_row (st : state) (line : string) : outcome state :=
  let st := if negb (started_reading_data_section st)
            then start_data_section st else st in
  let full_info := split ":" line in
  if negb (length full_info =? length (col_names st) + 1)%nat
  then Fail MissingAttributesOrValues
  else
    let series := split "," (nth_str full_info (length full_info - 1)) in
    if (length series =? 0)%nat then Fail NoNumericValues
    else
      numeric_series ← mapM read_value series;
      if (count_missing numeric_series =? length numeric_series)%nat
      then Fail AllSeriesValuesMissing
      else
        d ← for_each (store_attribute (col_names st) (col_types st) full_info)
               (seq 0 (length (col_names st))) (all_data st);
        Done (set_data st d (all_series st ++ [numeric_series])).

Definition read_meta_data (st : state) (line : string) : outcome state :=
  if negb (startswith line "@data") then
    let line_content := split " " line in
    if startswith line "@attribute" then
      if negb (length line_content =? 3)%nat then Fail InvalidMetaData
      else Done (add_attribute st (nth_str line_content 1) (nth_str line_content 2))
    else
      if negb (length line_content =? 2)%nat then Fail InvalidMetaData
      else if startswith line "@frequency"
      then Done (set_frequency st (nth_str line_content 1))
      else if startswith line "@horizon"
      then set_horizon st <$> builtin (int_of_str (nth_str line_content 1))
      else if startswith line "@missing"
      then set_missing st <$> builtin (strtobool (nth_str line_content 1))
      else if startswith line "@equallength"
      then set_equal_length st <$> builtin (strtobool (nth_str line_content 1))
      else Done st
  else
    if (length (col_names st) =? 0)%nat then Fail MissingAttributeSectionBeforeData
    else Done (set_found_data_tag st).

(** The body of [for line in file]. *)
Definition read_line (st : state) (line : string) : outcome state :=
  let line := strip line in
  if truthy line then
    st' ←
      (if startswith line "@" then read_meta_data st line
       else if negb (startswith line "#") then
         if (length (col_names st) =? 0)%nat
         then Fail MissingAttributeSectionBeforeData
         else if negb (found_data_tag st) then Fail MissingDataTag
         else read_data_row st line
       else Done st);
    Done (count_line st')
  else Done st.

Definition read_lines (lines : list string) (st : state) : outcome state :=
  for_each read_line lines st.

Inductive column :=
  | Attributes (vs : list attval)
  | Series (vs : list (list sval)).

Definition column_length (c : column) : nat :=
  match c with Attributes vs => length vs | Series vs => length vs end.

Record loaded := mkLoaded {
  loaded_data : gmap string column;
  loaded_frequency : option string;
  loaded_forecast_horizon : option Z;
  loaded_contain_missing_values : option bool;
  loaded_contain_equal_length : option bool
}.

(** [pd.DataFrame(all_data)]: the columns must have one length. *)
Definition data_frame (d : gmap string column) : outcome (gmap string column) :=
  match map_to_list d with
  | [] => Done d
  | (_, c) :: rest =>
      if forallb (fun kc => (column_length (snd kc) =? column_length c)%nat) rest
      then Done d else Fail FrameLengthMismatch
  end.

(** The function on the lines of the file, as the file object yields them.
    [replace_missing_vals_with] is the constructor [Missing]. *)
Definition convert_tsf_to_dataframe (lines : list string)
    (value_column_name : string) : outcome loaded :=
  st ← read_lines lines initial;
  if line_count st =? 0 then Fail EmptyFile
  else if (length (col_names st) =? 0)%nat then Fail MissingAttributeSection
  else if negb (found_data_section st) then Fail MissingSeriesInformation
  else
    frame ← data_frame (<[value_column_name := Series (all_series st)]>
                          (Attributes <$> all_data st));
    Done (mkLoaded frame (frequency st) (forecast_horizon st)
            (contain_missing_values st) (contain_equal_length st)).

End Reader.

Arguments col_names {date} _.
Arguments col_types {date} _.
Arguments all_data {date} _.
Arguments all_series {date} _.
Arguments line_count {date} _.
Arguments frequency {date} _.
Arguments forecast_horizon {date} _.
Arguments contain_missing_values {date} _.
Arguments contain_equal_length {date} _.
Arguments found_data_tag {date} _.
Arguments found_data_section {date} _.
Arguments started_reading_data_section {date} _.
Arguments initial {date}.
Arguments count_line {date} st.
Arguments set_found_data_tag {date} st.
Arguments start_data_section {date} st.

End Tsf.

(** ** Frames and compositions used in the statements *)

(** The two selections of the reconstruction property, concatenated. *)
Definition split_at_and_concat (T : frame) (k : Z) : result frame :=
  head ← select_by_index T None (Some 0) (Some k);
  tail ← select_by_index T None (Some k) None;
  Ok (head ++ tail).

Definition two_rows : frame :=
  [{["timestamp" := VInt 0]}; {["timestamp" := VInt 1]}].

Definition ten_rows : frame := (fun i => {["timestamp" := VInt i]}) <$> seqZ 0 10.

Definition three_rows : frame := (fun i => {["timestamp" := VInt i]}) <$> seqZ 0 3.

Definition hundred_rows : frame :=
  (fun i => {["timestamp" := VInt i]}) <$> seqZ 0 100.

(** The three-way split in the words of its description: sizes by [floor],
    and the three ranges of rows. *)
Definition train_test_split_described {A} (group : list A) (train test : num)
    (offset : Z) : result (list A * list A * list A) :=
  let l := len group in
  train_size ← (p ← int_mul l train; py_floor p);
  test_size ← (p ← int_mul l test; py_floor p);
  let valid_size := l - train_size - test_size in
  Ok (rows_between group 0 train_size,
      rows_between group (train_size - offset) (train_size + valid_size),
      rows_between group (train_size + valid_size - offset) l).

(** The integer timestamp of a row, for frames whose timestamp column holds
    integers (the position index that [convert_tsf] writes). *)
Definition int_timestamp (timestamp_column : string) (r : row) : Z :=
  match r !! timestamp_column with
  | Some (VInt t) => t
  | _ => 0
  end.

Definition has_int_timestamp (timestamp_column : string) (r : row) : Prop :=
  exists t, r !! timestamp_column = Some (VInt t).

(** *** Split configurations *)

(** A value without fractional part. *)
Definition is_integral (x : num) : bool :=
  match x with
  | NInt _ => true
  | NFloat (S754_zero _) => true
  | NFloat (S754_finite _ m e) =>
      if 0 <=? e then true else Zpos m mod 2 ^ (- e) =? 0
  | NFloat _ => false
  end.

(** Fraction mode in the words of the description: a boundary that is not
    integral, or a first boundary equal to 0. *)
Definition described_fraction_mode (b0 b1 : num) : bool :=
  negb (is_integral b0) || negb (is_integral b1) || negb (ne_zero b0).

(** Fraction mode as the resolver tests it. *)
Definition tested_fraction_mode (b0 b1 : num) : bool :=
  (lt_one b0 && ne_zero b0) || lt_one b1.

Definition fraction_params (b0 b1 : num) (offset : Z) : gmap string num :=
  <["start_fraction" := b0]>
    (<["end_fraction" := b1]> (<["start_offset" := NInt offset]> ∅)).

Definition index_params (start_index b1 : num) : gmap string num :=
  <["start_index" := start_index]> (<["end_index" := b1]> ∅).

Definition three_way (train valid test : list num) : gmap string cfgval :=
  <["train" := CList train]>
    (<["valid" := CList valid]> (<["test" := CList test]> ∅)).

(** [{"train": [0, 100], "valid": [100, 150], "test": [150, 200]}]. *)
Definition index_config : gmap string cfgval :=
  three_way [NInt 0; NInt 100] [NInt 100; NInt 150] [NInt 150; NInt 200].

(** [{"train": [0, 0.7], "valid": [0.7, 0.9], "test": [0.9, 1.0]}]. *)
Definition fraction_config : gmap string cfgval :=
  three_way [NInt 0; NFloat (decimal 7 10)]
            [NFloat (decimal 7 10); NFloat (decimal 9 10)]
            [NFloat (decimal 9 10); NFloat fone].

(** What the resolver returns for one split with boundaries [b0], [b1] and
    offset [offset]. *)
Definition group_resolved (params : gmap string (gmap string num))
    (funcs : gmap string selector) (group : string) (b0 b1 : num) (offset : Z)
  : Prop :=
  if tested_fraction_mode b0 b1
  then funcs !! group = Some SelectByRelativeFraction
       /\ params !! group = Some (fraction_params b0 b1 offset)
  else funcs !! group = Some SelectByIndex
       /\ exists start_index,
            sub_int b0 offset = Ok start_index
            /\ params !! group = Some (index_params start_index b1).

(** *** Kinds of lines of the legacy format, after stripping *)

Definition is_data_tag (line : string) : bool := startswith (strip line) "@data".

Definition is_attribute (line : string) : bool :=
  startswith (strip line) "@attribute".

(** A line that is not blank, not meta-data and not a comment. *)
Definition is_data_row (line : string) : bool :=
  truthy (strip line) && negb (startswith (strip line) "@")
  && negb (startswith (strip line) "#").

(** The last colon-separated field of a row, split at the commas. *)
Definition row_values (line : string) : list string :=
  let full_info := split ":" (strip line) in
  split "," (Tsf.nth_str full_info (length full_info - 1)).

(** Four rows of two series: the series 1 has the timestamps 0, 1, 2 and the
    series 2 the timestamp 0. *)
Definition two_series : frame :=
  [ <["id" := VInt 1]> {["timestamp" := VInt 0]};
    <["id" := VInt 2]> {["timestamp" := VInt 0]};
    <["id" := VInt 1]> {["timestamp" := VInt 1]};
    <["id" := VInt 1]> {["timestamp" := VInt 2]} ].

(** Three rows of the one series 7. *)
Definition one_series : frame :=
  (fun i => <["id" := VInt 7]> {["timestamp" := VInt i]}) <$> seqZ 0 3.

(** [{"train": 0.7, "test": 0.2}]. *)
Definition two_way_config : gmap string cfgval :=
  <["train" := CScalar (NFloat (decimal 7 10))]>
    (<["test" := CScalar (NFloat (decimal 2 10))]> ∅).

(** Rows with the integer timestamps -1, 0, 1, 2, 3. *)
Definition five_ticks : frame :=
  (fun i => {["timestamp" := VInt i]}) <$> [-1; 0; 1; 2; 3].

(** A line with something on it besides white space. *)
Definition is_blank (line : string) : bool := negb (truthy (strip line)).

(** A series with a value that is not missing, as the reader tests it. *)
Definition has_value (numeric_series : list Tsf.sval) : bool :=
  negb (Tsf.count_missing numeric_series =? length numeric_series)%nat.

(** An error that the loop over the lines can raise. *)
Definition loop_error (e : Tsf.tsf_error) : Prop :=
  e <> Tsf.EmptyFile /\ e <> Tsf.NoNumericValues.

(** Before the first data row there is no series, and no series kept is
    entirely missing. *)
Definition series_kept {date : Type} (st : Tsf.state date) : Prop :=
  (Tsf.started_reading_data_section st = false -> Tsf.all_series st = [])
  /\ Forall (fun s => has_value s = true) (Tsf.all_series st).

(** A comment line. *)
Definition is_comment (line : string) : bool := startswith (strip line) "#".

(** [float] on the one text ["1"], for the examples. *)
Definition float_of_one (val : string) : option float :=
  if String.eqb val "1" then Some fone else None.

(** The result of reading the file with the lines
    [@attribute series_name string], [@frequency daily], [@data] and
    [T1:1,?]. *)
Definition one_row_loaded : Tsf.loaded unit :=
  Tsf.mkLoaded unit
    (<["series_value" := Tsf.Series unit [[Tsf.Value fone; Tsf.Missing]]]>
       (Tsf.Attributes unit <$> {["series_name" := [Tsf.AttStr unit "T1"]]}))
    (Some "daily") None None None.

(** * Properties *)

(** ** Conversion of row counts to floats *)

Module FloatFacts.

Lemma digits2_pos_lower (m : positive) :
  2 ^ (Zpos (digits2_pos m) - 1) <= Zpos m.
Proof.
  induction m as [m IH | m IH |]; simpl digits2_pos.
  - rewrite Pos2Z.inj_succ.
    replace (Z.succ (Zpos (digits2_pos m)) - 1) with (Z.succ (Zpos (digits2_pos m) - 1)) by lia.
    rewrite Z.pow_succ_r by lia. change (Zpos m~1) with (2 * Zpos m + 1). lia.
  - rewrite Pos2Z.inj_succ.
    replace (Z.succ (Zpos (digits2_pos m)) - 1) with (Z.succ (Zpos (digits2_pos m) - 1)) by lia.
    rewrite Z.pow_succ_r by lia. change (Zpos m~0) with (2 * Zpos m). lia.
  - simpl. lia.
Qed.

Lemma digits2_pos_small (m : positive) :
  Zpos m < 2 ^ 53 -> Zpos (digits2_pos m) <= 53.
Proof.
  intros Hm. destruct (Z_le_gt_dec (Zpos (digits2_pos m)) 53) as [|Hgt]; [assumption|].
  pose proof (digits2_pos_lower m) as Hlow.
  assert (2 ^ 53 <= 2 ^ (Zpos (digits2_pos m) - 1)) by (apply Z.pow_le_mono_r; lia).
  lia.
Qed.

Lemma digits2_pos_iter_xO (m k : positive) :
  digits2_pos (Pos.iter xO m k) = (digits2_pos m + k)%positive.
Proof.
  induction k as [|k IH] using Pos.peano_ind.
  - simpl. lia.
  - rewrite Pos.iter_succ. simpl. rewrite IH. lia.
Qed.

(** A mantissa of exactly 53 digits with a small exponent is stored as it
    is. *)
Lemma binary_round_aux_canonical (s : bool) (m : positive) (e : Z) :
  Zpos (digits2_pos m) = 53 -> -1074 <= e <= 971 ->
  binary_round_aux prec emax s (Zpos m) e loc_Exact = S754_finite s m e.
Proof.
  intros Hd He.
  assert (Hshr : forall l, l = loc_Exact ->
            shr_fexp prec emax (Zpos m) e l
            = ({| shr_m := Zpos m; shr_r := false; shr_s := false |}, e)).
  { intros l ->. unfold shr_fexp, fexp, emin, prec, emax. simpl Zdigits2. rewrite Hd.
    replace (Z.max (53 + e - 53) (3 - 1024 - 53) - e) with 0 by lia.
    reflexivity. }
  unfold binary_round_aux. rewrite (Hshr _ eq_refl). simpl shr_m. simpl loc_of_shr_record.
  simpl round_nearest_even. rewrite (Hshr _ eq_refl). simpl shr_m.
  unfold emax, prec. replace (e <=? 1024 - 53) with true by (symmetry; apply Z.leb_le; lia).
  reflexivity.
Qed.

Lemma float_of_int_small (z : Z) :
  0 <= z < 2 ^ 53 ->
  float_of_int z = Ok (S754_zero false)
  \/ exists m e, float_of_int z = Ok (S754_finite false m e).
Proof.
  intros [Hz0 Hz]. destruct z as [|m|m]; [left; reflexivity | right | lia].
  pose proof (digits2_pos_small m Hz) as Hd.
  unfold float_of_int, binary_normalize, binary_round, shl_align.
  unfold fexp, emin, prec, emax.
  replace (Z.max (Zpos (digits2_pos m) + 0 - 53) (3 - 1024 - 53))
    with (Zpos (digits2_pos m) - 53) by lia.
  destruct (Zpos (digits2_pos m) - 53 - 0) as [|d|d] eqn:Hdiff; [| lia |].
  - fold prec emax. rewrite binary_round_aux_canonical by lia. eauto.
  - fold prec emax. rewrite binary_round_aux_canonical.
    + eauto.
    + rewrite digits2_pos_iter_xO. lia.
    + unfold prec. lia.
Qed.


(** [int(0.0 * l)] is [0] for every row count. *)
Lemma int_of_zero_times (z : Z) :
  0 <= z < 2 ^ 53 -> (p ← mul_int (NFloat fzero) z; py_int p) = Ok 0.
Proof.
  intros Hz. unfold mul_int.
  destruct (float_of_int_small z Hz) as [-> | (m & e & ->)]; reflexivity.
Qed.

End FloatFacts.

(** ** Slices *)

Module SliceFacts.

Lemma len_nonneg {A} (df : list A) : 0 <= len df.
Proof. unfold len. lia. Qed.

Lemma len_pos {A} (df : list A) : df <> [] -> 0 < len df.
Proof. destruct df; [congruence | unfold len; simpl; lia]. Qed.

Lemma iloc_upto_zero {A} (df : list A) : iloc df None (Some 0) = [].
Proof.
  unfold iloc, clamp_index. simpl.
  pose proof (len_nonneg df). rewrite Z.min_l by lia. reflexivity.
Qed.

Lemma iloc_prefix {A} (df : list A) (k : Z) :
  0 <= k <= len df -> iloc df None (Some k) = take (Z.to_nat k) df.
Proof.
  intros Hk. unfold iloc, clamp_index.
  replace (k <? 0) with false by (symmetry; apply Z.ltb_ge; lia).
  rewrite Z.min_l by lia. rewrite Z.sub_0_r. reflexivity.
Qed.

Lemma iloc_suffix {A} (df : list A) (k : Z) :
  0 <= k <= len df -> iloc df (Some k) None = drop (Z.to_nat k) df.
Proof.
  intros Hk. unfold iloc, clamp_index.
  replace (k <? 0) with false by (symmetry; apply Z.ltb_ge; lia).
  rewrite Z.min_l by lia.
  apply take_ge. rewrite length_drop. unfold len in *. lia.
Qed.

Lemma iloc_all {A} (df : list A) : iloc df None None = df.
Proof.
  unfold iloc. rewrite Z.sub_0_r. simpl. apply take_ge. unfold len. lia.
Qed.

Lemma iloc_range {A} (df : list A) (a b : Z) :
  0 <= a <= len df -> 0 <= b <= len df ->
  iloc df (Some a) (Some b) = rows_between df a b.
Proof.
  intros Ha Hb. unfold iloc, rows_between, clamp_index.
  replace (a <? 0) with false by (symmetry; apply Z.ltb_ge; lia).
  replace (b <? 0) with false by (symmetry; apply Z.ltb_ge; lia).
  rewrite !Z.min_l by lia. reflexivity.
Qed.

(** A negative start counts from the end of the frame. *)
Lemma iloc_negative_suffix {A} (df : list A) (s : Z) :
  - len df <= s < 0 -> iloc df (Some s) None = drop (Z.to_nat (len df + s)) df.
Proof.
  intros Hs. unfold iloc, clamp_index.
  replace (s <? 0) with true by (symmetry; apply Z.ltb_lt; lia).
  rewrite Z.max_l by lia. rewrite (Z.add_comm s).
  apply take_ge. rewrite length_drop. unfold len in *. lia.
Qed.

Lemma iloc_negative_range {A} (df : list A) (s e : Z) :
  - len df <= s < 0 -> 0 <= e <= len df ->
  iloc df (Some s) (Some e) = rows_between df (len df + s) e.
Proof.
  intros Hs He. unfold iloc, rows_between, clamp_index.
  replace (s <? 0) with true by (symmetry; apply Z.ltb_lt; lia).
  replace (e <? 0) with false by (symmetry; apply Z.ltb_ge; lia).
  rewrite Z.max_l by lia. rewrite Z.min_l by lia. rewrite (Z.add_comm s).
  reflexivity.
Qed.

Lemma rows_between_prefix {A} (df : list A) (k : Z) :
  rows_between df 0 k = take (Z.to_nat k) df.
Proof. unfold rows_between. rewrite Z.sub_0_r. reflexivity. Qed.

Lemma rows_between_suffix {A} (df : list A) (k : Z) :
  0 <= k -> rows_between df k (len df) = drop (Z.to_nat k) df.
Proof.
  intros Hk. unfold rows_between. apply take_ge. rewrite length_drop.
  unfold len. lia.
Qed.

(** Adjacent ranges concatenate. *)
Lemma rows_between_app {A} (df : list A) (a b c : Z) :
  0 <= a <= b -> b <= c ->
  rows_between df a b ++ rows_between df b c = rows_between df a c.
Proof.
  intros Hab Hbc. unfold rows_between.
  replace (Z.to_nat b) with (Z.to_nat a + Z.to_nat (b - a))%nat by lia.
  rewrite <- drop_drop.
  replace (Z.to_nat (c - a)) with (Z.to_nat (b - a) + Z.to_nat (c - b))%nat by lia.
  apply take_take_drop.
Qed.

Lemma truthy_index_nonzero (z : Z) : z <> 0 -> truthy (Some z) = true.
Proof.
  intros Hz. unfold truthy, truthy_option, truthy, truthy_Z.
  apply negb_true_iff, Z.eqb_neq, Hz.
Qed.

End SliceFacts.


(** ** Fixed fractions *)

(** C10: on a non-empty group, [fraction = 0.0] with [minimum_size = 0]
    raises the empty-selection error for location ["last"], where the start
    index is the length of the group, and returns no rows for location
    ["first"]; the same holds for [select_by_fixed_fraction] on a frame
    without id columns. *)
Theorem fixed_fraction_zero_first_last {A} (group : list A) (name : option pyname)
    (df : frame) :
  group <> [] -> len group < 2 ^ 53 -> df <> [] -> len df < 2 ^ 53 ->
  _split_group_by_fixed_fraction group name (NFloat fzero) (Some "last") 0
    = Raise (ErrEmptySelection (shown name))
  /\ _split_group_by_fixed_fraction group name (NFloat fzero) (Some "first") 0
    = Ok []
  /\ select_by_fixed_fraction df None (NFloat fzero) "last" 0
    = Raise (ErrEmptySelection None)
  /\ select_by_fixed_fraction df None (NFloat fzero) "first" 0 = Ok [].
Proof.
  intros Hg Hgl Hd Hdl.
  assert (Hgroup : forall B (g : list B) (n : option pyname),
             g <> [] -> len g < 2 ^ 53 ->
             _split_group_by_fixed_fraction g n (NFloat fzero) (Some "last") 0
               = Raise (ErrEmptySelection (shown n))
             /\ _split_group_by_fixed_fraction g n (NFloat fzero) (Some "first") 0
               = Ok []).
  { intros B g n Hne Hlt. pose proof (SliceFacts.len_pos g Hne) as Hpos.
    unfold _split_group_by_fixed_fraction.
    rewrite Z.sub_0_r.
    pose proof (FloatFacts.int_of_zero_times (len g) ltac:(lia)) as Hz.
    unfold mbind, result_bind, bind in *.
    destruct (mul_int (NFloat fzero) (len g)) as [p|]; [| discriminate].
    rewrite Hz. simpl.
    split.
    - unfold _split_group_by_index. rewrite Z.sub_0_r.
      replace (truthy (Some (len g))) with true
        by (unfold truthy, truthy_option, truthy, truthy_Z;
            symmetry; apply negb_true_iff, Z.eqb_neq; lia).
      rewrite Z.leb_refl. reflexivity.
    - unfold _split_group_by_index. simpl.
      rewrite SliceFacts.iloc_upto_zero. reflexivity. }
  destruct (Hgroup A group name Hg Hgl) as [H1 H2].
  destruct (Hgroup _ df None Hd Hdl) as [H3 H4].
  repeat split; assumption.
Qed.

Lemma fixed_fraction_zero_first_last_witness :
  let df : frame := [{["timestamp" := VInt 0]}; {["timestamp" := VInt 1]}] in
  select_by_fixed_fraction df None (NFloat fzero) "last" 0
    = Raise (ErrEmptySelection None)
  /\ select_by_fixed_fraction df None (NFloat fzero) "first" 0 = Ok [].
Proof.
  intros df.
  refine (proj2 (proj2 (fixed_fraction_zero_first_last df None df _ _ _ _)));
    first [discriminate | vm_compute; reflexivity].
Defined.

(** ** Selection by index *)

Module IndexFacts.

(** The emptiness check of the per-group helper. *)
Lemma split_group_by_index_raises {A} (group_df : list A) (name : option pyname)
    (start_index end_index : option Z) :
  (exists e, _split_group_by_index group_df name start_index end_index = Raise e)
  <-> exists s, start_index = Some s /\ s <> 0 /\ len group_df <= s.
Proof.
  unfold _split_group_by_index. split.
  - intros [e He]. destruct start_index as [s|].
    + exists s. destruct (truthy (Some s)) eqn:Hs0.
      * destruct (len group_df <=? s) eqn:Hle.
        -- apply negb_true_iff, Z.eqb_neq in Hs0. apply Z.leb_le in Hle. auto.
        -- simpl in He. destruct (negb (truthy end_index)); discriminate.
      * discriminate.
    + discriminate.
  - intros (s & -> & Hs & Hle).
    rewrite SliceFacts.truthy_index_nonzero by assumption.
    replace (len group_df <=? s) with true by (symmetry; apply Z.leb_le; lia).
    eauto.
Qed.

(** The only error of the helper is the empty-selection error, with the
    group name when the name is truthy. *)
Lemma split_group_by_index_error {A} (group_df : list A) (name : option pyname)
    (start_index end_index : option Z) (e : pyerr) :
  _split_group_by_index group_df name start_index end_index = Raise e ->
  e = ErrEmptySelection (shown name).
Proof.
  unfold _split_group_by_index.
  destruct (truthy start_index && _); [congruence |].
  destruct (negb (truthy start_index)); [discriminate |].
  destruct (negb (truthy end_index)); discriminate.
Qed.

(** A truthy start below the length selects from that start. *)
Lemma split_group_by_index_from {A} (group_df : list A) (name : option pyname)
    (s : Z) (end_index : option Z) :
  s <> 0 -> s < len group_df ->
  _split_group_by_index group_df name (Some s) end_index
  = Ok (iloc group_df (Some s) (if truthy end_index then end_index else None)).
Proof.
  intros Hs Hlt. unfold _split_group_by_index.
  rewrite SliceFacts.truthy_index_nonzero by assumption.
  replace (len group_df <=? s) with false by (symmetry; apply Z.leb_gt; lia).
  simpl. destruct (truthy end_index); reflexivity.
Qed.

(** A falsy start selects from the first row, whatever the end. *)
Lemma split_group_by_index_upto {A} (group_df : list A) (name : option pyname)
    (start_index end_index : option Z) :
  truthy start_index = false ->
  _split_group_by_index group_df name start_index end_index
  = Ok (iloc group_df None end_index).
Proof. intros Hs. unfold _split_group_by_index. rewrite Hs. reflexivity. Qed.

End IndexFacts.

(** C3, as stated, fails at [k = len T]: the second selection starts at the
    length of the frame and raises the empty-selection error. *)
Lemma split_at_length_raises :
  0 <= 2 <= len two_rows
  /\ split_at_and_concat two_rows 2 = Raise (ErrEmptySelection None)
  /\ split_at_and_concat two_rows 2 <> Ok two_rows.
Proof.
  split; [vm_compute; split; discriminate |].
  split; [reflexivity |].
  change (Raise (ErrEmptySelection None) <> Ok two_rows). discriminate.
Qed.

(** C3 (amended): for a frame [T] without id columns and every [k] with
    [0 < k < len T], the rows selected up to [k] followed by the rows selected
    from [k] are the rows of [T]; at [k = len T] on a non-empty frame the
    second selection raises the empty-selection error. *)
Theorem split_at_and_concat_reconstructs (T : frame) (k : Z) :
  (0 < k < len T -> split_at_and_concat T k = Ok T)
  /\ (0 < k -> k = len T ->
      select_by_index T None (Some k) None = Raise (ErrEmptySelection None)).
Proof.
  split.
  - intros Hk. unfold split_at_and_concat, select_by_index.
    rewrite (SliceFacts.truthy_index_nonzero k) by lia.
    simpl negb. simpl andb. cbv iota.
    rewrite (IndexFacts.split_group_by_index_upto T None (Some 0) (Some k))
      by reflexivity.
    rewrite IndexFacts.split_group_by_index_from by lia.
    simpl. rewrite SliceFacts.iloc_prefix, SliceFacts.iloc_suffix by lia.
    rewrite take_drop. reflexivity.
  - intros Hk ->. unfold select_by_index.
    rewrite SliceFacts.truthy_index_nonzero by lia. simpl.
    unfold _split_group_by_index.
    rewrite SliceFacts.truthy_index_nonzero by lia.
    rewrite Z.leb_refl. reflexivity.
Qed.

Lemma split_at_and_concat_reconstructs_witness :
  split_at_and_concat two_rows 1 = Ok two_rows.
Proof.
  apply (proj1 (split_at_and_concat_reconstructs two_rows 1)).
  split; reflexivity.
Defined.

(** C4: a frame grouped by the single column ["id"] whose group has the id
    [0]; the start index is beyond the group, the empty-selection error is
    raised, and its message does not show the id of the group. *)
Example empty_selection_hides_falsy_id :
  let df : frame := [{["id" := VInt 0; "timestamp" := VInt 0]}] in
  select_by_index df (Some ["id"]) (Some 1) None = Raise (ErrEmptySelection None)
  /\ groupby (_get_groupby_columns ["id"]) df = Ok [(NameScalar (VInt 0), df)].
Proof. split; reflexivity. Qed.

(** C9: on a frame of length [l] without id columns, a start index [s] with
    [-l <= s < 0] raises no error: the selection counts from the end of the
    frame, and with no end index it is the last [|s|] rows.
    On every frame, empty or not, [train_test_split] takes this path for its
    validation rows whenever the offset exceeds the train size: the
    validation selection is then made with
    the negative start index [train_size - offset] and raises no error, and
    for sizes that are not negative the whole split raises no error.  When
    moreover [train_size + test_size < l] and [offset - train_size <= l], the
    validation rows start [offset - train_size] rows before the end of the
    group. *)
Theorem negative_start_counts_from_end (df : frame) (s : Z) (end_index : option Z) :
  (- len df <= s < 0 ->
   select_by_index df None (Some s) end_index
     = Ok (iloc df (Some s) (if truthy end_index then end_index else None))
   /\ select_by_index df None (Some s) None = Ok (drop (Z.to_nat (len df + s)) df)
   /\ len (drop (Z.to_nat (len df + s)) df) = - s)
  /\ forall (name : option pyname) (train test : num) (offset ts tes : Z),
       (p ← int_mul (len df) train; py_int p) = Ok ts ->
       (p ← int_mul (len df) test; py_int p) = Ok tes ->
       ts < offset ->
       let valid_df :=
         iloc df (Some (ts - offset))
           (if len df - tes =? 0 then None else Some (len df - tes)) in
       ts - offset < 0
       /\ _split_group_by_index df name (Some (ts - offset))
            (Some (ts + (len df - ts - tes))) = Ok valid_df
       /\ _split_group_train_test df name train test offset
          = (test_df ← _split_group_by_index df name
                         (Some (len df - tes - offset)) None;
             Ok (iloc df None (Some ts), valid_df, test_df))
       /\ train_test_split df None train test offset
          = _split_group_train_test df None train test offset
       /\ (0 <= ts -> 0 <= tes ->
           exists train_df test_df,
             _split_group_train_test df name train test offset
             = Ok (train_df, valid_df, test_df))
       /\ (0 <= ts -> 0 <= tes -> ts + tes < len df -> offset - ts <= len df ->
           valid_df = rows_between df (len df - (offset - ts)) (len df - tes)).
Proof.
  split.
  { intros Hs.
    assert (Hsel : forall e, select_by_index df None (Some s) e
                   = Ok (iloc df (Some s) (if truthy e then e else None))).
    { intros e. unfold select_by_index.
      rewrite SliceFacts.truthy_index_nonzero by lia. simpl.
      apply IndexFacts.split_group_by_index_from; lia. }
    split; [apply Hsel |]. split.
    - rewrite Hsel. simpl. rewrite SliceFacts.iloc_negative_suffix by lia.
      reflexivity.
    - unfold len. rewrite length_drop. unfold len in Hs. lia. }
  intros name train test offset ts tes Hts Htes Hoff valid_df.
  pose proof (SliceFacts.len_nonneg df) as Hl.
  assert (Hvalid : _split_group_by_index df name (Some (ts - offset))
                     (Some (ts + (len df - ts - tes))) = Ok valid_df).
  { rewrite IndexFacts.split_group_by_index_from by lia.
    replace (ts + (len df - ts - tes)) with (len df - tes) by lia.
    unfold valid_df, truthy, truthy_option, truthy, truthy_Z.
    destruct (len df - tes =? 0); reflexivity. }
  assert (Hsplit : _split_group_train_test df name train test offset
            = (test_df ← _split_group_by_index df name
                           (Some (len df - tes - offset)) None;
               Ok (iloc df None (Some ts), valid_df, test_df))).
  { unfold _split_group_train_test.
    unfold mbind, result_bind, bind in *.
    destruct (int_mul (len df) train) as [p|]; [| discriminate]. rewrite Hts.
    destruct (int_mul (len df) test) as [q|]; [| discriminate]. rewrite Htes.
    rewrite IndexFacts.split_group_by_index_upto by reflexivity.
    rewrite Hvalid.
    replace (ts + (len df - ts - tes) - offset) with (len df - tes - offset) by lia.
    reflexivity. }
  split; [lia |]. split; [exact Hvalid |]. split; [exact Hsplit |].
  split; [reflexivity |]. split.
  - intros Hts0 Htes0. rewrite Hsplit.
    destruct (Z.eq_dec (len df - tes - offset) 0) as [Hz | Hnz].
    + rewrite Hz. rewrite IndexFacts.split_group_by_index_upto by reflexivity.
      eexists _, _. reflexivity.
    + rewrite IndexFacts.split_group_by_index_from by lia.
      eexists _, _. reflexivity.
  - intros Hts0 Htes0 Hsum Hoffl. unfold valid_df.
    replace (len df - tes =? 0) with false by (symmetry; apply Z.eqb_neq; lia).
    rewrite SliceFacts.iloc_negative_range by lia. f_equal. lia.
Qed.

Lemma negative_start_counts_from_end_witness :
  select_by_index ten_rows None (Some (-3)) None = Ok (drop 7 ten_rows)
  /\ (exists train_df test_df,
        _split_group_train_test ten_rows None (NFloat (decimal 2 10))
          (NFloat (decimal 2 10)) 5
        = Ok (train_df, rows_between ten_rows 7 8, test_df))
  /\ (exists train_df test_df,
        _split_group_train_test ten_rows None (NFloat (decimal 8 10))
          (NFloat (decimal 2 10)) 9
        = Ok (train_df, iloc ten_rows (Some (-1)) (Some 8), test_df))
  /\ (exists train_df test_df,
        _split_group_train_test ten_rows None (NInt 0) (NFloat fone) 3
        = Ok (train_df, iloc ten_rows (Some (-3)) None, test_df)).
Proof.
  assert (Hs : - len ten_rows <= -3 < 0) by (vm_compute; split; congruence).
  destruct (negative_start_counts_from_end ten_rows (-3) None) as [Hneg Hreach].
  destruct (Hneg Hs) as (_ & Hlast & _).
  split; [exact Hlast |]. split; [| split].
  - destruct (Hreach None (NFloat (decimal 2 10)) (NFloat (decimal 2 10)) 5 2 2)
      as (_ & _ & _ & _ & Hok & Hrows);
      [vm_compute; reflexivity | vm_compute; reflexivity | lia |].
    specialize (Hrows ltac:(lia) ltac:(lia) ltac:(vm_compute; reflexivity)
                  ltac:(vm_compute; congruence)).
    change (rows_between ten_rows 7 8)
      with (rows_between ten_rows (len ten_rows - (5 - 2)) (len ten_rows - 2)).
    rewrite <- Hrows. apply Hok; lia.
  - destruct (Hreach None (NFloat (decimal 8 10)) (NFloat (decimal 2 10)) 9 8 2)
      as (_ & _ & _ & _ & Hok & _);
      [vm_compute; reflexivity | vm_compute; reflexivity | lia |].
    exact (Hok ltac:(lia) ltac:(lia)).
  - destruct (Hreach None (NInt 0) (NFloat fone) 3 0 10)
      as (_ & _ & _ & _ & Hok & _);
      [vm_compute; reflexivity | vm_compute; reflexivity | lia |].
    exact (Hok ltac:(lia) ltac:(lia)).
Defined.

(** ** Products of a row count and a non-negative number *)

Module ProductFacts.

Lemma binary_round_aux_sign (s : bool) (m e : Z) (l : location) :
  match binary_round_aux prec emax s m e l with
  | S754_finite s' _ _ => s' = s
  | _ => True
  end.
Proof.
  unfold binary_round_aux.
  destruct (shr_fexp prec emax m e l) as [mrs' e'].
  destruct (shr_fexp prec emax _ e' loc_Exact) as [mrs'' e''].
  destruct (shr_m mrs''); [exact I | | exact I].
  destruct (e'' <=? emax - prec); [reflexivity | exact I].
Qed.

Lemma ge_zero_float (f : float) :
  SFleb fzero f = true ->
  match f with
  | S754_finite s _ _ => s = false
  | S754_infinity s => s = false
  | S754_nan => False
  | S754_zero _ => True
  end.
Proof.
  destruct f as [s | s | | s m e]; [auto | | |];
    try destruct s; vm_compute; congruence.
Qed.

Lemma mul_not_negative (fl f : float) :
  (fl = S754_zero false \/ exists m e, fl = S754_finite false m e) ->
  SFleb fzero f = true ->
  not_negative (SFmul prec emax fl f) /\ not_negative (SFmul prec emax f fl).
Proof.
  intros Hfl Hf. apply ge_zero_float in Hf.
  destruct Hfl as [-> | (m & e & ->)];
    destruct f as [s | s | | s m' e']; try contradiction; subst; simpl; auto.
  split.
  - pose proof (binary_round_aux_sign false (Zpos (m * m')) (e + e') loc_Exact) as Hs.
    destruct (binary_round_aux prec emax false (Zpos (m * m')) (e + e') loc_Exact);
      simpl; auto. subst. exact I.
  - pose proof (binary_round_aux_sign false (Zpos (m' * m)) (e' + e) loc_Exact) as Hs.
    destruct (binary_round_aux prec emax false (Zpos (m' * m)) (e' + e) loc_Exact);
      simpl; auto. subst. exact I.
Qed.

Lemma int_of_not_negative (f : float) (z : Z) :
  not_negative f -> int_of_float f = Ok z -> 0 <= z /\ floor_of_float f = Ok z.
Proof.
  destruct f as [s | s | | s m e]; simpl; try discriminate.
  - intros _ Hz. inversion Hz. split; [lia | reflexivity].
  - destruct s; [contradiction |]. intros _ Hz. inversion Hz as [Hz']. clear Hz.
    destruct (0 <=? e) eqn:He.
    + split; [| reflexivity]. apply Z.shiftl_nonneg. lia.
    + apply Z.leb_gt in He. rewrite Z.shiftr_div_pow2 by lia.
      split; [| reflexivity]. apply Z.div_pos; [lia |].
      apply Z.pow_pos_nonneg; lia.
Qed.

(** [int(l * x)] for a row count [l] and [x >= 0]: not negative, and equal
    to the floor of the product. *)
Lemma int_of_product (l : Z) (x : num) (z : Z) :
  0 <= l < 2 ^ 53 -> ge_zero x = true ->
  (p ← int_mul l x; py_int p) = Ok z ->
  0 <= z /\ (p ← int_mul l x; py_floor p) = Ok z.
Proof.
  intros Hl Hx. destruct x as [n | f]; simpl.
  - intros Hz. inversion Hz. apply Z.leb_le in Hx. split; [nia | reflexivity].
  - unfold mbind, result_bind, bind.
    destruct (FloatFacts.float_of_int_small l Hl) as [Hfl | (m & e & Hfl)];
      rewrite Hfl; intros Hz.
    + apply int_of_not_negative; [| exact Hz].
      apply (mul_not_negative (S754_zero false) f); auto.
    + apply int_of_not_negative; [| exact Hz].
      apply (mul_not_negative (S754_finite false m e) f); eauto.
Qed.

End ProductFacts.

(** ** Three-way split *)

Module TrainTestFacts.

Lemma hundred_rows_len : len hundred_rows = 100.
Proof.
  unfold hundred_rows, len. rewrite length_fmap, length_seqZ. reflexivity.
Qed.

End TrainTestFacts.

(** C2, as stated, fails on a group of three rows with [train = 0.7] and
    [test = 0.2]: the test size is [int(0.6) = 0], the test selection starts
    at the length of the group, and the call raises, where the description
    gives the rows [0,2), [2,3) and [3,3). *)
Lemma train_test_split_three_rows_raises :
  train_test_split three_rows None (NFloat (decimal 7 10)) (NFloat (decimal 2 10)) 0
    = Raise (ErrEmptySelection None)
  /\ train_test_split_described three_rows (NFloat (decimal 7 10))
       (NFloat (decimal 2 10)) 0
     = Ok (rows_between three_rows 0 2, rows_between three_rows 2 3,
           rows_between three_rows 3 3)
  /\ train_test_split three_rows None (NFloat (decimal 7 10)) (NFloat (decimal 2 10)) 0
     <> train_test_split_described three_rows (NFloat (decimal 7 10))
          (NFloat (decimal 2 10)) 0.
Proof.
  split; [reflexivity |]. split; [reflexivity |].
  change (Raise (ErrEmptySelection None)
          <> Ok (rows_between three_rows 0 2, rows_between three_rows 2 3,
                 rows_between three_rows 3 3)).
  discriminate.
Qed.

(** C2 (amended): for a group of length [l], with
    [train_size = int(l*train)], [test_size = int(l*test)] and
    [valid_size = l - train_size - test_size], when the sizes are not negative,
    [train_size + test_size <= l], [0 <= offset <= train_size] and
    [test_size + offset > 0] (or the group is empty), the split returns the
    train rows [0, train_size), the valid rows
    [train_size - offset, train_size + valid_size) and the test rows
    [train_size + valid_size - offset, l); with offset 0 the three parts
    concatenate to the group; for proportions [>= 0] on fewer than 2^53 rows
    the sizes are the floors of the products.  For all sizes and every
    offset, when the start index of the validation rows or of the test rows
    is not 0 and is [>= l], the split raises the empty-selection error
    instead, as it does for [test_size = 0] with offset 0 on a group that is
    not empty.  On 100 rows with [train = 0.7], [test = 0.2] and offset 0 the
    parts are the rows [0,70), [70,80) and [80,100). *)
Theorem train_test_split_rows :
  (forall (A : Type) (group : list A) (name : option pyname) (train test : num)
          (offset ts tes : Z),
     (p ← int_mul (len group) train; py_int p) = Ok ts ->
     (p ← int_mul (len group) test; py_int p) = Ok tes ->
     0 <= ts -> 0 <= tes -> ts + tes <= len group ->
     0 <= offset <= ts -> (0 < tes + offset \/ len group = 0) ->
     let vs := len group - ts - tes in
     _split_group_train_test group name train test offset
       = Ok (rows_between group 0 ts,
             rows_between group (ts - offset) (ts + vs),
             rows_between group (ts + vs - offset) (len group))
     /\ (offset = 0 ->
         rows_between group 0 ts ++ rows_between group ts (ts + vs)
           ++ rows_between group (ts + vs) (len group) = group)
     /\ (len group < 2 ^ 53 -> ge_zero train = true ->
         (p ← int_mul (len group) train; py_floor p) = Ok ts)
     /\ (len group < 2 ^ 53 -> ge_zero test = true ->
         (p ← int_mul (len group) test; py_floor p) = Ok tes))
  /\ (forall (A : Type) (group : list A) (name : option pyname) (train test : num)
             (offset ts tes : Z),
        (p ← int_mul (len group) train; py_int p) = Ok ts ->
        (p ← int_mul (len group) test; py_int p) = Ok tes ->
        let vs := len group - ts - tes in
        ((ts - offset <> 0 /\ len group <= ts - offset)
         \/ (ts + vs - offset <> 0 /\ len group <= ts + vs - offset) ->
         _split_group_train_test group name train test offset
           = Raise (ErrEmptySelection (shown name)))
        /\ (tes = 0 -> offset = 0 -> group <> [] ->
            _split_group_train_test group name train test offset
              = Raise (ErrEmptySelection (shown name))))
  /\ (forall (df : frame) (train test : num) (offset ts tes : Z),
        (p ← int_mul (len df) train; py_int p) = Ok ts ->
        (p ← int_mul (len df) test; py_int p) = Ok tes ->
        (ts - offset <> 0 /\ len df <= ts - offset)
        \/ (len df - tes - offset <> 0 /\ len df <= len df - tes - offset) ->
        train_test_split df None train test offset = Raise (ErrEmptySelection None))
  /\ train_test_split hundred_rows None (NFloat (decimal 7 10))
       (NFloat (decimal 2 10)) 0
     = Ok (rows_between hundred_rows 0 70, rows_between hundred_rows 70 80,
           rows_between hundred_rows 80 100).
Proof.
  assert (Hraise : forall (A : Type) (group : list A) (name : option pyname)
            (train test : num) (offset ts tes : Z),
     (p ← int_mul (len group) train; py_int p) = Ok ts ->
     (p ← int_mul (len group) test; py_int p) = Ok tes ->
     (ts - offset <> 0 /\ len group <= ts - offset)
     \/ (ts + (len group - ts - tes) - offset <> 0
         /\ len group <= ts + (len group - ts - tes) - offset) ->
     _split_group_train_test group name train test offset
       = Raise (ErrEmptySelection (shown name))).
  { intros A group name train test offset ts tes Hts Htes Hstart.
    unfold _split_group_train_test.
    unfold mbind, result_bind, bind in *.
    destruct (int_mul (len group) train) as [p |]; [| discriminate]. rewrite Hts.
    destruct (int_mul (len group) test) as [q |]; [| discriminate]. rewrite Htes.
    rewrite IndexFacts.split_group_by_index_upto by reflexivity.
    destruct (_split_group_by_index group name (Some (ts - offset)) _)
      as [valid_df | e] eqn:Hvalid.
    - destruct Hstart as [[Hnz Hle] | [Hnz Hle]].
      + exfalso.
        assert (Hr : exists e, _split_group_by_index group name (Some (ts - offset))
                       (Some (ts + (len group - ts - tes))) = Raise e)
          by (apply IndexFacts.split_group_by_index_raises; eauto).
        destruct Hr as [e He]. rewrite Hvalid in He. discriminate He.
      + assert (Hr : exists e, _split_group_by_index group name
                       (Some (ts + (len group - ts - tes) - offset)) None = Raise e)
          by (apply IndexFacts.split_group_by_index_raises; eauto).
        destruct Hr as [e He]. rewrite He.
        apply IndexFacts.split_group_by_index_error in He. subst e. reflexivity.
    - apply IndexFacts.split_group_by_index_error in Hvalid. subst e. reflexivity. }
  assert (Hgen : forall (A : Type) (group : list A) (name : option pyname)
            (train test : num) (offset ts tes : Z),
     (p ← int_mul (len group) train; py_int p) = Ok ts ->
     (p ← int_mul (len group) test; py_int p) = Ok tes ->
     0 <= ts -> 0 <= tes -> ts + tes <= len group ->
     0 <= offset <= ts -> (0 < tes + offset \/ len group = 0) ->
     let vs := len group - ts - tes in
     _split_group_train_test group name train test offset
       = Ok (rows_between group 0 ts,
             rows_between group (ts - offset) (ts + vs),
             rows_between group (ts + vs - offset) (len group))
     /\ (offset = 0 ->
         rows_between group 0 ts ++ rows_between group ts (ts + vs)
           ++ rows_between group (ts + vs) (len group) = group)
     /\ (len group < 2 ^ 53 -> ge_zero train = true ->
         (p ← int_mul (len group) train; py_floor p) = Ok ts)
     /\ (len group < 2 ^ 53 -> ge_zero test = true ->
         (p ← int_mul (len group) test; py_floor p) = Ok tes));
    [| split; [exact Hgen | split; [| split]]].
  2: { intros A group name train test offset ts tes Hts Htes vs. split.
       - apply Hraise; assumption.
       - intros -> -> Hne. apply (Hraise A group name train test 0 ts 0 Hts Htes).
         right. apply SliceFacts.len_pos in Hne. lia. }
  2: { intros df train test offset ts tes Hts Htes Hstart.
       unfold train_test_split. cbn [truthy truthy_option negb].
       rewrite (Hraise _ df None train test offset ts tes Hts Htes);
         [reflexivity |].
       destruct Hstart as [H | [Hnz Hle]]; [left; exact H | right; lia]. }
  2: { reflexivity. }
  intros A group name train test offset ts tes Hts Htes Hts0 Htes0 Hsum Hoff Hne vs.
  pose proof (SliceFacts.len_nonneg group) as Hl.
  split; [| split; [| split]].
  - unfold _split_group_train_test. fold vs.
    assert (Hts' : (int_mul (len group) train ≫= λ p, py_int p) = Ok ts) by exact Hts.
    assert (Htes' : (int_mul (len group) test ≫= λ p, py_int p) = Ok tes) by exact Htes.
    unfold mbind at 1. unfold result_bind at 1. rewrite Hts'. cbn [bind].
    unfold mbind at 1. unfold result_bind at 1. rewrite Htes'. cbn [bind].
    fold vs.
    (* train *)
    rewrite (IndexFacts.split_group_by_index_upto group name (Some 0) (Some ts))
      by reflexivity.
    rewrite SliceFacts.iloc_prefix by lia. rewrite <- SliceFacts.rows_between_prefix.
    unfold mbind at 1. unfold result_bind at 1. cbn [bind].
    (* valid *)
    assert (Hvalid : _split_group_by_index group name (Some (ts - offset)) (Some (ts + vs))
                     = Ok (rows_between group (ts - offset) (ts + vs))).
    { destruct (Z.eq_dec (ts - offset) 0) as [Hz | Hnz].
      - rewrite Hz.
        rewrite IndexFacts.split_group_by_index_upto by reflexivity.
        rewrite SliceFacts.iloc_prefix by (unfold vs; lia).
        rewrite SliceFacts.rows_between_prefix. reflexivity.
      - rewrite IndexFacts.split_group_by_index_from by (unfold vs in *; lia).
        rewrite SliceFacts.truthy_index_nonzero by (unfold vs; lia).
        apply f_equal, SliceFacts.iloc_range; unfold vs; lia. }
    rewrite Hvalid. unfold mbind at 1. unfold result_bind at 1. cbn [bind].
    (* test *)
    assert (Htest : _split_group_by_index group name (Some (ts + vs - offset)) None
                    = Ok (rows_between group (ts + vs - offset) (len group))).
    { destruct (Z.eq_dec (ts + vs - offset) 0) as [Hz | Hnz].
      - rewrite Hz.
        rewrite IndexFacts.split_group_by_index_upto by reflexivity.
        rewrite SliceFacts.iloc_all, SliceFacts.rows_between_prefix.
        f_equal. symmetry. apply take_ge. unfold len in *. lia.
      - rewrite IndexFacts.split_group_by_index_from by (unfold vs in *; lia).
        simpl. rewrite SliceFacts.iloc_suffix by (unfold vs; lia).
        rewrite SliceFacts.rows_between_suffix by (unfold vs; lia). reflexivity. }
    rewrite Htest. reflexivity.
  - intros ->. rewrite !SliceFacts.rows_between_app by (unfold vs; lia).
    rewrite SliceFacts.rows_between_prefix. apply take_ge. unfold len. lia.
  - intros Hlt Hge. apply (ProductFacts.int_of_product (len group) train ts); auto.
  - intros Hlt Hge. apply (ProductFacts.int_of_product (len group) test tes); auto.
Qed.

Lemma train_test_split_rows_witness :
  _split_group_train_test hundred_rows None (NFloat (decimal 7 10))
    (NFloat (decimal 2 10)) 0
  = Ok (rows_between hundred_rows 0 70,
        rows_between hundred_rows (70 - 0) (70 + (len hundred_rows - 70 - 20)),
        rows_between hundred_rows (70 + (len hundred_rows - 70 - 20) - 0)
          (len hundred_rows))
  /\ train_test_split three_rows None (NFloat (decimal 7 10))
       (NFloat (decimal 2 10)) 0 = Raise (ErrEmptySelection None)
  /\ _split_group_train_test ten_rows (Some (NameScalar (VInt 7)))
       (NFloat fone) (NFloat fzero) 0
     = Raise (ErrEmptySelection (shown (Some (NameScalar (VInt 7))))).
Proof.
  split; [| split].
  - refine (proj1 (proj1 train_test_split_rows _ hundred_rows None
                     (NFloat (decimal 7 10)) (NFloat (decimal 2 10)) 0 70 20
                     _ _ _ _ _ _ _));
      rewrite ?TrainTestFacts.hundred_rows_len;
      first [ vm_compute; reflexivity
            | vm_compute; congruence
            | split; vm_compute; congruence
            | left; vm_compute; reflexivity ].
  - refine (proj1 (proj2 (proj2 train_test_split_rows)) three_rows
              (NFloat (decimal 7 10)) (NFloat (decimal 2 10)) 0 2 0 _ _ _);
      [vm_compute; reflexivity | vm_compute; reflexivity |].
    right. split; vm_compute; congruence.
  - refine (proj1 (proj1 (proj2 train_test_split_rows) _ ten_rows
                     (Some (NameScalar (VInt 7))) (NFloat fone)
                     (NFloat fzero) 0 10 0 _ _) _);
      [vm_compute; reflexivity | vm_compute; reflexivity |].
    left. split; vm_compute; congruence.
Defined.

(** ** Relative fractions *)

Module FractionFacts.







End FractionFacts.




(** ** Selection by timestamp *)

Module TimestampFacts.

Lemma select_where_int (df : frame) (c : string) (p : pyval -> result bool)
    (f : Z -> bool) :
  Forall (has_int_timestamp c) df ->
  (forall t, p (VInt t) = Ok (f t)) ->
  select_where df c p = Ok (List.filter (fun r => f (int_timestamp c r)) df).
Proof.
  intros Hdf Hp. unfold select_where.
  assert (Hmask : mapM (fun r => v ← cell r c; p v) df
                  = Ok ((fun r => f (int_timestamp c r)) <$> df)).
  { induction Hdf as [| r df [t Ht] _ IH]; [reflexivity |].
    cbn [mapM]. rewrite IH. unfold cell, int_timestamp. cbn [fmap list_fmap]. rewrite Ht.
    unfold mbind, result_bind, bind. rewrite Hp. reflexivity. }
  rewrite Hmask. unfold mbind, result_bind, bind. f_equal.
  clear Hmask Hdf. induction df as [| r df IH]; [reflexivity |].
  cbn [fmap list_fmap zip zip_with List.filter]. rewrite filter_cons.
  cbn [snd]. destruct (f (int_timestamp c r)).
  - rewrite decide_True by reflexivity. cbn [fmap list_fmap fst]. f_equal. exact IH.
  - rewrite decide_False by discriminate. exact IH.
Qed.

(** With truthy integer bounds the selection is the rows with
    [start <= timestamp < end]. *)
Lemma select_by_timestamp_between (df : frame) (c : string) (s e : Z) :
  Forall (has_int_timestamp c) df -> s <> 0 -> e <> 0 ->
  select_by_timestamp df c (Some (VInt s)) (Some (VInt e))
  = Ok (List.filter (fun r => (s <=? int_timestamp c r) && (int_timestamp c r <? e)) df).
Proof.
  intros Hdf Hs He. unfold select_by_timestamp.
  assert (Hts : truthy (Some (VInt s)) = true)
    by (apply negb_true_iff, Z.eqb_neq, Hs).
  assert (Hte : truthy (Some (VInt e)) = true)
    by (apply negb_true_iff, Z.eqb_neq, He).
  rewrite Hts, Hte. simpl.
  apply (select_where_int df c _ (fun t => (s <=? t) && (t <? e))); [exact Hdf |].
  intros t. simpl. unfold val_geb. simpl.
  rewrite Z.leb_antisym. reflexivity.
Qed.

Lemma select_by_timestamp_from (df : frame) (c : string) (s : Z) :
  Forall (has_int_timestamp c) df -> s <> 0 ->
  select_by_timestamp df c (Some (VInt s)) None
  = Ok (List.filter (fun r => s <=? int_timestamp c r) df).
Proof.
  intros Hdf Hs. unfold select_by_timestamp.
  assert (Hts : truthy (Some (VInt s)) = true)
    by (apply negb_true_iff, Z.eqb_neq, Hs).
  rewrite Hts. simpl.
  apply (select_where_int df c _ (fun t => s <=? t)); [exact Hdf |].
  intros t. simpl. unfold val_geb. simpl.
  rewrite Z.leb_antisym. reflexivity.
Qed.

End TimestampFacts.

(** C6: a start timestamp of [0] is given and the end is omitted, on rows
    with the timestamps 0, 1, 2; the call raises the error of two omitted
    bounds, and so does the start [""] on a string timestamp.  With the
    start 0 and the end 2 on the timestamps -1, 0, 1, 2 the call returns the
    row with timestamp -1, which lies before the start. *)
Example timestamp_zero_counts_as_omitted :
  select_by_timestamp three_rows "timestamp" (Some (VInt 0)) None
    = Raise ErrNoTimestampGiven
  /\ select_by_timestamp [{["timestamp" := VStr "2020-01-01"]}] "timestamp"
       (Some (VStr "")) None
     = Raise ErrNoTimestampGiven
  /\ select_by_timestamp
       ((fun i => {["timestamp" := VInt i]}) <$> [-1; 0; 1; 2])
       "timestamp" (Some (VInt 0)) (Some (VInt 2))
     = Ok ((fun i => {["timestamp" := VInt i]}) <$> [-1; 0; 1]).
Proof. split; [| split]; reflexivity. Qed.

(** ** Joining lists without repeats *)

Module JoinFacts.
Section JoinFacts.
Context {A : Type} `{Countable A}.

Lemma filter_not_in_set (acc alist : list A) :
  filter (fun item => item ∉ (list_to_set acc : gset A)) alist
  = filter (fun item => item ∉ acc) alist.
Proof.
  apply list_filter_iff. intros x. rewrite elem_of_list_to_set. reflexivity.
Qed.

(** Once the first list is taken, the loop keeps [final_set = set(final)] and
    follows the description. *)
Lemma fold_join_step (rest : list (list A)) (acc : list A) :
  fst (fold_left join_step rest (Some acc, list_to_set acc))
  = Some (join_spec acc rest).
Proof.
  revert acc. induction rest as [| alist rest IH]; intros acc; [reflexivity |].
  cbn [fold_left]. unfold join_step at 2. cbn [fst snd].
  rewrite filter_not_in_set. rewrite IH. reflexivity.
Qed.

End JoinFacts.
End JoinFacts.

(** C8: for a non-empty sequence of lists the result is the first list
    followed, for each later list in order, by those of its elements that are
    not in the result accumulated before that list; with no list at all the
    result is [None]; and [[1,2,3], [2,3,4], [4,5]] gives [[1,2,3,4,5]]. *)
Theorem join_list_without_repeat_spec :
  (forall (A : Type) `(Countable A) (first : list A) (rest : list (list A)),
     join_list_without_repeat (first :: rest) = Some (join_spec first rest))
  /\ (forall (A : Type) `(Countable A), join_list_without_repeat (@nil (list A)) = None)
  /\ join_list_without_repeat [[1; 2; 3]; [2; 3; 4]; [4; 5]] = Some [1; 2; 3; 4; 5].
Proof.
  split; [| split].
  - intros A EqA CA first rest. unfold join_list_without_repeat.
    cbn [fold_left]. unfold join_step at 2. cbn [fst snd].
    apply JoinFacts.fold_join_step.
  - intros A EqA CA. reflexivity.
  - vm_compute. reflexivity.
Qed.

(** ** Split-policy resolver *)

Module ResolverFacts.

Lemma sub_int_ok (b0 : num) (k : Z) :
  0 <= k < 2 ^ 53 -> exists si, sub_int b0 k = Ok si.
Proof.
  intros Hk. destruct b0 as [z | f]; simpl; [eauto |].
  destruct (FloatFacts.float_of_int_small k Hk) as [-> | (m & e & ->)]; eauto.
Qed.

Lemma offset_for_train (context_length : option Z) :
  offset_for context_length "train" = 0.
Proof.
  unfold offset_for. simpl. rewrite andb_false_r. reflexivity.
Qed.

(** For the other splits the offset is the context length, 0 when it is
    [None]. *)
Lemma offset_for_other (context_length : option Z) (group : string) :
  group <> "train" -> offset_for context_length group = default 0 context_length.
Proof.
  intros Hg. unfold offset_for.
  destruct (String.eqb_spec group "train") as [| _]; [contradiction |].
  destruct context_length as [c |]; simpl; [| reflexivity].
  unfold truthy, truthy_option, truthy, truthy_Z.
  destruct (Z.eqb_spec c 0) as [-> |]; reflexivity.
Qed.

(** One iteration of the loop over the splits. *)
Lemma resolve_group_pair (split_config : gmap string cfgval)
    (context_length : option Z)
    (acc : gmap string (gmap string num) * gmap string selector)
    (group : string) (b0 b1 start_index : num) :
  split_config !! group = Some (CList [b0; b1]) ->
  sub_int b0 (offset_for context_length group) = Ok start_index ->
  resolve_group split_config context_length acc group
  = Ok (if tested_fraction_mode b0 b1
        then (<[group := fraction_params b0 b1 (offset_for context_length group)]>
                (fst acc),
              <[group := SelectByRelativeFraction]> (snd acc))
        else (<[group := index_params start_index b1]> (fst acc),
              <[group := SelectByIndex]> (snd acc))).
Proof.
  intros Hcfg Hsub. unfold resolve_group, boundary, getitem, tested_fraction_mode.
  rewrite Hcfg. cbn [mbind result_bind bind lookup list_lookup].
  destruct (lt_one b0 && ne_zero b0); cbn [mbind result_bind bind orb].
  - reflexivity.
  - destruct (lt_one b1); cbn [mbind result_bind bind].
    + reflexivity.
    + rewrite Hsub. reflexivity.
Qed.

End ResolverFacts.

(** C1, as stated, fails on [{"train": [0, 100], "valid": [100, 150],
    "test": [150, 200]}]: the first train boundary equals 0, which the
    description counts as fraction mode, and the resolver selects index-based
    parameters for the train split. *)
Lemma zero_boundary_resolves_to_index :
  described_fraction_mode (NInt 0) (NInt 100) = true
  /\ exists params funcs,
       get_split_params index_config (Some 5) = Ok (PerSplit params funcs)
       /\ funcs !! "train" = Some SelectByIndex
       /\ params !! "train" = Some (index_params (NInt 0) (NInt 100)).
Proof.
  split; [reflexivity |].
  eexists _, _. split; [reflexivity |]. split; reflexivity.
Qed.

(** C1 (amended): for a configuration with the key ["valid"] whose three
    splits are pairs of boundaries, and a context length that is [None] or in
    [0, 2^53), the resolver selects fraction-based parameters for a split
    exactly when its first boundary is below 1 and not 0, or its second
    boundary is below 1, with [start_fraction] and [end_fraction] the two
    boundaries and [start_offset] the context length (0 for [None]) for valid
    and test and 0 for train; otherwise index-based parameters with
    [start_index] the first boundary minus that offset and [end_index] the
    second boundary.  [{"train": [0, 0.7], "valid": [0.7, 0.9],
    "test": [0.9, 1.0]}] with context length 5 resolves to fraction mode for all
    three, with [start_offset] 5 for valid and test and 0 for train. *)
Theorem get_split_params_three_way :
  (forall (split_config : gmap string cfgval) (context_length : option Z)
          (t0 t1 v0 v1 e0 e1 : num),
     split_config !! "train" = Some (CList [t0; t1]) ->
     split_config !! "valid" = Some (CList [v0; v1]) ->
     split_config !! "test" = Some (CList [e0; e1]) ->
     0 <= default 0 context_length < 2 ^ 53 ->
     exists params funcs,
       get_split_params split_config context_length = Ok (PerSplit params funcs)
       /\ group_resolved params funcs "train" t0 t1 0
       /\ group_resolved params funcs "valid" v0 v1 (default 0 context_length)
       /\ group_resolved params funcs "test" e0 e1 (default 0 context_length))
  /\ exists params funcs,
       get_split_params fraction_config (Some 5) = Ok (PerSplit params funcs)
       /\ funcs !! "train" = Some SelectByRelativeFraction
       /\ funcs !! "valid" = Some SelectByRelativeFraction
       /\ funcs !! "test" = Some SelectByRelativeFraction
       /\ params !! "train"
          = Some (fraction_params (NInt 0) (NFloat (decimal 7 10)) 0)
       /\ params !! "valid"
          = Some (fraction_params (NFloat (decimal 7 10)) (NFloat (decimal 9 10)) 5)
       /\ params !! "test"
          = Some (fraction_params (NFloat (decimal 9 10)) (NFloat fone) 5).
Proof.
  split.
  - intros cfg cl t0 t1 v0 v1 e0 e1 Ht Hv He Hcl.
    pose proof (ResolverFacts.offset_for_train cl) as Hot.
    pose proof (ResolverFacts.offset_for_other cl "valid" ltac:(discriminate)) as Hov.
    pose proof (ResolverFacts.offset_for_other cl "test" ltac:(discriminate)) as Hoe.
    destruct (ResolverFacts.sub_int_ok t0 0 ltac:(lia)) as [st Hst].
    destruct (ResolverFacts.sub_int_ok v0 (default 0 cl) Hcl) as [sv Hsv].
    destruct (ResolverFacts.sub_int_ok e0 (default 0 cl) Hcl) as [se Hse].
    unfold get_split_params.
    rewrite decide_True by (rewrite Hv; eauto).
    cbn [for_each].
    rewrite (ResolverFacts.resolve_group_pair cfg cl _ "train" t0 t1 st Ht)
      by (rewrite Hot; exact Hst).
    cbn [mbind result_bind bind].
    rewrite (ResolverFacts.resolve_group_pair cfg cl _ "test" e0 e1 se He)
      by (rewrite Hoe; exact Hse).
    cbn [mbind result_bind bind].
    rewrite (ResolverFacts.resolve_group_pair cfg cl _ "valid" v0 v1 sv Hv)
      by (rewrite Hov; exact Hsv).
    cbn [mbind result_bind bind mret result_ret].
    rewrite Hot, Hov, Hoe.
    eexists _, _. split; [reflexivity |].
    unfold group_resolved.
    destruct (tested_fraction_mode t0 t1), (tested_fraction_mode v0 v1),
      (tested_fraction_mode e0 e1); cbn [fst snd];
      repeat split; eauto; simplify_map_eq; eauto.
  - eexists _, _. split; [reflexivity |]. repeat split; reflexivity.
Qed.

Lemma get_split_params_three_way_witness :
  exists params funcs,
    get_split_params index_config (Some 5) = Ok (PerSplit params funcs)
    /\ group_resolved params funcs "train" (NInt 0) (NInt 100) 0
    /\ group_resolved params funcs "valid" (NInt 100) (NInt 150) 5
    /\ group_resolved params funcs "test" (NInt 150) (NInt 200) 5.
Proof.
  apply (proj1 get_split_params_three_way index_config (Some 5)
           (NInt 0) (NInt 100) (NInt 100) (NInt 150) (NInt 150) (NInt 200));
    first [reflexivity | vm_compute; split; congruence].
Defined.

(** ** Legacy format reader *)

Module ReaderFacts.
Import Tsf.
Section ReaderFacts.
Context (date : Type).
Variable float_of_str : string -> option float.
Variable int_of_str : string -> option Z.
Variable strtobool : string -> option bool.
Variable strptime : string -> option date.

Abbreviation read_line' := (read_line date float_of_str int_of_str strtobool strptime).
Abbreviation read_lines' := (read_lines date float_of_str int_of_str strtobool strptime).
Abbreviation read_data_row' := (read_data_row date float_of_str int_of_str strptime).
Abbreviation read_meta_data' := (read_meta_data date int_of_str strtobool).
Abbreviation convert' :=
  (convert_tsf_to_dataframe date float_of_str int_of_str strtobool strptime).

Lemma read_lines_app (a b : list string) (st : state date) :
  read_lines' (a ++ b) st = (st' ← read_lines' a st; read_lines' b st').
Proof.
  unfold read_lines. revert st. induction a as [| l a IH]; intros st; [reflexivity |].
  cbn [app for_each]. unfold mbind at 1 3. unfold outcome_bind.
  destruct (read_line' st l) as [st1 |]; [apply IH | reflexivity].
Qed.

Lemma attribute_not_data_tag (s : string) :
  startswith s "@attribute" = true -> startswith s "@data" = false.
Proof.
  destruct s as [| c1 s]; [discriminate |].
  destruct s as [| c2 s]; cbn [startswith]; intros Ha;
    apply andb_true_iff in Ha as [H1 H2]; [discriminate |].
  apply andb_true_iff in H2 as [H2 _]. apply Ascii.eqb_eq in H2. subst c2.
  rewrite H1. reflexivity.
Qed.

Lemma read_meta_data_fields (st st1 : state date) (s : string) :
  read_meta_data' st s = Done st1 ->
  line_count st1 = line_count st
  /\ found_data_section st1 = found_data_section st
  /\ (startswith s "@data" = false -> found_data_tag st1 = found_data_tag st)
  /\ (startswith s "@data" = true -> found_data_tag st1 = true /\ col_names st <> [])
  /\ (col_names st <> [] -> col_names st1 <> [])
  /\ (startswith s "@data" = false -> startswith s "@attribute" = true ->
      col_names st1 <> []).
Proof.
  unfold read_meta_data.
  destruct (startswith s "@data") eqn:Hdata; cbn [negb].
  - destruct (col_names st) as [| c cs] eqn:Hc; cbn [length Nat.eqb]; [discriminate |].
    intros Hst. inversion Hst. cbn. rewrite Hc.
    repeat split; auto; try discriminate.
  - assert (Hgrow : forall n : string, col_names st ++ [n] <> [])
      by (intros n; destruct (col_names st); discriminate).
    destruct (startswith s "@attribute").
    + destruct (negb _); [discriminate |]. intros Hst. inversion Hst. cbn.
      repeat split; auto; try discriminate; intros; apply Hgrow.
    + destruct (negb _); [discriminate |].
      repeat match goal with
             | |- context [if ?b then _ else _] => destruct b
             end;
        unfold fmap, outcome_fmap, builtin;
        try match goal with
            | |- context [match ?o with Some _ => _ | None => _ end] => destruct o
            end;
        intros Hst; inversion Hst; cbn; repeat split; auto; discriminate.
Qed.

Lemma read_data_row_fields (st st1 : state date) (s : string) :
  read_data_row' st s = Done st1 ->
  line_count st1 = line_count st
  /\ found_data_tag st1 = found_data_tag st
  /\ col_names st1 = col_names st.
Proof.
  unfold read_data_row. cbv zeta.
  set (st0 := if negb (started_reading_data_section st)
              then start_data_section st else st).
  assert (H0 : line_count st0 = line_count st
               /\ found_data_tag st0 = found_data_tag st
               /\ col_names st0 = col_names st)
    by (unfold st0; destruct (negb (started_reading_data_section st)); cbn; auto).
  clearbody st0.
  destruct (negb _); [discriminate |].
  destruct (_ =? 0)%nat; [discriminate |].
  unfold mbind, outcome_bind.
  destruct (mapM _ _) as [numeric_series |]; [| discriminate].
  destruct (_ =? _)%nat; [discriminate |].
  destruct (for_each _ _ _) as [d |]; [| discriminate].
  intros Hst. inversion Hst. cbn. exact H0.
Qed.

(** What a line that is read without error does to the state. *)
Lemma read_line_fields (st st1 : state date) (line : string) :
  read_line' st line = Done st1 ->
  line_count st <= line_count st1
  /\ (truthy (strip line) = true -> line_count st < line_count st1)
  /\ (is_data_tag line = false -> found_data_tag st1 = found_data_tag st)
  /\ (is_data_tag line = true -> found_data_tag st1 = true /\ col_names st <> [])
  /\ (col_names st <> [] -> col_names st1 <> [])
  /\ (is_attribute line = true -> col_names st1 <> [])
  /\ (is_data_row line = false -> found_data_section st1 = found_data_section st).
Proof.
  unfold read_line, is_data_tag, is_attribute, is_data_row.
  destruct (truthy (strip line)) eqn:Hne.
  2: { intros Hst. inversion Hst. subst st1.
       assert (Hem : strip line = "") by (destruct (strip line); [reflexivity | discriminate]).
       rewrite Hem. cbn. repeat split; auto; try lia; discriminate. }
  destruct (startswith (strip line) "@") eqn:Hat.
  - unfold mbind, outcome_bind.
    destruct (read_meta_data' st (strip line)) as [st0 |] eqn:Hmeta; [| discriminate].
    intros Hst. inversion Hst. subst st1. cbn.
    destruct (read_meta_data_fields st st0 (strip line) Hmeta)
      as (Hlc & Hfs & Hkeep & Htag & Hcols & Hattr).
    repeat split; try lia; auto.
    + apply Htag; assumption.
    + apply Htag; assumption.
    + intros Ha. apply Hattr; [| exact Ha]. apply attribute_not_data_tag, Ha.
  - assert (Hnotag : forall p, startswith (strip line) (String "@" p) = false).
    { intros p. destruct (strip line) as [| c s]; [reflexivity |].
      cbn [startswith] in Hat |- *. rewrite andb_true_r in Hat. rewrite Hat.
      reflexivity. }
    rewrite (Hnotag "data"), (Hnotag "attribute").
    destruct (startswith (strip line) "#") eqn:Hhash; cbn [negb andb].
    + intros Hst. inversion Hst. subst st1. cbn.
      repeat split; auto; try lia; discriminate.
    + destruct (col_names st) as [| c cs] eqn:Hcols; cbn [length Nat.eqb];
        [discriminate |].
      destruct (found_data_tag st) eqn:Htag; cbn [negb]; [| discriminate].
      unfold mbind, outcome_bind.
      destruct (read_data_row' st (strip line)) as [st0 |] eqn:Hrow; [| discriminate].
      intros Hst. inversion Hst. subst st1. cbn.
      destruct (read_data_row_fields st st0 (strip line) Hrow) as (Hlc & Hft & Hcn).
      rewrite Hlc, Hft, Hcn, Hcols, Htag.
      repeat split; auto; try lia; discriminate.
Qed.

(** Once seen, the data tag stays seen. *)
Lemma found_data_tag_stays (lines : list string) (st st1 : state date) :
  read_lines' lines st = Done st1 -> found_data_tag st = true ->
  found_data_tag st1 = true.
Proof.
  unfold read_lines. revert st.
  induction lines as [| l lines IH]; intros st.
  - intros Hst. inversion Hst. subst st1. auto.
  - cbn [for_each]. unfold mbind at 1. unfold outcome_bind.
    destruct (read_line' st l) as [st0 |] eqn:Hl; [| discriminate].
    intros Hrest Ht. apply (IH st0 Hrest).
    destruct (read_line_fields st st0 l Hl) as (_ & _ & Hkeep & Htag & _).
    destruct (is_data_tag l) eqn:Hd.
    + apply Htag. reflexivity.
    + rewrite Hkeep; auto.
Qed.

(** The same over a run of lines. *)
Lemma read_lines_fields (lines : list string) (st st1 : state date) :
  read_lines' lines st = Done st1 ->
  line_count st <= line_count st1
  /\ (Exists (fun l => is_data_tag l = true) lines -> line_count st < line_count st1)
  /\ (Forall (fun l => is_data_tag l = false) lines ->
      found_data_tag st1 = found_data_tag st)
  /\ (Exists (fun l => is_data_tag l = true) lines ->
      found_data_tag st1 = true /\ col_names st1 <> [])
  /\ (col_names st <> [] -> col_names st1 <> [])
  /\ (Exists (fun l => is_attribute l = true) lines -> col_names st1 <> [])
  /\ (Forall (fun l => is_data_row l = false) lines ->
      found_data_section st1 = found_data_section st).
Proof.
  unfold read_lines. revert st.
  induction lines as [| l lines IH]; intros st.
  - intros Hst. inversion Hst. subst st1.
    repeat split; auto; try lia; try (intros Hex; inversion Hex);
      match goal with Hex : Exists _ [] |- _ => inversion Hex end.
  - cbn [for_each]. unfold mbind at 1. unfold outcome_bind.
    destruct (read_line' st l) as [st0 |] eqn:Hl; [| discriminate].
    intros Hrest.
    destruct (read_line_fields st st0 l Hl)
      as (Hc & Hc' & Hkeep & Htag & Hcols & Hattr & Hsec).
    destruct (IH st0 Hrest)
      as (Ic & Ic' & Ikeep & Itag & Icols & Iattr & Isec).
    assert (Htruthy : is_data_tag l = true -> truthy (strip l) = true).
    { unfold is_data_tag. destruct (strip l); [discriminate | reflexivity]. }
    split; [| split; [| split; [| split; [| split; [| split]]]]].
    + lia.
    + intros Hex. inversion Hex; subst; [specialize (Hc' (Htruthy H0)) | specialize (Ic' H0)]; lia.
    + intros Hall. inversion Hall; subst. rewrite Ikeep, Hkeep; auto.
    + intros Hex. inversion Hex; subst.
      * destruct (Htag H0) as [Ht Hcn]. split.
        -- apply (found_data_tag_stays lines st0 st1 Hrest Ht).
        -- apply Icols, Hcols, Hcn.
      * apply Itag. assumption.
    + intros Hcn. apply Icols, Hcols, Hcn.
    + intros Hex. inversion Hex; subst; [apply Icols, Hattr | apply Iattr]; assumption.
    + intros Hall. inversion Hall; subst. rewrite Isec, Hsec; auto.
Qed.


Lemma split_nonempty (sep : ascii) (s : string) : split sep s <> [].
Proof.
  induction s as [| c s IH]; cbn [split]; [discriminate |].
  destruct (Ascii.eqb c sep); [discriminate |].
  destruct (split sep s); [contradiction | discriminate].
Qed.

Lemma read_all_missing (series : list string) :
  Forall (fun val => val = "?") series ->
  mapM (read_value float_of_str) series = Done (replicate (length series) Missing).
Proof.
  induction 1 as [| val series Hval _ IH]; [reflexivity |].
  cbn [mapM length replicate]. rewrite IH. subst val. reflexivity.
Qed.

Lemma count_missing_replicate (n : nat) :
  count_missing (replicate n Missing) = n.
Proof.
  unfold count_missing. induction n as [| n IH]; [reflexivity |].
  cbn [replicate List.filter is_missing length]. rewrite IH. reflexivity.
Qed.

(** A data row whose values are all ["?"], read after the data tag. *)
Lemma read_line_all_missing (st : state date) (row : string) :
  found_data_tag st = true -> col_names st <> [] ->
  is_data_row row = true ->
  length (split ":" (strip row)) = S (length (col_names st)) ->
  Forall (fun val => val = "?") (row_values row) ->
  read_line' st row = Fail AllSeriesValuesMissing.
Proof.
  intros Htag Hcols Hrow Hlen Hvals. unfold is_data_row in Hrow.
  apply andb_true_iff in Hrow as [Hrow Hhash].
  apply andb_true_iff in Hrow as [Hne Hat].
  apply negb_true_iff in Hhash, Hat.
  unfold read_line. rewrite Hne, Hat, Hhash, Htag. cbn [negb].
  destruct (col_names st) as [| c cs] eqn:Hc; [contradiction |].
  cbn [length Nat.eqb].
  unfold read_data_row. cbv zeta.
  set (st0 := if negb (started_reading_data_section st)
              then start_data_section st else st).
  assert (H0 : col_names st0 = c :: cs)
    by (unfold st0; destruct (negb (started_reading_data_section st)); cbn; auto).
  clearbody st0. rewrite H0, Hlen.
  replace (S (length (c :: cs)) =? length (c :: cs) + 1)%nat with true
    by (symmetry; apply Nat.eqb_eq; lia).
  cbn [negb]. unfold row_values in Hvals. cbv zeta in Hvals. rewrite Hlen in Hvals.
  destruct (split "," (nth_str (split ":" (strip row)) (S (length (c :: cs)) - 1)))
    as [| v vs] eqn:Hsplit; [exfalso; exact (split_nonempty _ _ Hsplit) |].
  cbn [length Nat.eqb].
  rewrite (read_all_missing _ Hvals).
  unfold mbind, outcome_bind. cbv beta iota.
  rewrite count_missing_replicate, length_replicate, Nat.eqb_refl.
  reflexivity.
Qed.

(** A data row read before any data tag. *)
Lemma read_line_before_tag (st : state date) (row : string) :
  found_data_tag st = false -> col_names st <> [] -> is_data_row row = true ->
  read_line' st row = Fail MissingDataTag.
Proof.
  intros Htag Hcols Hrow. unfold is_data_row in Hrow.
  apply andb_true_iff in Hrow as [Hrow Hhash].
  apply andb_true_iff in Hrow as [Hne Hat].
  apply negb_true_iff in Hhash, Hat.
  unfold read_line. rewrite Hne, Hat, Hhash, Htag. cbn [negb].
  destruct (col_names st) as [| c cs] eqn:Hc; [contradiction |].
  reflexivity.
Qed.

(** A failing line fails the whole conversion. *)
Lemma convert_fails_at (pre post : list string) (line : string) (st : state date)
    (e : tsf_error) (value_column_name : string) :
  read_lines' pre initial = Done st -> read_line' st line = Fail e ->
  convert' (pre ++ line :: post) value_column_name = Fail e.
Proof.
  intros Hpre Hline. unfold convert_tsf_to_dataframe.
  rewrite read_lines_app, Hpre. unfold read_lines at 1. cbn [for_each].
  unfold mbind, outcome_bind. rewrite Hline. reflexivity.
Qed.

End ReaderFacts.
End ReaderFacts.

(** C7: for the lines of a file and any text-conversion built-ins,
    (a) after a header that is read without error, declares an attribute and
    has no [@data] tag, a data row fails with "Missing @data tag";
    (b) a file that is read without error, has a [@data] tag and no data row
    fails with the missing-series-information error;
    (c) after a prefix that is read without error and has the [@data] tag, a
    data row with one field per declared attribute and a value array of
    ["?"] tokens only fails with the all-values-missing error. *)
Theorem convert_tsf_errors (date : Type)
    (float_of_str : string -> option float) (int_of_str : string -> option Z)
    (strtobool : string -> option bool) (strptime : string -> option date)
    (pre post : list string) (row value_column_name : string)
    (st : Tsf.state date) :
  Tsf.read_lines date float_of_str int_of_str strtobool strptime pre Tsf.initial
    = Tsf.Done st ->
  (Forall (fun l => is_data_tag l = false) pre ->
   Exists (fun l => is_attribute l = true) pre ->
   is_data_row row = true ->
   Tsf.convert_tsf_to_dataframe date float_of_str int_of_str strtobool strptime
     (pre ++ row :: post) value_column_name = Tsf.Fail Tsf.MissingDataTag)
  /\ (Forall (fun l => is_data_row l = false) pre ->
      Exists (fun l => is_data_tag l = true) pre ->
      Tsf.convert_tsf_to_dataframe date float_of_str int_of_str strtobool strptime
        pre value_column_name = Tsf.Fail Tsf.MissingSeriesInformation)
  /\ (Exists (fun l => is_data_tag l = true) pre ->
      is_data_row row = true ->
      length (split ":" (strip row)) = S (length (Tsf.col_names st)) ->
      Forall (fun val => val = "?") (row_values row) ->
      Tsf.convert_tsf_to_dataframe date float_of_str int_of_str strtobool strptime
        (pre ++ row :: post) value_column_name
      = Tsf.Fail Tsf.AllSeriesValuesMissing).
Proof.
  intros Hpre.
  destruct (ReaderFacts.read_lines_fields date float_of_str int_of_str strtobool
              strptime pre Tsf.initial st Hpre)
    as (Hc & Hc' & Hkeep & Htag & _ & Hattr & Hsec).
  split; [| split].
  - intros Hnotag Hat Hrow.
    apply (ReaderFacts.convert_fails_at date float_of_str int_of_str strtobool
             strptime pre post row st _ _ Hpre).
    apply ReaderFacts.read_line_before_tag;
      [rewrite Hkeep by assumption; reflexivity | apply Hattr; assumption
      | assumption].
  - intros Hnorow Hex. unfold Tsf.convert_tsf_to_dataframe.
    rewrite Hpre. unfold mbind, Tsf.outcome_bind.
    specialize (Hc' Hex). cbn in Hc'.
    replace (Tsf.line_count st =? 0) with false by (symmetry; apply Z.eqb_neq; lia).
    destruct (Htag Hex) as [_ Hcols].
    destruct (Tsf.col_names st) as [| c cs]; [contradiction |].
    cbn [length Nat.eqb]. rewrite (Hsec Hnorow). reflexivity.
  - intros Hex Hrow Hlen Hvals. destruct (Htag Hex) as [Ht Hcols].
    apply (ReaderFacts.convert_fails_at date float_of_str int_of_str strtobool
             strptime pre post row st _ _ Hpre).
    apply ReaderFacts.read_line_all_missing; assumption.
Qed.


Lemma convert_tsf_errors_witness :
  let convert := Tsf.convert_tsf_to_dataframe unit (fun _ => None) (fun _ => None)
                   (fun _ => None) (fun _ => None) in
  convert ["@attribute series_name string"; "@frequency daily"; "T1:1,2,3"]
    "series_value" = Tsf.Fail Tsf.MissingDataTag
  /\ convert ["@attribute series_name string"; "@data"] "series_value"
     = Tsf.Fail Tsf.MissingSeriesInformation
  /\ convert ["@attribute series_name string"; "@data"; " T1:?,?,? "; "T2:1,2"]
       "series_value" = Tsf.Fail Tsf.AllSeriesValuesMissing.
Proof.
  intros convert. split; [| split].
  - refine (proj1 (convert_tsf_errors unit (fun _ => None) (fun _ => None)
                     (fun _ => None) (fun _ => None)
                     ["@attribute series_name string"; "@frequency daily"] []
                     "T1:1,2,3" "series_value" _ eq_refl) _ _ _).
    + repeat constructor.
    + apply Exists_cons_hd. reflexivity.
    + reflexivity.
  - refine (proj1 (proj2 (convert_tsf_errors unit (fun _ => None) (fun _ => None)
                     (fun _ => None) (fun _ => None)
                     ["@attribute series_name string"; "@data"] []
                     "" "series_value" _ eq_refl)) _ _).
    + repeat constructor.
    + apply Exists_cons_tl, Exists_cons_hd. reflexivity.
  - refine (proj2 (proj2 (convert_tsf_errors unit (fun _ => None) (fun _ => None)
                     (fun _ => None) (fun _ => None)
                     ["@attribute series_name string"; "@data"] ["T2:1,2"]
                     " T1:?,?,? " "series_value" _ eq_refl)) _ _ _ _).
    + apply Exists_cons_tl, Exists_cons_hd. reflexivity.
    + reflexivity.
    + reflexivity.
    + repeat constructor.
Defined.

(** * Further properties of the module *)

(** ** Index selection without id columns *)

Module SegmentFacts.

(** A slice is a contiguous run of the rows. *)
Lemma iloc_segment {A} (df : list A) (start stop : option Z) :
  exists before after, df = before ++ iloc df start stop ++ after.
Proof.
  unfold iloc.
  set (a := Z.to_nat match start with
                     | Some s => clamp_index (len df) s | None => 0 end).
  set (n := Z.to_nat _).
  exists (take a df), (drop n (drop a df)).
  rewrite take_drop. rewrite take_drop. reflexivity.
Qed.

Lemma split_group_by_index_segment {A} (group_df : list A) (name : option pyname)
    (start_index end_index : option Z) (rows : list A) :
  _split_group_by_index group_df name start_index end_index = Ok rows ->
  exists before after, group_df = before ++ rows ++ after.
Proof.
  unfold _split_group_by_index.
  destruct (truthy start_index && _); [discriminate |].
  destruct (negb (truthy start_index)); [| destruct (negb (truthy end_index))];
    intros Hr; inversion Hr; apply iloc_segment.
Qed.

End SegmentFacts.

(** X1: without id columns [select_by_index] has exactly two errors: the
    missing-index error when both indices are falsy ([None] or 0), and the
    empty-selection error when the start index is non-zero and at least the
    length of the frame. *)
Theorem select_by_index_errors (df : frame) (start_index end_index : option Z) :
  (select_by_index df None start_index end_index = Raise ErrNoIndexGiven
   <-> truthy start_index = false /\ truthy end_index = false)
  /\ (select_by_index df None start_index end_index = Raise (ErrEmptySelection None)
      <-> exists s, start_index = Some s /\ s <> 0 /\ len df <= s)
  /\ (forall e, select_by_index df None start_index end_index = Raise e ->
        e = ErrNoIndexGiven \/ e = ErrEmptySelection None).
Proof.
  unfold select_by_index.
  destruct (truthy start_index) eqn:Hs; cbn [negb andb].
  - assert (Hiff : (exists e, _split_group_by_index df None start_index end_index
                              = Raise e)
                   <-> exists s, start_index = Some s /\ s <> 0 /\ len df <= s)
      by apply IndexFacts.split_group_by_index_raises.
    split; [| split].
    + split; [| intros [? _]; discriminate].
      intros Hr. apply IndexFacts.split_group_by_index_error in Hr. discriminate.
    + split.
      * intros Hr. apply Hiff. eauto.
      * intros Hex. apply Hiff in Hex as [e He].
        rewrite He. apply IndexFacts.split_group_by_index_error in He.
        rewrite He. reflexivity.
    + intros e Hr. apply IndexFacts.split_group_by_index_error in Hr. auto.
  - destruct (truthy end_index) eqn:He; cbn [negb].
    + rewrite IndexFacts.split_group_by_index_upto by exact Hs.
      split; [| split].
      * split; [discriminate | intros [_ ?]; discriminate].
      * split; [discriminate |].
        intros (s & -> & Hne & _). exfalso.
        apply negb_false_iff, Z.eqb_eq in Hs. contradiction.
      * discriminate.
    + split; [| split].
      * split; auto.
      * split; [discriminate |].
        intros (s & -> & Hne & _). exfalso.
        apply negb_false_iff, Z.eqb_eq in Hs. contradiction.
      * intros e Hr. inversion Hr. auto.
Qed.

(** X2: the rows that [select_by_index] returns without id columns are a
    contiguous run of the frame, in frame order: nothing is reordered,
    repeated or taken from two places. *)
Theorem select_by_index_contiguous (df rows : frame)
    (start_index end_index : option Z) :
  select_by_index df None start_index end_index = Ok rows ->
  exists before after, df = before ++ rows ++ after.
Proof.
  unfold select_by_index.
  destruct (negb (truthy start_index) && negb (truthy end_index)); [discriminate |].
  cbn. apply SegmentFacts.split_group_by_index_segment.
Qed.

Lemma select_by_index_contiguous_witness :
  exists before after, ten_rows = before ++ rows_between ten_rows 2 5 ++ after.
Proof.
  apply (select_by_index_contiguous ten_rows (rows_between ten_rows 2 5)
           (Some 2) (Some 5)).
  reflexivity.
Defined.

(** X3: an end index beyond the frame is clipped without an error: with a
    falsy start the whole frame is returned, and with a start inside the frame
    the result is the same as with no end index, the rows from the start on. *)
Theorem select_by_index_end_clipped (df : frame) (start_index : option Z)
    (s e : Z) :
  len df <= e -> e <> 0 ->
  (truthy start_index = false ->
   select_by_index df None start_index (Some e) = Ok df)
  /\ (0 < s < len df ->
      select_by_index df None (Some s) (Some e) = Ok (drop (Z.to_nat s) df)
      /\ select_by_index df None (Some s) None = Ok (drop (Z.to_nat s) df)).
Proof.
  intros He He0. pose proof (SliceFacts.len_nonneg df) as Hl.
  assert (Hclip : forall a : option Z,
            iloc df a (Some e) = iloc df a None).
  { intros a. unfold iloc, clamp_index.
    replace (e <? 0) with false by (symmetry; apply Z.ltb_ge; lia).
    rewrite Z.min_r by lia. reflexivity. }
  split.
  - intros Hs. unfold select_by_index. rewrite Hs.
    rewrite (SliceFacts.truthy_index_nonzero e He0). cbn [negb andb].
    rewrite IndexFacts.split_group_by_index_upto by exact Hs.
    rewrite Hclip, SliceFacts.iloc_all. reflexivity.
  - intros Hs. unfold select_by_index.
    rewrite (SliceFacts.truthy_index_nonzero s) by lia. cbn [negb andb].
    rewrite !IndexFacts.split_group_by_index_from by lia.
    rewrite (SliceFacts.truthy_index_nonzero e He0). cbn.
    rewrite Hclip, SliceFacts.iloc_suffix by lia. auto.
Qed.

Lemma select_by_index_end_clipped_witness :
  select_by_index ten_rows None None (Some 25) = Ok ten_rows
  /\ select_by_index ten_rows None (Some 4) (Some 25)
     = Ok (drop (Z.to_nat 4) ten_rows).
Proof.
  destruct (select_by_index_end_clipped ten_rows None 4 25) as [Hall Hfrom];
    [vm_compute; congruence | lia |].
  split; [apply Hall; reflexivity |].
  apply Hfrom. split; [lia | reflexivity].
Defined.

(** X4: an end index of 0 next to a non-zero start counts as no end index:
    for a start inside the frame the call returns the rows from the start to
    the end of the frame, which are not empty, where the slice [start:0] has
    no rows. *)
Theorem select_by_index_zero_end (df : frame) (s : Z) :
  0 < s < len df ->
  select_by_index df None (Some s) (Some 0) = Ok (drop (Z.to_nat s) df)
  /\ len (drop (Z.to_nat s) df) = len df - s
  /\ iloc df (Some s) (Some 0) = [].
Proof.
  intros Hs. split; [| split].
  - unfold select_by_index.
    rewrite (SliceFacts.truthy_index_nonzero s) by lia. cbn [negb andb].
    rewrite IndexFacts.split_group_by_index_from by lia. cbn.
    rewrite SliceFacts.iloc_suffix by lia. reflexivity.
  - unfold len in *. rewrite length_drop. lia.
  - unfold iloc, clamp_index.
    replace (s <? 0) with false by (symmetry; apply Z.ltb_ge; lia).
    replace (0 <? 0) with false by reflexivity.
    replace (Z.to_nat (Z.min 0 (len df) - Z.min s (len df))) with 0%nat by lia.
    reflexivity.
Qed.

Lemma select_by_index_zero_end_witness :
  select_by_index ten_rows None (Some 4) (Some 0) = Ok (drop (Z.to_nat 4) ten_rows).
Proof.
  apply (select_by_index_zero_end ten_rows 4). split; [lia | reflexivity].
Defined.

(** ** The group dispatcher *)

Module GroupFacts.

Lemma mapM_ok {X Y} (f : X -> result Y) (l : list X) (rs : list Y) :
  mapM f l = Ok rs <-> Forall2 (fun x r => f x = Ok r) l rs.
Proof.
  revert rs. induction l as [| x l IH]; intros rs; cbn [mapM].
  - split.
    + intros Hr. inversion Hr. constructor.
    + intros Hr. inversion Hr. reflexivity.
  - unfold mbind, result_bind, bind. split.
    + destruct (f x) as [y |] eqn:Hx; [| discriminate].
      destruct (mapM f l) as [k |] eqn:Hl; [| discriminate].
      intros Hr. inversion Hr. constructor; [exact Hx |]. apply IH. reflexivity.
    + intros Hr. inversion Hr as [| ? r ? rs' Hx Hrest]; subst.
      rewrite Hx. apply IH in Hrest.
      unfold mbind, result_bind, bind in Hrest. rewrite Hrest. reflexivity.
Qed.

(** The loop stops at the first element that raises. *)
Lemma mapM_raise {X Y} (f : X -> result Y) (before after : list X) (x : X)
    (e : pyerr) :
  Forall (fun y => exists r, f y = Ok r) before -> f x = Raise e ->
  mapM f (before ++ x :: after) = Raise e.
Proof.
  intros Hb Hx. induction Hb as [| y before [r Hy] _ IH]; cbn [app mapM].
  - unfold mbind, result_bind, bind. rewrite Hx. reflexivity.
  - unfold mbind, result_bind, bind in *. rewrite Hy, IH. reflexivity.
Qed.

Lemma val_compare_refl (v : pyval) : val_compare v v = Eq.
Proof.
  destruct v as [z | s]; cbn; [apply Z.compare_refl |].
  induction s as [| c s IH]; cbn; [reflexivity |].
  unfold Ascii.compare. rewrite N.compare_refl. exact IH.
Qed.

Lemma name_compare_refl (n : pyname) : name_compare n n = Eq.
Proof.
  destruct n as [v | vs]; cbn; [apply val_compare_refl |].
  induction vs as [| v vs IH]; cbn; [reflexivity |].
  rewrite val_compare_refl. exact IH.
Qed.

(** Rows that share one key form one group, in frame order. *)
Lemma groupby_single (cols : string + list string) (df : frame) (k : pyname) :
  df <> [] -> Forall (fun r => row_key cols r = Ok k) df ->
  groupby cols df = Ok [(k, df)].
Proof.
  intros Hne Hkeys. unfold groupby.
  assert (Hm : mapM (row_key cols) df = Ok (replicate (length df) k)).
  { apply mapM_ok. clear Hne.
    induction Hkeys as [| r df Hr _ IH]; cbn; constructor; auto. }
  rewrite Hm. unfold mbind, result_bind, bind. f_equal.
  destruct df as [| r df]; [contradiction |]. cbn.
  assert (Hfold : forall (rows acc : frame),
            fold_left (fun gs kr => insert_row (fst kr) (snd kr) gs)
              (zip (replicate (length rows) k) rows) [(k, acc)]
            = [(k, acc ++ rows)]).
  { induction rows as [| r' rows IH]; intros acc; cbn.
    - rewrite app_nil_r. reflexivity.
    - rewrite name_compare_refl. rewrite IH. rewrite <- app_assoc. reflexivity. }
  apply (Hfold df [r]).
Qed.

(** The dispatch of [select_by_index] over the groups. *)
Lemma select_by_index_grouped (df : frame) (ids : list string) (s : Z)
    (e : option Z) (groups : list (pyname * frame)) :
  ids <> [] -> s <> 0 ->
  groupby (_get_groupby_columns ids) df = Ok groups ->
  select_by_index df (Some ids) (Some s) e
  = (result ← mapM (fun ng => _split_group_by_index (snd ng) (Some (fst ng))
                                 (Some s) e) groups;
     pd_concat result).
Proof.
  intros Hids Hs Hg. unfold select_by_index.
  rewrite (SliceFacts.truthy_index_nonzero s Hs). cbn [negb andb].
  replace (truthy (Some ids)) with true by (destruct ids; [contradiction | reflexivity]).
  cbn [negb]. change (default [] (Some ids)) with ids. rewrite Hg. reflexivity.
Qed.

(** The group name only shows in the error: it does not change the rows. *)
Lemma split_group_by_index_name {A} (g rows : list A) (n n' : option pyname)
    (s e : option Z) :
  _split_group_by_index g n s e = Ok rows ->
  _split_group_by_index g n' s e = Ok rows.
Proof.
  unfold _split_group_by_index.
  destruct (truthy s && _); [discriminate | auto].
Qed.

Lemma split_group_by_fraction_name {A} (g rows : list A) (n n' : option pyname)
    (sf ef : option num) (offset : Z) :
  _split_group_by_fraction g n sf offset ef = Ok rows ->
  _split_group_by_fraction g n' sf offset ef = Ok rows.
Proof.
  unfold _split_group_by_fraction. unfold mbind, result_bind, bind.
  destruct sf as [sf |].
  - destruct (int_mul (len g) sf) as [p |]; [| discriminate].
    destruct (py_int p) as [i |]; [| discriminate].
    destruct (i - offset <? 0); [discriminate |].
    destruct (match ef with Some _ => _ | None => _ end) as [ei |]; [| discriminate].
    apply split_group_by_index_name.
  - destruct (match ef with Some _ => _ | None => _ end) as [ei |]; [| discriminate].
    apply split_group_by_index_name.
Qed.

Lemma split_group_by_fixed_fraction_name {A} (g rows : list A)
    (n n' : option pyname) (fraction : num) (location : option string)
    (minimum_size : Z) :
  _split_group_by_fixed_fraction g n fraction location minimum_size = Ok rows ->
  _split_group_by_fixed_fraction g n' fraction location minimum_size = Ok rows.
Proof.
  unfold _split_group_by_fixed_fraction. unfold mbind, result_bind, bind.
  destruct (mul_int fraction (len g - minimum_size)) as [p |]; [| discriminate].
  destruct (py_int p) as [i |]; [| discriminate].
  destruct (decide _); [apply split_group_by_index_name |].
  destruct (decide _); [apply split_group_by_index_name | discriminate].
Qed.

Lemma split_group_train_test_name {A} (g : list A) (n n' : option pyname)
    (train test : num) (offset : Z) (parts : list A * list A * list A) :
  _split_group_train_test g n train test offset = Ok parts ->
  _split_group_train_test g n' train test offset = Ok parts.
Proof.
  unfold _split_group_train_test. unfold mbind, result_bind, bind.
  destruct (int_mul (len g) train) as [p |]; [| discriminate].
  destruct (py_int p) as [ts |]; [| discriminate].
  destruct (int_mul (len g) test) as [q |]; [| discriminate].
  destruct (py_int q) as [tes |]; [| discriminate].
  destruct (_split_group_by_index g n (Some 0) (Some ts)) as [a |] eqn:Ha;
    [| discriminate].
  rewrite (split_group_by_index_name _ _ n n' _ _ Ha).
  destruct (_split_group_by_index g n (Some (ts - offset)) _) as [b |] eqn:Hb;
    [| discriminate].
  rewrite (split_group_by_index_name _ _ n n' _ _ Hb).
  destruct (_split_group_by_index g n (Some (ts + (len g - ts - tes) - offset)) None)
    as [c |] eqn:Hc; [| discriminate].
  rewrite (split_group_by_index_name _ _ n n' _ _ Hc). auto.
Qed.

End GroupFacts.

(** X5: with id columns and a non-zero start index, [select_by_index] visits
    the groups in key order: when every group is longer than the start index
    it returns the slices of the groups, concatenated in that order; the first
    group that is not longer aborts the whole call with the empty-selection
    error of that group, whatever the later groups are. *)
Theorem select_by_index_per_group (df : frame) (ids : list string) (s : Z)
    (e : option Z) (groups : list (pyname * frame)) :
  ids <> [] -> s <> 0 ->
  groupby (_get_groupby_columns ids) df = Ok groups ->
  (groups <> [] -> Forall (fun ng => s < len (snd ng)) groups ->
   select_by_index df (Some ids) (Some s) e
   = Ok (concat ((fun ng => iloc (snd ng) (Some s) (if truthy e then e else None))
                   <$> groups)))
  /\ (forall before n g after,
        groups = before ++ (n, g) :: after ->
        Forall (fun ng => s < len (snd ng)) before -> len g <= s ->
        select_by_index df (Some ids) (Some s) e
        = Raise (ErrEmptySelection (shown (Some n)))).
Proof.
  intros Hids Hs Hg.
  rewrite (GroupFacts.select_by_index_grouped df ids s e groups Hids Hs Hg).
  split.
  - intros Hne Hall.
    assert (Hm : mapM (fun ng => _split_group_by_index (snd ng) (Some (fst ng))
                                   (Some s) e) groups
                 = Ok ((fun ng => iloc (snd ng) (Some s)
                                    (if truthy e then e else None)) <$> groups)).
    { apply GroupFacts.mapM_ok. clear Hg Hne.
      induction Hall as [| ng groups Hlt _ IH]; cbn; constructor; [| exact IH].
      apply IndexFacts.split_group_by_index_from; assumption. }
    rewrite Hm. unfold mbind, result_bind, bind, pd_concat.
    destruct groups; [contradiction | reflexivity].
  - intros before n g after -> Hbefore Hle.
    rewrite (GroupFacts.mapM_raise _ before after (n, g)
               (ErrEmptySelection (shown (Some n)))).
    + reflexivity.
    + eapply Forall_impl; [exact Hbefore |].
      intros ng Hlt. eexists.
      apply IndexFacts.split_group_by_index_from; assumption.
    + cbn [fst snd]. unfold _split_group_by_index.
      rewrite (SliceFacts.truthy_index_nonzero s Hs).
      replace (len g <=? s) with true by (symmetry; apply Z.leb_le; lia).
      reflexivity.
Qed.

Lemma select_by_index_per_group_witness :
  select_by_index two_series (Some ["id"]) (Some 1) None
    = Raise (ErrEmptySelection (Some (NameScalar (VInt 2)))).
Proof.
  destruct (select_by_index_per_group two_series ["id"] 1 None
              [(NameScalar (VInt 1),
                [ <["id" := VInt 1]> {["timestamp" := VInt 0]};
                  <["id" := VInt 1]> {["timestamp" := VInt 1]};
                  <["id" := VInt 1]> {["timestamp" := VInt 2]} ]);
               (NameScalar (VInt 2),
                [ <["id" := VInt 2]> {["timestamp" := VInt 0]} ])])
    as [_ Hfail]; [discriminate | lia | reflexivity |].
  refine (Hfail [_] (NameScalar (VInt 2)) _ [] eq_refl _ _).
  - constructor; [reflexivity | constructor].
  - vm_compute. discriminate.
Defined.

(** X6: on a frame without rows every operation raises when id columns are
    given, since there is no group to concatenate, where [select_by_index]
    without id columns returns the empty frame. *)
Theorem grouped_on_empty_frame_raises (ids : list string) :
  ids <> [] ->
  (forall s e, exists err, select_by_index [] (Some ids) s e = Raise err)
  /\ (forall sf offset ef, exists err,
        select_by_relative_fraction [] (Some ids) sf offset ef = Raise err)
  /\ (forall fraction location minimum_size, exists err,
        select_by_fixed_fraction [] (Some ids) fraction location minimum_size
        = Raise err)
  /\ (forall train test offset, exists err,
        train_test_split [] (Some ids) train test offset = Raise err)
  /\ (forall e, e <> 0 -> select_by_index [] None None (Some e) = Ok []).
Proof.
  intros Hids.
  assert (Ht : truthy (Some ids) = true) by (destruct ids; [contradiction | reflexivity]).
  split; [| split; [| split; [| split]]].
  - intros s e. unfold select_by_index. rewrite Ht.
    destruct (negb (truthy s) && negb (truthy e)); cbn; eauto.
  - intros sf offset ef. unfold select_by_relative_fraction. rewrite Ht.
    destruct (negb (truthy sf) && negb (truthy ef)); [eauto |].
    destruct (offset <? 0); cbn; eauto.
  - intros fraction location minimum_size. unfold select_by_fixed_fraction.
    rewrite Ht. destruct (lt_zero fraction || gt_one fraction); cbn; eauto.
  - intros train test offset. unfold train_test_split. rewrite Ht. cbn. eauto.
  - intros e He. unfold select_by_index.
    rewrite (SliceFacts.truthy_index_nonzero e He). cbn [negb andb].
    change (truthy (@None (list string))) with false. cbn [negb].
    rewrite IndexFacts.split_group_by_index_upto by reflexivity.
    destruct (SegmentFacts.iloc_segment (@nil row) None (Some e))
      as (before & after & Hseg).
    destruct (iloc [] None (Some e)); [reflexivity |].
    destruct before; discriminate.
Qed.

Lemma grouped_on_empty_frame_raises_witness :
  exists err, select_by_index [] (Some ["id"]) None (Some 3) = Raise err.
Proof.
  apply (proj1 (grouped_on_empty_frame_raises ["id"] ltac:(discriminate))).
Defined.

(** X7: on a frame with rows that all have the same id, each operation
    returns with id columns exactly what it returns without them. *)
Theorem single_group_like_ungrouped (df : frame) (ids : list string) (k : pyname) :
  ids <> [] -> df <> [] ->
  Forall (fun r => row_key (_get_groupby_columns ids) r = Ok k) df ->
  (forall s e rows,
     select_by_index df (Some ids) s e = Ok rows
     <-> select_by_index df None s e = Ok rows)
  /\ (forall sf offset ef rows,
        select_by_relative_fraction df (Some ids) sf offset ef = Ok rows
        <-> select_by_relative_fraction df None sf offset ef = Ok rows)
  /\ (forall fraction location minimum_size rows,
        select_by_fixed_fraction df (Some ids) fraction location minimum_size
          = Ok rows
        <-> select_by_fixed_fraction df None fraction location minimum_size
            = Ok rows)
  /\ (forall train test offset parts,
        train_test_split df (Some ids) train test offset = Ok parts
        <-> train_test_split df None train test offset = Ok parts).
Proof.
  intros Hids Hne Hkeys.
  assert (Ht : truthy (Some ids) = true) by (destruct ids; [contradiction | reflexivity]).
  pose proof (GroupFacts.groupby_single _ df k Hne Hkeys) as Hg.
  assert (Hone : forall (helper : option pyname -> result frame),
            (forall n n' rows, helper n = Ok rows -> helper n' = Ok rows) ->
            forall rows,
              (result ← mapM (fun ng : pyname * frame => helper (Some (fst ng)))
                          [(k, df)]; pd_concat result) = Ok rows
              <-> helper None = Ok rows).
  { intros helper Hname rows. cbn [mapM fst]. unfold mbind, result_bind, bind.
    destruct (helper (Some k)) as [r |] eqn:Hk.
    - cbn. rewrite app_nil_r. rewrite (Hname _ None _ Hk). reflexivity.
    - split; [discriminate |]. intros Hn.
      rewrite (Hname _ (Some k) _ Hn) in Hk. discriminate. }
  split; [| split; [| split]].
  - intros s e rows. unfold select_by_index.
    change (default [] (Some ids)) with ids. rewrite Ht, Hg.
    destruct (negb (truthy s) && negb (truthy e)); [reflexivity |]. cbn [negb].
    change (truthy None) with false. cbn [negb].
    apply (Hone (fun n => _split_group_by_index df n s e)).
    intros n n' r. apply GroupFacts.split_group_by_index_name.
  - intros sf offset ef rows. unfold select_by_relative_fraction.
    change (default [] (Some ids)) with ids. rewrite Ht, Hg.
    destruct (negb (truthy sf) && negb (truthy ef)); [reflexivity |].
    destruct (offset <? 0); [reflexivity |]. cbn [negb].
    change (truthy None) with false. cbn [negb].
    apply (Hone (fun n => _split_group_by_fraction df n sf offset ef)).
    intros n n' r. apply GroupFacts.split_group_by_fraction_name.
  - intros fraction location minimum_size rows.
    unfold select_by_fixed_fraction.
    change (default [] (Some ids)) with ids. rewrite Ht, Hg.
    destruct (lt_zero fraction || gt_one fraction); [reflexivity |]. cbn [negb].
    change (truthy None) with false. cbn [negb].
    apply (Hone (fun n => _split_group_by_fixed_fraction df n fraction
                            (Some location) minimum_size)).
    intros n n' r. apply GroupFacts.split_group_by_fixed_fraction_name.
  - intros train test offset parts. unfold train_test_split.
    change (default [] (Some ids)) with ids. rewrite Ht, Hg.
    cbn [negb]. change (truthy None) with false. cbn [negb mapM fst snd].
    unfold mbind, result_bind, bind.
    destruct (_split_group_train_test df (Some k) train test offset)
      as [[[a b] c] |] eqn:Hk.
    + cbn. rewrite Hk. cbn. rewrite !app_nil_r.
      rewrite (GroupFacts.split_group_train_test_name _ _ None _ _ _ _ Hk).
      reflexivity.
    + cbn. rewrite Hk. cbn. split; [discriminate |]. intros Hn.
      rewrite (GroupFacts.split_group_train_test_name _ _ (Some k) _ _ _ _ Hn) in Hk.
      discriminate.
Qed.

Lemma single_group_like_ungrouped_witness :
  select_by_index one_series (Some ["id"]) (Some 1) None
  = Ok (drop 1 one_series).
Proof.
  apply (proj1 (single_group_like_ungrouped one_series ["id"] (NameScalar (VInt 7))
                  ltac:(discriminate) ltac:(discriminate)
                  ltac:(repeat constructor))).
  reflexivity.
Defined.

(** ** Row counts as floats *)

Module ExactFacts.

Lemma iter_xO_value (m k : positive) :
  Zpos (Pos.iter xO m k) = Zpos m * 2 ^ Zpos k.
Proof.
  induction k as [| k IH] using Pos.peano_ind.
  - cbn [Pos.iter]. change (Zpos m~0) with (2 * Zpos m). lia.
  - rewrite Pos.iter_succ. change (Zpos (Pos.iter xO m k)~0) with (2 * Zpos (Pos.iter xO m k)).
    rewrite IH. rewrite Pos2Z.inj_succ. rewrite Z.pow_succ_r by lia. lia.
Qed.

(** A row count below 2^53 is converted without rounding, to a mantissa of
    53 digits. *)
Lemma float_of_int_exact (z : Z) :
  0 < z < 2 ^ 53 ->
  exists m e,
    float_of_int z = Ok (S754_finite false m e)
    /\ Zpos (digits2_pos m) = 53 /\ -52 <= e <= 0
    /\ Zpos m = z * 2 ^ (- e).
Proof.
  intros [Hz0 Hz]. destruct z as [| m | m]; try lia.
  pose proof (FloatFacts.digits2_pos_small m Hz) as Hd.
  assert (Hd1 : 1 <= Zpos (digits2_pos m)) by lia.
  unfold float_of_int, binary_normalize, binary_round, shl_align.
  unfold fexp, emin, prec, emax.
  replace (Z.max (Zpos (digits2_pos m) + 0 - 53) (3 - 1024 - 53))
    with (Zpos (digits2_pos m) - 53) by lia.
  destruct (Zpos (digits2_pos m) - 53 - 0) as [| d | d] eqn:Hdiff; [| lia |].
  - fold prec emax. rewrite FloatFacts.binary_round_aux_canonical by lia.
    exists m, 0. unfold prec. change (2 ^ (- 0)) with 1. repeat split; lia.
  - fold prec emax. rewrite FloatFacts.binary_round_aux_canonical.
    + exists (Pos.iter xO m d), (Zpos (digits2_pos m) - prec).
      unfold prec. repeat split; try lia.
      * rewrite FloatFacts.digits2_pos_iter_xO. lia.
      * rewrite iter_xO_value. f_equal. f_equal. lia.
    + rewrite FloatFacts.digits2_pos_iter_xO. lia.
    + unfold prec. lia.
Qed.

Lemma int_of_float_exact (z : Z) (m : positive) (e : Z) :
  -52 <= e <= 0 -> Zpos m = z * 2 ^ (- e) ->
  int_of_float (S754_finite false m e) = Ok z.
Proof.
  intros He Hm. unfold int_of_float.
  destruct (0 <=? e) eqn:H0.
  - apply Z.leb_le in H0. assert (e = 0) by lia. subst e.
    rewrite Z.shiftl_0_r. f_equal. cbn in Hm. lia.
  - rewrite Z.shiftr_div_pow2 by lia. rewrite Hm.
    rewrite Z.div_mul; [reflexivity |].
    apply Z.pow_nonzero; lia.
Qed.

Lemma fone_value : fone = S754_finite false 4503599627370496 (-52).
Proof. vm_compute. reflexivity. Qed.

(** [1.0 * x = x] for a normal [x]. *)
Lemma mul_one_exact (m : positive) (e : Z) :
  Zpos (digits2_pos m) = 53 -> -52 <= e <= 0 ->
  SFmul prec emax fone (S754_finite false m e) = S754_finite false m e.
Proof.
  intros Hd He. rewrite fone_value. unfold SFmul. cbn [xorb].
  assert (Hmul : (4503599627370496 * m = Pos.iter xO m 52)%positive) by reflexivity.
  rewrite Hmul.
  assert (Hd' : Zpos (digits2_pos (Pos.iter xO m 52)) = 105)
    by (rewrite FloatFacts.digits2_pos_iter_xO; lia).
  unfold binary_round_aux.
  assert (Hshr : shr_fexp prec emax (Zpos (Pos.iter xO m 52)) (-52 + e) loc_Exact
                 = ({| shr_m := Zpos m; shr_r := false; shr_s := false |}, e)).
  { unfold shr_fexp, fexp, emin, prec, emax. cbn [Zdigits2]. rewrite Hd'.
    replace (Z.max (105 + (-52 + e) - 53) (3 - 1024 - 53) - (-52 + e)) with 52 by lia.
    unfold shr. f_equal; first [reflexivity | lia]. }
  rewrite Hshr. cbn [shr_m loc_of_shr_record round_nearest_even].
  assert (Hshr2 : shr_fexp prec emax (Zpos m) e loc_Exact
                  = ({| shr_m := Zpos m; shr_r := false; shr_s := false |}, e)).
  { unfold shr_fexp, fexp, emin, prec, emax. cbn [Zdigits2]. rewrite Hd.
    replace (Z.max (53 + e - 53) (3 - 1024 - 53) - e) with 0 by lia.
    reflexivity. }
  rewrite Hshr2. cbn [shr_m].
  unfold emax, prec. replace (e <=? 1024 - 53) with true by (symmetry; apply Z.leb_le; lia).
  reflexivity.
Qed.

(** [int(1.0 * z) = z] for a row count [z]. *)
Lemma int_of_one_times (z : Z) :
  0 <= z < 2 ^ 53 -> (p ← mul_int (NFloat fone) z; py_int p) = Ok z.
Proof.
  intros Hz. unfold mul_int. destruct (Z.eq_dec z 0) as [-> | Hnz].
  - vm_compute. reflexivity.
  - destruct (float_of_int_exact z ltac:(lia)) as (m & e & Hf & Hd & He & Hm).
    rewrite Hf. cbn [mbind result_bind bind py_int].
    rewrite mul_one_exact by assumption.
    apply int_of_float_exact; assumption.
Qed.

End ExactFacts.

(** ** Fixed fractions *)

(** X8: [fraction = 1.0] selects the whole group for both locations, for
    every minimum size between 0 and the length of the group; the same holds
    for [select_by_fixed_fraction] on a frame without id columns. *)
Theorem fixed_fraction_one_whole_group {A} (group : list A) (name : option pyname)
    (df : frame) (minimum_size : Z) :
  len group < 2 ^ 53 -> 0 <= minimum_size <= len group ->
  len df < 2 ^ 53 -> minimum_size <= len df ->
  _split_group_by_fixed_fraction group name (NFloat fone) (Some "first") minimum_size
    = Ok group
  /\ _split_group_by_fixed_fraction group name (NFloat fone) (Some "last") minimum_size
     = Ok group
  /\ select_by_fixed_fraction df None (NFloat fone) "first" minimum_size = Ok df
  /\ select_by_fixed_fraction df None (NFloat fone) "last" minimum_size = Ok df.
Proof.
  intros Hgl Hgm Hdl Hdm.
  assert (Hgroup : forall B (g : list B) (n : option pyname),
             len g < 2 ^ 53 -> 0 <= minimum_size <= len g ->
             _split_group_by_fixed_fraction g n (NFloat fone) (Some "first")
               minimum_size = Ok g
             /\ _split_group_by_fixed_fraction g n (NFloat fone) (Some "last")
                  minimum_size = Ok g).
  { intros B g n Hlt Hm. unfold _split_group_by_fixed_fraction.
    pose proof (ExactFacts.int_of_one_times (len g - minimum_size) ltac:(lia)) as Hz.
    unfold mbind, result_bind, bind in *.
    destruct (mul_int (NFloat fone) (len g - minimum_size)) as [p |]; [| discriminate].
    rewrite Hz.
    replace (len g - minimum_size + minimum_size) with (len g) by lia.
    rewrite Z.sub_diag.
    split.
    - rewrite decide_True by reflexivity.
      rewrite IndexFacts.split_group_by_index_upto by reflexivity.
      rewrite SliceFacts.iloc_prefix by lia. f_equal. apply take_ge. unfold len. lia.
    - rewrite decide_False by discriminate. rewrite decide_True by reflexivity.
      rewrite IndexFacts.split_group_by_index_upto by reflexivity.
      rewrite SliceFacts.iloc_prefix by lia. f_equal. apply take_ge. unfold len. lia. }
  destruct (Hgroup A group name Hgl Hgm) as [H1 H2].
  destruct (Hgroup _ df None Hdl ltac:(lia)) as [H3 H4].
  repeat split; assumption.
Qed.

Lemma fixed_fraction_one_whole_group_witness :
  select_by_fixed_fraction ten_rows None (NFloat fone) "first" 3 = Ok ten_rows
  /\ select_by_fixed_fraction ten_rows None (NFloat fone) "last" 3 = Ok ten_rows.
Proof.
  refine (proj2 (proj2 (fixed_fraction_one_whole_group ten_rows None ten_rows 3
                          _ _ _ _)));
    vm_compute; first [reflexivity | split; congruence | congruence].
Defined.

(** ** Windows of relative fractions *)

Module WindowFacts.

(** The helper with both fractions given. *)
Lemma split_group_by_fraction_window {A} (g : list A) (name : option pyname)
    (a b : num) (offset ia ib : Z) :
  (p ← int_mul (len g) a; py_int p) = Ok ia ->
  (p ← int_mul (len g) b; py_int p) = Ok ib ->
  0 <= ia - offset <= ib -> ib <= len g ->
  (ia - offset < len g \/ ia - offset = 0) ->
  _split_group_by_fraction g name (Some a) offset (Some b)
  = Ok (rows_between g (ia - offset) ib).
Proof.
  intros Ha Hb Hs Hib Hlt. unfold _split_group_by_fraction.
  unfold mbind, result_bind, bind in *.
  destruct (int_mul (len g) a) as [p |]; [| discriminate]. rewrite Ha.
  replace (ia - offset <? 0) with false by (symmetry; apply Z.ltb_ge; lia).
  destruct (int_mul (len g) b) as [q |]; [| discriminate]. rewrite Hb.
  destruct (Z.eq_dec (ia - offset) 0) as [Hz | Hnz].
  - rewrite Hz. rewrite IndexFacts.split_group_by_index_upto by reflexivity.
    rewrite SliceFacts.iloc_prefix by lia.
    rewrite SliceFacts.rows_between_prefix. reflexivity.
  - rewrite IndexFacts.split_group_by_index_from by lia.
    rewrite SliceFacts.truthy_index_nonzero by lia.
    rewrite SliceFacts.iloc_range by lia. reflexivity.
Qed.

Lemma split_group_by_fraction_from {A} (g : list A) (name : option pyname)
    (a : num) (offset ia : Z) :
  (p ← int_mul (len g) a; py_int p) = Ok ia ->
  0 <= ia - offset -> (ia - offset < len g \/ ia - offset = 0) ->
  _split_group_by_fraction g name (Some a) offset None
  = Ok (rows_between g (ia - offset) (len g)).
Proof.
  intros Ha Hs Hlt. unfold _split_group_by_fraction.
  pose proof (SliceFacts.len_nonneg g) as Hl.
  unfold mbind, result_bind, bind in *.
  destruct (int_mul (len g) a) as [p |]; [| discriminate]. rewrite Ha.
  replace (ia - offset <? 0) with false by (symmetry; apply Z.ltb_ge; lia).
  destruct (Z.eq_dec (ia - offset) 0) as [Hz | Hnz].
  - rewrite Hz. rewrite IndexFacts.split_group_by_index_upto by reflexivity.
    rewrite SliceFacts.iloc_all, SliceFacts.rows_between_prefix.
    f_equal. symmetry. apply take_ge. unfold len. lia.
  - rewrite IndexFacts.split_group_by_index_from by lia.
    cbn. rewrite SliceFacts.iloc_suffix by lia.
    rewrite SliceFacts.rows_between_suffix by lia. reflexivity.
Qed.

Lemma split_group_by_fraction_upto {A} (g : list A) (name : option pyname)
    (b : num) (offset ib : Z) :
  (p ← int_mul (len g) b; py_int p) = Ok ib -> 0 <= ib <= len g ->
  _split_group_by_fraction g name None offset (Some b)
  = Ok (rows_between g 0 ib).
Proof.
  intros Hb Hib. unfold _split_group_by_fraction.
  unfold mbind, result_bind, bind in *.
  destruct (int_mul (len g) b) as [q |]; [| discriminate]. rewrite Hb.
  rewrite IndexFacts.split_group_by_index_upto by reflexivity.
  rewrite SliceFacts.iloc_prefix by lia.
  rewrite SliceFacts.rows_between_prefix. reflexivity.
Qed.

(** The guards of [select_by_relative_fraction] without id columns. *)
Lemma select_by_relative_fraction_ungrouped (df : frame) (sf ef : option num)
    (offset : Z) :
  truthy sf = true \/ truthy ef = true -> 0 <= offset ->
  select_by_relative_fraction df None sf offset ef
  = _split_group_by_fraction df None sf offset ef.
Proof.
  intros Ht Hoff. unfold select_by_relative_fraction.
  replace (negb (truthy sf) && negb (truthy ef)) with false
    by (destruct Ht as [-> | ->]; cbn; [reflexivity | rewrite andb_false_r; reflexivity]).
  replace (offset <? 0) with false by (symmetry; apply Z.ltb_ge; lia).
  reflexivity.
Qed.

End WindowFacts.

(** X9: without id columns, with [i = int(len * start_fraction)] and
    [j = int(len * end_fraction)], a truthy fraction and a non-negative
    offset, [select_by_relative_fraction] returns the rows [i - offset, j)
    when [0 <= i - offset <= j <= len] and the start is inside the frame or
    0; with no end fraction it returns the rows [i - offset, len), and with no
    start fraction the rows [0, j). *)
Theorem select_by_relative_fraction_window (df : frame) (a b : num)
    (offset ia ib : Z) :
  0 <= offset ->
  (p ← int_mul (len df) a; py_int p) = Ok ia ->
  (p ← int_mul (len df) b; py_int p) = Ok ib ->
  (truthy a = true \/ truthy b = true ->
   0 <= ia - offset <= ib -> ib <= len df ->
   ia - offset < len df \/ ia - offset = 0 ->
   select_by_relative_fraction df None (Some a) offset (Some b)
   = Ok (rows_between df (ia - offset) ib))
  /\ (truthy a = true -> 0 <= ia - offset ->
      ia - offset < len df \/ ia - offset = 0 ->
      select_by_relative_fraction df None (Some a) offset None
      = Ok (rows_between df (ia - offset) (len df)))
  /\ (truthy b = true -> 0 <= ib <= len df ->
      select_by_relative_fraction df None None offset (Some b)
      = Ok (rows_between df 0 ib)).
Proof.
  intros Hoff Ha Hb. split; [| split].
  - intros Ht Hs Hib Hlt.
    rewrite WindowFacts.select_by_relative_fraction_ungrouped by assumption.
    apply WindowFacts.split_group_by_fraction_window; assumption.
  - intros Ht Hs Hlt.
    rewrite WindowFacts.select_by_relative_fraction_ungrouped by auto.
    apply WindowFacts.split_group_by_fraction_from; assumption.
  - intros Ht Hib.
    rewrite WindowFacts.select_by_relative_fraction_ungrouped by auto.
    apply WindowFacts.split_group_by_fraction_upto; assumption.
Qed.

Lemma select_by_relative_fraction_window_witness :
  select_by_relative_fraction ten_rows None (Some (NFloat (decimal 2 10))) 1
    (Some (NFloat (decimal 7 10)))
  = Ok (rows_between ten_rows (2 - 1) 7).
Proof.
  refine (proj1 (select_by_relative_fraction_window ten_rows
                   (NFloat (decimal 2 10)) (NFloat (decimal 7 10)) 1 2 7 _ _ _)
            _ _ _ _);
    first [ lia | left; vm_compute; reflexivity | left; lia
          | vm_compute; reflexivity | vm_compute; congruence
          | split; vm_compute; congruence ].
Defined.

(** X10: the start offset reaches back by exactly [offset] rows: for
    [offset <= i = int(len * start_fraction)] the selection with the offset is
    the [offset] rows just before row [i] followed by the selection without
    offset. *)
Theorem start_offset_prepends_context (df : frame) (a b : num) (offset ia ib : Z) :
  (p ← int_mul (len df) a; py_int p) = Ok ia ->
  (p ← int_mul (len df) b; py_int p) = Ok ib ->
  truthy a = true \/ truthy b = true ->
  0 <= offset <= ia -> ia <= ib <= len df -> ia < len df ->
  exists context window,
    select_by_relative_fraction df None (Some a) 0 (Some b) = Ok window
    /\ select_by_relative_fraction df None (Some a) offset (Some b)
       = Ok (context ++ window)
    /\ context = rows_between df (ia - offset) ia
    /\ len context = offset.
Proof.
  intros Ha Hb Ht Hoff Hib Hlt.
  destruct (select_by_relative_fraction_window df a b 0 ia ib ltac:(lia) Ha Hb)
    as [H0 _].
  destruct (select_by_relative_fraction_window df a b offset ia ib ltac:(lia) Ha Hb)
    as [Hk _].
  exists (rows_between df (ia - offset) ia), (rows_between df ia ib).
  split; [| split; [| split]].
  - rewrite H0 by (auto; lia). f_equal. f_equal. lia.
  - rewrite Hk by (auto; lia). f_equal.
    symmetry. apply SliceFacts.rows_between_app; lia.
  - reflexivity.
  - unfold rows_between, len in *. rewrite length_take, length_drop. lia.
Qed.

Lemma start_offset_prepends_context_witness :
  exists context window,
    select_by_relative_fraction ten_rows None (Some (NFloat (decimal 7 10))) 0
      (Some (NFloat (decimal 9 10))) = Ok window
    /\ select_by_relative_fraction ten_rows None (Some (NFloat (decimal 7 10))) 2
         (Some (NFloat (decimal 9 10))) = Ok (context ++ window)
    /\ context = rows_between ten_rows (7 - 2) 7
    /\ len context = 2.
Proof.
  apply (start_offset_prepends_context ten_rows (NFloat (decimal 7 10))
           (NFloat (decimal 9 10)) 2 7 9);
    first [ vm_compute; reflexivity | left; vm_compute; reflexivity
          | lia | vm_compute; congruence | split; vm_compute; congruence ].
Defined.

(** X11: adjacent windows neither overlap nor leave a gap: with offset 0,
    the selection from fraction [a] to [b] followed by the selection from [b]
    to [c] is the selection from [a] to [c]. *)
Theorem adjacent_fraction_windows (df : frame) (a b c : num) (ia ib ic : Z) :
  (p ← int_mul (len df) a; py_int p) = Ok ia ->
  (p ← int_mul (len df) b; py_int p) = Ok ib ->
  (p ← int_mul (len df) c; py_int p) = Ok ic ->
  truthy b = true -> truthy a = true \/ truthy c = true ->
  0 <= ia <= ib -> ib <= ic <= len df -> ib < len df ->
  exists first second,
    select_by_relative_fraction df None (Some a) 0 (Some b) = Ok first
    /\ select_by_relative_fraction df None (Some b) 0 (Some c) = Ok second
    /\ select_by_relative_fraction df None (Some a) 0 (Some c)
       = Ok (first ++ second).
Proof.
  intros Ha Hb Hc Ht Htac Hab Hbc Hlt.
  destruct (select_by_relative_fraction_window df a b 0 ia ib ltac:(lia) Ha Hb)
    as [Hab' _].
  destruct (select_by_relative_fraction_window df b c 0 ib ic ltac:(lia) Hb Hc)
    as [Hbc' _].
  destruct (select_by_relative_fraction_window df a c 0 ia ic ltac:(lia) Ha Hc)
    as [Hac' _].
  exists (rows_between df (ia - 0) ib), (rows_between df (ib - 0) ic).
  split; [| split].
  - apply Hab'; auto; lia.
  - apply Hbc'; auto; lia.
  - rewrite Hac' by (auto; lia). f_equal. rewrite !Z.sub_0_r.
    symmetry. apply SliceFacts.rows_between_app; lia.
Qed.

Lemma adjacent_fraction_windows_witness :
  exists first second,
    select_by_relative_fraction ten_rows None (Some (NInt 0)) 0
      (Some (NFloat (decimal 7 10))) = Ok first
    /\ select_by_relative_fraction ten_rows None (Some (NFloat (decimal 7 10))) 0
         (Some (NFloat fone)) = Ok second
    /\ select_by_relative_fraction ten_rows None (Some (NInt 0)) 0
         (Some (NFloat fone)) = Ok (first ++ second).
Proof.
  apply (adjacent_fraction_windows ten_rows (NInt 0) (NFloat (decimal 7 10))
           (NFloat fone) 0 7 10);
    first [ vm_compute; reflexivity | right; vm_compute; reflexivity
          | lia | vm_compute; congruence | split; vm_compute; congruence ].
Defined.

(** ** The parts of the three-way split *)

Module PartsFacts.

Lemma split_group_by_index_range {A} (g : list A) (name : option pyname) (a b : Z) :
  0 <= a <= b -> b <= len g -> (a < len g \/ a = 0) ->
  _split_group_by_index g name (Some a) (Some b) = Ok (rows_between g a b).
Proof.
  intros Hab Hb Ha. destruct (Z.eq_dec a 0) as [-> | Hnz].
  - rewrite IndexFacts.split_group_by_index_upto by reflexivity.
    rewrite SliceFacts.iloc_prefix by lia.
    rewrite SliceFacts.rows_between_prefix. reflexivity.
  - rewrite IndexFacts.split_group_by_index_from by lia.
    rewrite SliceFacts.truthy_index_nonzero by lia.
    rewrite SliceFacts.iloc_range by lia. reflexivity.
Qed.

Lemma split_group_by_index_rest {A} (g : list A) (name : option pyname) (a : Z) :
  0 <= a -> (a < len g \/ a = 0) ->
  _split_group_by_index g name (Some a) None = Ok (rows_between g a (len g)).
Proof.
  intros Ha0 Ha. pose proof (SliceFacts.len_nonneg g) as Hl.
  destruct (Z.eq_dec a 0) as [-> | Hnz].
  - rewrite IndexFacts.split_group_by_index_upto by reflexivity.
    rewrite SliceFacts.iloc_all, SliceFacts.rows_between_prefix.
    f_equal. symmetry. apply take_ge. unfold len. lia.
  - rewrite IndexFacts.split_group_by_index_from by lia.
    cbn. rewrite SliceFacts.iloc_suffix by lia.
    rewrite SliceFacts.rows_between_suffix by lia. reflexivity.
Qed.

(** The helper once the two sizes are computed. *)
Lemma split_group_train_test_sizes {A} (g : list A) (name : option pyname)
    (train test : num) (offset ts tes : Z) :
  (p ← int_mul (len g) train; py_int p) = Ok ts ->
  (p ← int_mul (len g) test; py_int p) = Ok tes ->
  _split_group_train_test g name train test offset
  = (train_df ← _split_group_by_index g name (Some 0) (Some ts);
     valid_df ← _split_group_by_index g name (Some (ts - offset))
                  (Some (ts + (len g - ts - tes)));
     test_df ← _split_group_by_index g name
                 (Some (ts + (len g - ts - tes) - offset)) None;
     Ok (train_df, valid_df, test_df)).
Proof.
  intros Hts Htes. unfold _split_group_train_test.
  unfold mbind, result_bind, bind in *.
  destruct (int_mul (len g) train) as [p |]; [| discriminate]. rewrite Hts.
  destruct (int_mul (len g) test) as [q |]; [| discriminate]. rewrite Htes.
  reflexivity.
Qed.

Lemma rows_between_length {A} (g : list A) (a b : Z) :
  0 <= a <= b -> b <= len g -> len (rows_between g a b) = b - a.
Proof.
  intros Hab Hb. unfold rows_between, len in *.
  rewrite length_take, length_drop. lia.
Qed.

Lemma rows_between_of_prefix {A} (g : list A) (n a b : Z) :
  0 <= a <= b -> b <= n ->
  rows_between (rows_between g 0 n) a b = rows_between g a b.
Proof.
  intros Hab Hb. unfold rows_between. rewrite Z.sub_0_r.
  change (Z.to_nat 0) with 0%nat. rewrite drop_0.
  rewrite !take_drop_commute. rewrite take_take.
  rewrite Nat.min_l by lia. reflexivity.
Qed.

End PartsFacts.

(** X12: for sizes that are not negative with
    [train_size + test_size <= length] and [0 <= offset <= train_size], the
    three-way split of a group raises exactly when the group is not empty and
    [test_size + offset = 0], and the error is the empty-selection error. *)
Theorem train_test_split_raises_iff {A} (group : list A) (name : option pyname)
    (train test : num) (offset ts tes : Z) :
  (p ← int_mul (len group) train; py_int p) = Ok ts ->
  (p ← int_mul (len group) test; py_int p) = Ok tes ->
  0 <= ts -> 0 <= tes -> ts + tes <= len group -> 0 <= offset <= ts ->
  ((exists e, _split_group_train_test group name train test offset = Raise e)
   <-> group <> [] /\ tes + offset = 0)
  /\ (forall e, _split_group_train_test group name train test offset = Raise e ->
      e = ErrEmptySelection (shown name)).
Proof.
  intros Hts Htes Hts0 Htes0 Hsum Hoff.
  pose proof (SliceFacts.len_nonneg group) as Hl.
  rewrite (PartsFacts.split_group_train_test_sizes group name train test offset
             ts tes Hts Htes).
  rewrite (PartsFacts.split_group_by_index_range group name 0 ts) by lia.
  cbn [mbind result_bind bind].
  assert (Hlen : group <> [] <-> len group <> 0).
  { unfold len. destruct group; cbn; split; intros H; try congruence; lia. }
  destruct (Z.eq_dec (tes + offset) 0) as [Hz | Hnz].
  - assert (offset = 0) by lia. assert (tes = 0) by lia. subst offset tes.
    destruct (Z.eq_dec (len group) 0) as [Hl0 | Hl0].
    + assert (ts = 0) by lia. subst ts. rewrite Hl0. cbn.
      rewrite !IndexFacts.split_group_by_index_upto by reflexivity. cbn.
      split.
      * split; [intros [e He]; discriminate | intros [Hne _]; apply Hlen in Hne; lia].
      * discriminate.
    + assert (Htest : _split_group_by_index group name
                        (Some (ts + (len group - ts - 0) - 0)) None
                      = Raise (ErrEmptySelection (shown name))).
      { unfold _split_group_by_index.
        rewrite SliceFacts.truthy_index_nonzero by lia.
        replace (len group <=? ts + (len group - ts - 0) - 0) with true
          by (symmetry; apply Z.leb_le; lia).
        reflexivity. }
      rewrite Htest.
      destruct (_split_group_by_index group name (Some (ts - 0)) _) as [v | e0] eqn:Hv.
      * split; [| intros e He; inversion He; reflexivity].
        split; [intros _; split; [apply Hlen; assumption | reflexivity] | eauto].
      * apply IndexFacts.split_group_by_index_error in Hv. subst e0.
        split; [| intros e He; inversion He; reflexivity].
        split; [intros _; split; [apply Hlen; assumption | reflexivity] | eauto].
  - rewrite (PartsFacts.split_group_by_index_range group name (ts - offset)) by lia.
    cbn [mbind result_bind bind].
    rewrite PartsFacts.split_group_by_index_rest by lia.
    split; [| discriminate].
    split; [intros [e He]; discriminate | intros [_ ?]; contradiction].
Qed.

Lemma train_test_split_raises_iff_witness :
  (exists e, _split_group_train_test three_rows None (NFloat (decimal 7 10))
               (NFloat (decimal 2 10)) 0 = Raise e)
  <-> three_rows <> [] /\ 0 + 0 = 0.
Proof.
  apply (proj1 (train_test_split_raises_iff three_rows None (NFloat (decimal 7 10))
                  (NFloat (decimal 2 10)) 0 2 0
                  ltac:(vm_compute; reflexivity) ltac:(vm_compute; reflexivity)
                  ltac:(lia) ltac:(lia) ltac:(vm_compute; congruence) ltac:(lia))).
Defined.

(** X13: under the same conditions with [test_size + offset > 0], the parts
    have [train_size], [valid_size + offset] and [test_size + offset] rows;
    the validation part is the last [offset] training rows followed by the
    rows [train_size, train_size + valid_size), and the test part is the
    [offset] rows before row [train_size + valid_size] followed by the rows
    from there to the end: no row of a later range appears in an earlier
    part. *)
Theorem train_test_split_parts {A} (group : list A) (name : option pyname)
    (train test : num) (offset ts tes : Z) :
  (p ← int_mul (len group) train; py_int p) = Ok ts ->
  (p ← int_mul (len group) test; py_int p) = Ok tes ->
  0 <= ts -> 0 <= tes -> ts + tes <= len group -> 0 <= offset <= ts ->
  0 < tes + offset ->
  let vs := len group - ts - tes in
  exists train_df valid_df test_df,
    _split_group_train_test group name train test offset
      = Ok (train_df, valid_df, test_df)
    /\ len train_df = ts /\ len valid_df = vs + offset /\ len test_df = tes + offset
    /\ valid_df = rows_between train_df (ts - offset) ts
                  ++ rows_between group ts (ts + vs)
    /\ test_df = rows_between group (ts + vs - offset) (ts + vs)
                 ++ rows_between group (ts + vs) (len group).
Proof.
  intros Hts Htes Hts0 Htes0 Hsum Hoff Hpos vs.
  pose proof (SliceFacts.len_nonneg group) as Hl.
  rewrite (PartsFacts.split_group_train_test_sizes group name train test offset
             ts tes Hts Htes).
  fold vs.
  rewrite (PartsFacts.split_group_by_index_range group name 0 ts) by lia.
  cbn [mbind result_bind bind].
  rewrite (PartsFacts.split_group_by_index_range group name (ts - offset))
    by (unfold vs; lia).
  cbn [mbind result_bind bind].
  rewrite PartsFacts.split_group_by_index_rest by (unfold vs; lia).
  eexists _, _, _. split; [reflexivity |].
  split; [| split; [| split; [| split]]].
  - rewrite PartsFacts.rows_between_length by lia. lia.
  - rewrite PartsFacts.rows_between_length by (unfold vs; lia). lia.
  - rewrite PartsFacts.rows_between_length by (unfold vs; lia). unfold vs. lia.
  - rewrite <- (SliceFacts.rows_between_app group (ts - offset) ts (ts + vs))
      by (unfold vs; lia).
    f_equal. symmetry. apply PartsFacts.rows_between_of_prefix; lia.
  - symmetry. apply SliceFacts.rows_between_app; unfold vs; lia.
Qed.

Lemma train_test_split_parts_witness :
  exists train_df valid_df test_df,
    _split_group_train_test ten_rows None (NFloat (decimal 7 10))
      (NFloat (decimal 2 10)) 3 = Ok (train_df, valid_df, test_df)
    /\ len train_df = 7 /\ len valid_df = (len ten_rows - 7 - 2) + 3
    /\ len test_df = 2 + 3
    /\ valid_df = rows_between train_df (7 - 3) 7
                  ++ rows_between ten_rows 7 (7 + (len ten_rows - 7 - 2))
    /\ test_df = rows_between ten_rows (7 + (len ten_rows - 7 - 2) - 3)
                   (7 + (len ten_rows - 7 - 2))
                 ++ rows_between ten_rows (7 + (len ten_rows - 7 - 2))
                      (len ten_rows).
Proof.
  apply (train_test_split_parts ten_rows None (NFloat (decimal 7 10))
           (NFloat (decimal 2 10)) 3 7 2);
    first [ vm_compute; reflexivity | lia | vm_compute; congruence
          | split; vm_compute; congruence ].
Defined.

(** ** The resolver without a validation split, and missing keys *)

(** X14: without the key ["valid"] the resolver hands the configured
    [train] and [test] values and [valid_test_offset], the context length or
    0, to [train_test_split]; a missing ["train"] or ["test"] key raises the
    key error of that key, in this order, also when ["valid"] is present. *)
Theorem get_split_params_two_way (split_config : gmap string cfgval)
    (context_length : option Z) (train test : cfgval) :
  (split_config !! "valid" = None ->
   split_config !! "train" = Some train -> split_config !! "test" = Some test ->
   exists params,
     get_split_params split_config context_length = Ok (TrainTestSplit params)
     /\ params !! "train" = Some train /\ params !! "test" = Some test
     /\ params !! "valid_test_offset"
        = Some (CScalar (NInt (default 0 context_length))))
  /\ (split_config !! "train" = None ->
      get_split_params split_config context_length = Raise (ErrKey "train"))
  /\ (split_config !! "valid" = None -> split_config !! "train" = Some train ->
      split_config !! "test" = None ->
      get_split_params split_config context_length = Raise (ErrKey "test")).
Proof.
  assert (Hcl : (if truthy context_length then default 0 context_length else 0)
                = default 0 context_length).
  { destruct context_length as [c |]; [| reflexivity].
    unfold truthy, truthy_option, truthy, truthy_Z.
    destruct (Z.eqb_spec c 0) as [-> |]; reflexivity. }
  split; [| split].
  - intros Hv Ht He. unfold get_split_params.
    rewrite decide_False by (rewrite Hv; intros [? ?]; discriminate).
    unfold getitem. rewrite Ht, He. cbn [mbind result_bind bind].
    eexists. split; [reflexivity |]. rewrite Hcl.
    repeat split; simplify_map_eq; reflexivity.
  - intros Ht. unfold get_split_params.
    destruct (decide (is_Some (split_config !! "valid"))).
    + cbn [for_each]. unfold mbind at 1. unfold result_bind at 1.
      replace (resolve_group split_config context_length (∅, ∅) "train")
        with (@Raise (gmap string (gmap string num) * gmap string selector)
                (ErrKey "train")); [reflexivity |].
      unfold resolve_group, boundary, getitem. rewrite Ht. reflexivity.
    + unfold getitem. rewrite Ht. reflexivity.
  - intros Hv Ht He. unfold get_split_params.
    rewrite decide_False by (rewrite Hv; intros [? ?]; discriminate).
    unfold getitem. rewrite Ht, He. reflexivity.
Qed.

Lemma get_split_params_two_way_witness :
  exists params,
    get_split_params two_way_config (Some 5) = Ok (TrainTestSplit params)
    /\ params !! "train" = Some (CScalar (NFloat (decimal 7 10)))
    /\ params !! "test" = Some (CScalar (NFloat (decimal 2 10)))
    /\ params !! "valid_test_offset" = Some (CScalar (NInt (default 0 (Some 5)))).
Proof.
  apply (proj1 (get_split_params_two_way two_way_config (Some 5)
                  (CScalar (NFloat (decimal 7 10)))
                  (CScalar (NFloat (decimal 2 10)))));
    reflexivity.
Defined.

(** ** More on joining lists *)

Module JoinMore.
Section JoinMore.
Context {A : Type} `{Countable A}.

Lemma join_cons (first : list A) (rest : list (list A)) :
  join_list_without_repeat (first :: rest) = Some (join_spec first rest).
Proof.
  unfold join_list_without_repeat. cbn [fold_left].
  unfold join_step at 2. cbn [fst snd]. apply JoinFacts.fold_join_step.
Qed.

Lemma join_nil_or_cons (lists : list (list A)) (r : list A) :
  join_list_without_repeat lists = Some r ->
  exists first rest, lists = first :: rest /\ r = join_spec first rest.
Proof.
  destruct lists as [| first rest]; [discriminate |].
  rewrite join_cons. intros Hr. inversion Hr. eauto.
Qed.

Lemma elem_of_join_spec (acc : list A) (rest : list (list A)) (x : A) :
  x ∈ join_spec acc rest <-> x ∈ acc \/ exists l, l ∈ rest /\ x ∈ l.
Proof.
  unfold join_spec. revert acc.
  induction rest as [| l rest IH]; intros acc; cbn [fold_left].
  - split; [auto |]. intros [Hx | (l & Hl & _)]; [exact Hx |].
    apply elem_of_nil in Hl. contradiction.
  - rewrite IH. rewrite elem_of_app, list_elem_of_filter. split.
    + intros [[Hx | [_ Hx]] | (l' & Hl' & Hx)].
      * auto.
      * right. exists l. split; [apply elem_of_cons; auto | exact Hx].
      * right. exists l'. split; [apply elem_of_cons; auto | exact Hx].
    + intros [Hx | (l' & Hl' & Hx)]; [auto |].
      apply elem_of_cons in Hl' as [-> | Hl'].
      * left. destruct (decide (x ∈ acc)); auto.
      * right. eauto.
Qed.

Lemma NoDup_join_spec (acc : list A) (rest : list (list A)) :
  NoDup acc -> Forall NoDup rest -> NoDup (join_spec acc rest).
Proof.
  unfold join_spec. revert acc.
  induction rest as [| l rest IH]; intros acc Hacc Hrest; cbn [fold_left];
    [exact Hacc |].
  inversion Hrest as [| ? ? Hl Hrest']; subst.
  apply IH; [| exact Hrest'].
  apply NoDup_app. split; [exact Hacc |]. split.
  - intros x Hx Hf. apply list_elem_of_filter in Hf as [Hn _]. contradiction.
  - apply NoDup_filter. exact Hl.
Qed.

Lemma join_spec_absorbs (acc : list A) (rest : list (list A)) :
  Forall (fun l => forall x, x ∈ l -> x ∈ acc) rest -> join_spec acc rest = acc.
Proof.
  unfold join_spec. induction 1 as [| l rest Hl _ IH]; cbn [fold_left];
    [reflexivity |].
  assert (Hnil : filter (fun item => item ∉ acc) l = []).
  { clear IH. induction l as [| y l IHl]; [reflexivity |].
    rewrite filter_cons. rewrite decide_False.
    - apply IHl. intros x Hx. apply Hl. apply elem_of_cons. auto.
    - intros Hn. apply Hn, Hl. apply elem_of_cons. auto. }
  rewrite Hnil, app_nil_r. exact IH.
Qed.

End JoinMore.
End JoinMore.

(** X15: the result holds the elements of the input lists and no others:
    a value is in the result exactly when it is in one of the lists. *)
Theorem join_list_members {A : Type} `{Countable A} (lists : list (list A))
    (r : list A) (x : A) :
  join_list_without_repeat lists = Some r ->
  (x ∈ r <-> exists l, l ∈ lists /\ x ∈ l).
Proof.
  intros Hr. apply JoinMore.join_nil_or_cons in Hr as (first & rest & -> & ->).
  rewrite JoinMore.elem_of_join_spec. split.
  - intros [Hx | (l & Hl & Hx)].
    + exists first. split; [apply elem_of_cons; auto | exact Hx].
    + exists l. split; [apply elem_of_cons; auto | exact Hx].
  - intros (l & Hl & Hx). apply elem_of_cons in Hl as [-> | Hl]; eauto.
Qed.

Lemma join_list_members_witness :
  4 ∈ [1; 2; 3; 4; 5] <-> exists l, l ∈ [[1; 2; 3]; [2; 3; 4]; [4; 5]] /\ 4 ∈ l.
Proof.
  apply (join_list_members [[1; 2; 3]; [2; 3; 4]; [4; 5]] [1; 2; 3; 4; 5] 4).
  vm_compute. reflexivity.
Defined.

(** X16: when no input list repeats an element, the result repeats none. *)
Theorem join_list_no_repeat {A : Type} `{Countable A} (lists : list (list A))
    (r : list A) :
  Forall NoDup lists -> join_list_without_repeat lists = Some r -> NoDup r.
Proof.
  intros Hnd Hr. apply JoinMore.join_nil_or_cons in Hr as (first & rest & -> & ->).
  inversion Hnd; subst. apply JoinMore.NoDup_join_spec; assumption.
Qed.

Lemma join_list_no_repeat_witness : NoDup [1; 2; 3; 4; 5].
Proof.
  apply (join_list_no_repeat [[1; 2; 3]; [2; 3; 4]; [4; 5]] [1; 2; 3; 4; 5]).
  - apply (bool_decide_unpack _). vm_compute. reflexivity.
  - vm_compute. reflexivity.
Defined.

(** X17: repeats inside one later list are kept, since membership is
    tested against the result as it was before that list; and lists whose
    elements all occur in the first list add nothing, so joining a list with
    itself gives the list back. *)
Theorem join_list_absorbs {A : Type} `{Countable A} (first : list A)
    (rest : list (list A)) (x : A) :
  (Forall (fun l => l ⊆ first) rest ->
   join_list_without_repeat (first :: rest) = Some first)
  /\ join_list_without_repeat [first; first] = Some first
  /\ (x ∉ first ->
      join_list_without_repeat [first; [x; x]] = Some (first ++ [x; x])).
Proof.
  split; [| split].
  - intros Hall. rewrite JoinMore.join_cons.
    rewrite JoinMore.join_spec_absorbs; [reflexivity |].
    eapply Forall_impl; [exact Hall |]. intros l Hl y Hy. exact (Hl y Hy).
  - rewrite JoinMore.join_cons.
    rewrite JoinMore.join_spec_absorbs; [reflexivity |].
    constructor; [auto | constructor].
  - intros Hx. rewrite JoinMore.join_cons. unfold join_spec. cbn [fold_left].
    rewrite !filter_cons, filter_nil. rewrite !decide_True by exact Hx.
    reflexivity.
Qed.

Lemma join_list_absorbs_witness :
  join_list_without_repeat [[1; 2; 3]; [3; 1]; [2]] = Some [1; 2; 3]
  /\ join_list_without_repeat [[1; 2; 3]; [7; 7]] = Some ([1; 2; 3] ++ [7; 7]).
Proof.
  split.
  - apply (proj1 (join_list_absorbs [1; 2; 3] [[3; 1]; [2]] 0)).
    apply (bool_decide_unpack _). vm_compute. reflexivity.
  - apply (proj2 (proj2 (join_list_absorbs [1; 2; 3] [] 7))).
    apply (bool_decide_unpack _). vm_compute. reflexivity.
Defined.

(** ** Rows selected by timestamp *)

(** X18: on a frame whose timestamp column holds integers, with bounds
    that are not 0, [select_by_timestamp] returns, in frame order, exactly the
    rows with [start <= timestamp < end]; with the end omitted the rows with
    [start <= timestamp], and with the start omitted the rows with
    [timestamp < end]. *)
Theorem select_by_timestamp_rows (df : frame) (c : string) (s e : Z) :
  Forall (has_int_timestamp c) df -> s <> 0 -> e <> 0 ->
  select_by_timestamp df c (Some (VInt s)) (Some (VInt e))
    = Ok (List.filter (fun r => (s <=? int_timestamp c r) && (int_timestamp c r <? e)) df)
  /\ select_by_timestamp df c (Some (VInt s)) None
     = Ok (List.filter (fun r => s <=? int_timestamp c r) df)
  /\ select_by_timestamp df c None (Some (VInt e))
     = Ok (List.filter (fun r => int_timestamp c r <? e) df).
Proof.
  intros Hdf Hs He. split; [| split].
  - apply TimestampFacts.select_by_timestamp_between; assumption.
  - apply TimestampFacts.select_by_timestamp_from; assumption.
  - unfold select_by_timestamp.
    assert (Hte : truthy (Some (VInt e)) = true)
      by (apply negb_true_iff, Z.eqb_neq, He).
    rewrite Hte. cbn [negb andb].
    change (truthy (@None pyval)) with false. cbn [negb].
    apply (TimestampFacts.select_where_int df c _ (fun t => t <? e)); [exact Hdf |].
    intros t. reflexivity.
Qed.

Lemma select_by_timestamp_rows_witness :
  select_by_timestamp five_ticks "timestamp" (Some (VInt 1)) (Some (VInt 3))
  = Ok (List.filter (fun r => (1 <=? int_timestamp "timestamp" r)
                              && (int_timestamp "timestamp" r <? 3)) five_ticks).
Proof.
  apply (proj1 (select_by_timestamp_rows five_ticks "timestamp" 1 3
                  ltac:(repeat constructor; eexists; reflexivity)
                  ltac:(lia) ltac:(lia))).
Defined.

(** ** More on the legacy format reader *)

Module ReaderMore.
Import Tsf.
Section ReaderMore.
Context (date : Type).
Variable float_of_str : string -> option float.
Variable int_of_str : string -> option Z.
Variable strtobool : string -> option bool.
Variable strptime : string -> option date.

Abbreviation rline := (read_line date float_of_str int_of_str strtobool strptime).
Abbreviation rlines := (read_lines date float_of_str int_of_str strtobool strptime).
Abbreviation rrow := (read_data_row date float_of_str int_of_str strptime).
Abbreviation rmeta := (read_meta_data date int_of_str strtobool).
Abbreviation rconvert :=
  (convert_tsf_to_dataframe date float_of_str int_of_str strtobool strptime).

(** The four ways in which a line is read without error. *)
Lemma read_line_done (st st1 : state date) (line : string) :
  rline st line = Done st1 ->
  (is_blank line = true /\ st1 = st)
  \/ (is_blank line = false /\ is_data_row line = false
      /\ startswith (strip line) "@" = true
      /\ exists st0, rmeta st (strip line) = Done st0 /\ st1 = count_line st0)
  \/ (is_blank line = false /\ is_data_row line = false
      /\ startswith (strip line) "@" = false /\ st1 = count_line st)
  \/ (is_data_row line = true /\ col_names st <> [] /\ found_data_tag st = true
      /\ exists st0, rrow st (strip line) = Done st0 /\ st1 = count_line st0).
Proof.
  unfold read_line, is_blank, is_data_row.
  destruct (truthy (strip line)) eqn:Hne; cbn [negb andb].
  2: { intros Hst. inversion Hst. auto. }
  destruct (startswith (strip line) "@") eqn:Hat; cbn [negb andb].
  - unfold mbind, outcome_bind.
    destruct (rmeta st (strip line)) as [st0 |] eqn:Hmeta; [| discriminate].
    intros Hst. inversion Hst. right. left. eauto 10.
  - destruct (startswith (strip line) "#") eqn:Hhash; cbn [negb].
    + intros Hst. inversion Hst. right. right. left. auto.
    + destruct (col_names st) as [| c cs] eqn:Hcols; cbn [length Nat.eqb];
        [discriminate |].
      destruct (found_data_tag st) eqn:Htag; cbn [negb]; [| discriminate].
      unfold mbind, outcome_bind.
      destruct (rrow st (strip line)) as [st0 |] eqn:Hrow; [| discriminate].
      intros Hst. inversion Hst. right. right. right.
      repeat split; [discriminate | eauto].
Qed.

(** Meta-data leaves the series alone, and only an attribute line adds a
    column. *)
Lemma read_meta_data_series (st st0 : state date) (s : string) :
  rmeta st s = Done st0 ->
  all_series st0 = all_series st
  /\ started_reading_data_section st0 = started_reading_data_section st
  /\ (startswith s "@attribute" = false -> col_names st0 = col_names st).
Proof.
  unfold read_meta_data.
  destruct (startswith s "@data") eqn:Hdata; cbn [negb].
  - destruct (_ =? 0)%nat; [discriminate |].
    intros Hst. inversion Hst. cbn. auto.
  - destruct (startswith s "@attribute").
    + destruct (negb _); [discriminate |]. intros Hst. inversion Hst. cbn.
      repeat split; auto. discriminate.
    + destruct (negb _); [discriminate |].
      repeat match goal with
             | |- context [if ?b then _ else _] => destruct b
             end;
        unfold fmap, outcome_fmap, builtin;
        try match goal with
            | |- context [match ?o with Some _ => _ | None => _ end] => destruct o
            end;
        intros Hst; inversion Hst; cbn; auto.
Qed.

(** A data row adds one series, which has a value. *)
Lemma read_data_row_series (st st0 : state date) (s : string) :
  rrow st s = Done st0 ->
  col_names st0 = col_names st
  /\ started_reading_data_section st0 = true
  /\ exists numeric_series,
       has_value numeric_series = true
       /\ all_series st0
          = (if started_reading_data_section st then all_series st else [])
            ++ [numeric_series].
Proof.
  unfold read_data_row. cbv zeta.
  set (stx := if negb (started_reading_data_section st)
              then start_data_section st else st).
  assert (H0 : col_names stx = col_names st
               /\ started_reading_data_section stx = true
               /\ all_series stx
                  = if started_reading_data_section st then all_series st else []).
  { unfold stx. destruct (started_reading_data_section st) eqn:Hs; cbn; auto. }
  clearbody stx.
  destruct (negb _); [discriminate |].
  destruct (_ =? 0)%nat; [discriminate |].
  unfold mbind, outcome_bind.
  destruct (mapM _ _) as [numeric_series |]; [| discriminate].
  destruct (_ =? _)%nat eqn:Hcount; [discriminate |].
  destruct (for_each _ _ _) as [d |]; [| discriminate].
  intros Hst. inversion Hst. cbn.
  destruct H0 as (Hc & Hs & Ha). rewrite Hc, Hs, Ha.
  repeat split. exists numeric_series. split; [| reflexivity].
  unfold has_value. rewrite Hcount. reflexivity.
Qed.

(** *** Blank lines *)

Lemma read_line_blank (st : state date) (line : string) :
  is_blank line = true -> rline st line = Done st.
Proof.
  unfold is_blank, read_line. intros Hb. apply negb_true_iff in Hb.
  rewrite Hb. reflexivity.
Qed.

Lemma read_lines_skip_blank (lines : list string) (st : state date) :
  rlines (List.filter (fun l => negb (is_blank l)) lines) st = rlines lines st.
Proof.
  unfold read_lines. revert st.
  induction lines as [| l lines IH]; intros st; [reflexivity |].
  cbn [List.filter]. destruct (is_blank l) eqn:Hb; cbn [negb for_each].
  - rewrite (read_line_blank st l Hb). apply IH.
  - unfold mbind, outcome_bind. destruct (rline st l); [apply IH | reflexivity].
Qed.

Lemma read_lines_all_blank (lines : list string) (st : state date) :
  Forall (fun l => is_blank l = true) lines -> rlines lines st = Done st.
Proof.
  unfold read_lines. induction 1 as [| l lines Hb _ IH]; [reflexivity |].
  cbn [for_each]. rewrite (read_line_blank st l Hb). exact IH.
Qed.

Lemma read_lines_counted (lines : list string) (st st1 : state date) :
  rlines lines st = Done st1 ->
  Exists (fun l => is_blank l = false) lines -> line_count st < line_count st1.
Proof.
  unfold read_lines. revert st.
  induction lines as [| l lines IH]; intros st Hst Hex.
  - inversion Hex.
  - cbn [for_each] in Hst. unfold mbind, outcome_bind in Hst.
    destruct (rline st l) as [st0 |] eqn:Hl; [| discriminate].
    destruct (ReaderFacts.read_line_fields date float_of_str int_of_str strtobool
                strptime st st0 l Hl) as (Hle & Hlt & _).
    destruct (ReaderFacts.read_lines_fields date float_of_str int_of_str strtobool
                strptime lines st0 st1 Hst) as (Hle' & _).
    inversion Hex as [? ? Hb | ? ? Hrest]; subst.
    + unfold is_blank in Hb. apply negb_false_iff in Hb.
      specialize (Hlt Hb). lia.
    + specialize (IH st0 Hst Hrest). lia.
Qed.

(** *** The errors of the loop *)

Lemma mapM_error {X Y} (f : X -> outcome Y) (l : list X) (e : tsf_error) :
  (forall x e, f x = Fail e -> loop_error e) ->
  mapM f l = Fail e -> loop_error e.
Proof.
  intros Hf. revert e. induction l as [| x l IH]; intros e; cbn [mapM];
    [intros Herr; discriminate Herr |].
  unfold mbind, outcome_bind.
  destruct (f x) as [y |] eqn:Hx.
  - destruct (mapM f l) as [k |]; [intros Herr; discriminate Herr |].
    intros Herr. inversion Herr. subst. apply IH. reflexivity.
  - intros Herr. inversion Herr. subst. exact (Hf x e Hx).
Qed.

Lemma for_each_error {S X} (body : S -> X -> outcome S) (xs : list X) (s : S)
    (e : tsf_error) :
  (forall s x e, body s x = Fail e -> loop_error e) ->
  for_each body xs s = Fail e -> loop_error e.
Proof.
  intros Hb. revert s. induction xs as [| x xs IH]; intros s; cbn [for_each];
    [intros Herr; discriminate Herr |].
  unfold mbind, outcome_bind.
  destruct (body s x) as [s' |] eqn:Hx; [apply IH |].
  intros Herr. inversion Herr. subst. exact (Hb s x e Hx).
Qed.

Lemma read_value_error (val : string) (e : tsf_error) :
  read_value float_of_str val = Fail e -> loop_error e.
Proof.
  unfold read_value, fmap, outcome_fmap, builtin.
  destruct (String.eqb val "?"); [intros Herr; discriminate Herr |].
  destruct (float_of_str val); [intros Herr; discriminate Herr |].
  intros Herr. inversion Herr. split; discriminate.
Qed.

Lemma store_attribute_error (names types full_info : list string)
    (d : gmap string (list (attval date))) (i : nat) (e : tsf_error) :
  store_attribute date int_of_str strptime names types full_info d i = Fail e ->
  loop_error e.
Proof.
  unfold store_attribute, cast_attribute, append_to, fmap, outcome_fmap, builtin,
    mbind, outcome_bind.
  repeat match goal with
         | |- context [if ?b then _ else _] => destruct b
         | |- context [match int_of_str ?x with _ => _ end] => destruct (int_of_str x)
         | |- context [match strptime ?x with _ => _ end] => destruct (strptime x)
         | |- context [match ?m !! ?k with _ => _ end] => destruct (m !! k)
         end;
    intros Herr; try discriminate Herr; inversion Herr; split; discriminate.
Qed.

Lemma read_data_row_error (st : state date) (s : string) (e : tsf_error) :
  rrow st s = Fail e -> loop_error e.
Proof.
  unfold read_data_row. cbv zeta.
  set (stx := if negb (started_reading_data_section st)
              then start_data_section st else st).
  clearbody stx.
  destruct (negb _); [intros Herr; inversion Herr; split; discriminate |].
  destruct (_ =? 0)%nat eqn:Hlen.
  { apply Nat.eqb_eq in Hlen. apply length_zero_iff_nil in Hlen.
    exfalso. exact (ReaderFacts.split_nonempty _ _ Hlen). }
  unfold mbind, outcome_bind.
  destruct (mapM _ _) as [numeric_series |] eqn:Hvals.
  2: { intros Herr. inversion Herr. subst.
       exact (mapM_error _ _ _ read_value_error Hvals). }
  destruct (count_missing numeric_series =? _)%nat;
    [intros Herr; inversion Herr; split; discriminate |].
  destruct (for_each _ _ _) as [d |] eqn:Hd; [intros Herr; discriminate Herr |].
  intros Herr. inversion Herr. subst.
  refine (for_each_error _ _ _ _ _ Hd).
  intros d x e0. apply store_attribute_error.
Qed.

Lemma read_meta_data_error (st : state date) (s : string) (e : tsf_error) :
  rmeta st s = Fail e -> loop_error e.
Proof.
  unfold read_meta_data, fmap, outcome_fmap, builtin.
  repeat match goal with
         | |- context [if ?b then _ else _] => destruct b
         | |- context [match int_of_str ?x with _ => _ end] => destruct (int_of_str x)
         | |- context [match strtobool ?x with _ => _ end] => destruct (strtobool x)
         end;
    intros Herr; try discriminate Herr; inversion Herr; split; discriminate.
Qed.

Lemma read_line_error (st : state date) (line : string) (e : tsf_error) :
  rline st line = Fail e -> loop_error e.
Proof.
  unfold read_line.
  destruct (truthy (strip line)); [| intros Herr; discriminate Herr].
  unfold mbind, outcome_bind.
  destruct (startswith (strip line) "@").
  - destruct (rmeta st (strip line)) eqn:Hm; [intros Herr; discriminate Herr |].
    intros Herr. inversion Herr. subst. exact (read_meta_data_error _ _ _ Hm).
  - destruct (negb (startswith (strip line) "#")); [| intros Herr; discriminate Herr].
    destruct (_ =? 0)%nat; [intros Herr; inversion Herr; split; discriminate |].
    destruct (negb (found_data_tag st));
      [intros Herr; inversion Herr; split; discriminate |].
    destruct (rrow st (strip line)) eqn:Hr; [intros Herr; discriminate Herr |].
    intros Herr. inversion Herr. subst. exact (read_data_row_error _ _ _ Hr).
Qed.

Lemma read_lines_error (lines : list string) (st : state date) (e : tsf_error) :
  rlines lines st = Fail e -> loop_error e.
Proof.
  unfold read_lines. apply for_each_error. intros s x e0. apply read_line_error.
Qed.

Lemma data_frame_error (d : gmap string (column date)) (e : tsf_error) :
  data_frame date d = Fail e -> e = FrameLengthMismatch.
Proof.
  unfold data_frame. destruct (map_to_list d) as [| [k c] rest]; [intros Herr; discriminate Herr |].
  destruct (forallb _ _); [intros Herr; discriminate Herr |]. intros Herr. inversion Herr. reflexivity.
Qed.

(** How the conversion fails. *)
Lemma convert_error (lines : list string) (value_column_name : string)
    (e : tsf_error) :
  rconvert lines value_column_name = Fail e ->
  rlines lines initial = Fail e
  \/ exists st, rlines lines initial = Done st
       /\ ((line_count st = 0 /\ e = EmptyFile)
           \/ (line_count st <> 0
               /\ (e = MissingAttributeSection \/ e = MissingSeriesInformation
                   \/ e = FrameLengthMismatch))).
Proof.
  unfold convert_tsf_to_dataframe, mbind, outcome_bind.
  destruct (rlines lines initial) as [st |]; [| intros Herr; inversion Herr; left; reflexivity].
  intros Herr. right. exists st. split; [reflexivity |].
  destruct (line_count st =? 0) eqn:Hc.
  { apply Z.eqb_eq in Hc. inversion Herr. auto. }
  apply Z.eqb_neq in Hc. right. split; [exact Hc |].
  destruct (_ =? 0)%nat; [inversion Herr; auto |].
  destruct (negb _); [inversion Herr; auto |].
  destruct (data_frame _ _) eqn:Hd; [discriminate Herr |].
  inversion Herr. subst. right. right. exact (data_frame_error _ _ Hd).
Qed.

(** *** Columns and series *)

Lemma read_line_columns (st st1 : state date) (line : string) :
  rline st line = Done st1 -> is_attribute line = false ->
  col_names st1 = col_names st.
Proof.
  intros Hst Hat.
  destruct (read_line_done st st1 line Hst)
    as [[_ ->] | [(_ & _ & _ & st0 & Hm & ->) | [(_ & _ & _ & ->)
       | (_ & _ & _ & st0 & Hr & ->)]]]; try reflexivity.
  - destruct (read_meta_data_series st st0 _ Hm) as (_ & _ & Hc).
    cbn. apply Hc. exact Hat.
  - destruct (read_data_row_series st st0 _ Hr) as (Hc & _). exact Hc.
Qed.

Lemma read_lines_columns (lines : list string) (st st1 : state date) :
  rlines lines st = Done st1 ->
  Forall (fun l => is_attribute l = false) lines ->
  col_names st1 = col_names st.
Proof.
  unfold read_lines. intros Hst Hall. revert st Hst.
  induction Hall as [| l lines Hl _ IH]; intros st Hst.
  - inversion Hst. reflexivity.
  - cbn [for_each] in Hst. unfold mbind, outcome_bind in Hst.
    destruct (rline st l) as [st0 |] eqn:Hl0; [| discriminate].
    rewrite (IH st0 Hst). exact (read_line_columns st st0 l Hl0 Hl).
Qed.

Lemma read_line_rows (st st1 : state date) (line : string) :
  rline st line = Done st1 -> series_kept st ->
  series_kept st1
  /\ length (all_series st1)
     = (length (all_series st) + if is_data_row line then 1 else 0)%nat.
Proof.
  unfold series_kept. intros Hst [Hfresh Hvals].
  destruct (read_line_done st st1 line Hst)
    as [[Hb ->] | [(_ & Hrow & _ & st0 & Hm & ->) | [(_ & Hrow & _ & ->)
       | (Hrow & _ & _ & st0 & Hr & ->)]]].
  - unfold is_data_row. unfold is_blank in Hb. apply negb_true_iff in Hb.
    rewrite Hb. cbn. split; [split; assumption | lia].
  - destruct (read_meta_data_series st st0 _ Hm) as (Ha & Hs & _).
    rewrite Hrow. cbn. rewrite Ha, Hs. split; [split; assumption | lia].
  - rewrite Hrow. cbn. split; [split; assumption | lia].
  - destruct (read_data_row_series st st0 _ Hr) as (_ & Hs & ns & Hv & Ha).
    rewrite Hrow. cbn. rewrite Ha, Hs.
    destruct (started_reading_data_section st) eqn:Hstarted.
    + split; [split; [discriminate |] |].
      * apply Forall_app. split; [exact Hvals | repeat constructor; exact Hv].
      * rewrite length_app. reflexivity.
    + rewrite (Hfresh eq_refl). cbn. split; [split; [discriminate |] | reflexivity].
      repeat constructor. exact Hv.
Qed.

Lemma read_lines_rows (lines : list string) (st st1 : state date) :
  rlines lines st = Done st1 -> series_kept st ->
  series_kept st1
  /\ length (all_series st1)
     = (length (all_series st) + length (List.filter is_data_row lines))%nat.
Proof.
  unfold read_lines. revert st.
  induction lines as [| l lines IH]; intros st Hst Hfresh.
  - inversion Hst. subst. cbn. split; [exact Hfresh | lia].
  - cbn [for_each] in Hst. unfold mbind, outcome_bind in Hst.
    destruct (rline st l) as [st0 |] eqn:Hl; [| discriminate].
    destruct (read_line_rows st st0 l Hl Hfresh) as [Hfresh0 Hlen0].
    destruct (IH st0 Hst Hfresh0) as [Hfresh1 Hlen1].
    split; [exact Hfresh1 |]. rewrite Hlen1, Hlen0. cbn [List.filter].
    destruct (is_data_row l); cbn [length]; lia.
Qed.

Lemma filter_nil_Forall {A} (f : A -> bool) (l : list A) :
  List.filter f l = [] -> Forall (fun x => f x = false) l.
Proof.
  induction l as [| x l IH]; cbn [List.filter]; [constructor |].
  destruct (f x) eqn:Hx; [discriminate |]. intros Hnil.
  constructor; [exact Hx | exact (IH Hnil)].
Qed.

Lemma data_frame_done (d d' : gmap string (column date)) :
  data_frame date d = Done d' -> d' = d.
Proof.
  unfold data_frame. destruct (map_to_list d) as [| [k c] rest].
  - intros Hd. inversion Hd. reflexivity.
  - destruct (forallb _ _); [| discriminate]. intros Hd. inversion Hd. reflexivity.
Qed.

(** *** Comment lines *)

Lemma comment_not_meta (s : string) :
  startswith s "#" = true -> truthy s = true /\ startswith s "@" = false.
Proof.
  destruct s as [| c s]; [discriminate |]. cbn [startswith].
  intros Hc. apply andb_true_iff in Hc as [Hc _]. apply Ascii.eqb_eq in Hc.
  subst c. split; reflexivity.
Qed.

Lemma read_line_comment (st : state date) (line : string) :
  is_comment line = true -> rline st line = Done (count_line st).
Proof.
  unfold is_comment, read_line. intros Hc.
  destruct (comment_not_meta _ Hc) as [Hne Hat]. rewrite Hne, Hat, Hc.
  reflexivity.
Qed.

Lemma read_lines_comments (lines : list string) (st : state date) :
  Forall (fun l => is_blank l = true \/ is_comment l = true) lines ->
  exists st1, rlines lines st = Done st1 /\ col_names st1 = col_names st.
Proof.
  unfold read_lines. intros Hall. revert st.
  induction Hall as [| l lines Hl _ IH]; intros st.
  - exists st. split; reflexivity.
  - cbn [for_each]. destruct Hl as [Hb | Hc].
    + rewrite (read_line_blank st l Hb). apply IH.
    + rewrite (read_line_comment st l Hc).
      destruct (IH (count_line st)) as (st1 & Hst1 & Hcols).
      exists st1. split; [exact Hst1 | exact Hcols].
Qed.

(** *** Data before the attribute section *)

Lemma data_tag_is_meta (s : string) :
  startswith s "@data" = true -> truthy s = true /\ startswith s "@" = true.
Proof.
  destruct s as [| c s]; [discriminate |]. cbn [startswith].
  intros Hc. apply andb_true_iff in Hc as [Hc _]. rewrite Hc.
  split; reflexivity.
Qed.

Lemma read_line_without_columns (st : state date) (line : string) :
  col_names st = [] -> is_data_tag line = true \/ is_data_row line = true ->
  rline st line = Fail MissingAttributeSectionBeforeData.
Proof.
  unfold is_data_tag, is_data_row, read_line. intros Hcols [Htag | Hrow].
  - destruct (data_tag_is_meta _ Htag) as [Hne Hat]. rewrite Hne, Hat.
    unfold read_meta_data. rewrite Htag, Hcols. reflexivity.
  - apply andb_true_iff in Hrow as [Hrow Hhash].
    apply andb_true_iff in Hrow as [Hne Hat].
    apply negb_true_iff in Hat. rewrite Hne, Hat, Hhash, Hcols. reflexivity.
Qed.

(** *** Malformed lines *)

Lemma startswith_head (s p : string) (c : ascii) :
  startswith s (String c p) = true ->
  truthy s = true /\ startswith s (String c "") = true.
Proof.
  destruct s as [| c' s]; [discriminate |]. cbn [startswith].
  intros Hc. apply andb_true_iff in Hc as [Hc _]. rewrite Hc.
  split; reflexivity.
Qed.

Lemma read_line_field_count (st : state date) (row : string) :
  found_data_tag st = true -> col_names st <> [] -> is_data_row row = true ->
  length (split ":" (strip row)) <> S (length (col_names st)) ->
  rline st row = Fail MissingAttributesOrValues.
Proof.
  intros Htag Hcols Hrow Hlen. unfold is_data_row in Hrow.
  apply andb_true_iff in Hrow as [Hrow Hhash].
  apply andb_true_iff in Hrow as [Hne Hat].
  apply negb_true_iff in Hat.
  unfold read_line. rewrite Hne, Hat, Hhash, Htag. cbn [negb].
  destruct (length (col_names st) =? 0)%nat eqn:Hzero.
  { apply Nat.eqb_eq, length_zero_iff_nil in Hzero. contradiction. }
  unfold read_data_row. cbv zeta.
  set (stx := if negb (started_reading_data_section st)
              then start_data_section st else st).
  assert (Hsame : col_names stx = col_names st)
    by (unfold stx; destruct (negb (started_reading_data_section st)); reflexivity).
  clearbody stx. rewrite Hsame.
  replace (length (split ":" (strip row)) =? length (col_names st) + 1)%nat
    with false by (symmetry; apply Nat.eqb_neq; lia).
  reflexivity.
Qed.

Lemma read_line_invalid_meta_data (st : state date) (line : string) :
  (is_attribute line = true /\ length (split " " (strip line)) <> 3%nat)
  \/ (startswith (strip line) "@" = true /\ is_data_tag line = false
      /\ is_attribute line = false /\ length (split " " (strip line)) <> 2%nat) ->
  rline st line = Fail InvalidMetaData.
Proof.
  unfold is_attribute, is_data_tag, read_line.
  intros [[Hattr Hlen] | (Hat & Htag & Hattr & Hlen)].
  - destruct (startswith_head _ _ _ Hattr) as [Hne Hat]. rewrite Hne, Hat.
    unfold read_meta_data.
    rewrite (ReaderFacts.attribute_not_data_tag _ Hattr), Hattr. cbn [negb].
    replace (length (split " " (strip line)) =? 3)%nat with false
      by (symmetry; apply Nat.eqb_neq; exact Hlen).
    reflexivity.
  - destruct (startswith_head _ _ _ Hat) as [Hne _]. rewrite Hne, Hat.
    unfold read_meta_data. rewrite Htag, Hattr. cbn [negb].
    replace (length (split " " (strip line)) =? 2)%nat with false
      by (symmetry; apply Nat.eqb_neq; exact Hlen).
    reflexivity.
Qed.

End ReaderMore.
End ReaderMore.

(** X19: blank lines, which hold white space only, are ignored: the file
    without them is converted to the same result or fails with the same
    error. *)
Theorem convert_ignores_blank_lines (date : Type)
    (float_of_str : string -> option float) (int_of_str : string -> option Z)
    (strtobool : string -> option bool) (strptime : string -> option date)
    (lines : list string) (value_column_name : string) :
  Tsf.convert_tsf_to_dataframe date float_of_str int_of_str strtobool strptime
    (List.filter (fun l => negb (is_blank l)) lines) value_column_name
  = Tsf.convert_tsf_to_dataframe date float_of_str int_of_str strtobool strptime
      lines value_column_name.
Proof.
  unfold Tsf.convert_tsf_to_dataframe.
  rewrite ReaderMore.read_lines_skip_blank. reflexivity.
Qed.

(** X20: the conversion fails with "Empty file." exactly when every line
    of the file is blank. *)
Theorem convert_empty_file_iff (date : Type)
    (float_of_str : string -> option float) (int_of_str : string -> option Z)
    (strtobool : string -> option bool) (strptime : string -> option date)
    (lines : list string) (value_column_name : string) :
  Tsf.convert_tsf_to_dataframe date float_of_str int_of_str strtobool strptime
    lines value_column_name = Tsf.Fail Tsf.EmptyFile
  <-> Forall (fun l => is_blank l = true) lines.
Proof.
  split.
  - intros Herr.
    destruct (decide (Forall (fun l => is_blank l = true) lines)) as [| Hsome];
      [assumption | exfalso].
    apply not_Forall_Exists in Hsome; [| intros l; apply _].
    assert (Hex : Exists (fun l => is_blank l = false) lines).
    { eapply Exists_impl; [exact Hsome |]. cbn. intros l Hl.
      destruct (is_blank l); [contradiction | reflexivity]. }
    destruct (ReaderMore.convert_error date float_of_str int_of_str strtobool
                strptime lines value_column_name _ Herr)
      as [Hloop | (st & Hst & [[Hcount _] | [_ [He | [He | He]]]])];
      try discriminate He.
    + apply ReaderMore.read_lines_error in Hloop. destruct Hloop as [Hne _].
      contradiction.
    + pose proof (ReaderMore.read_lines_counted date float_of_str int_of_str
                    strtobool strptime lines _ st Hst Hex) as Hlt.
      cbn in Hlt. lia.
  - intros Hall. unfold Tsf.convert_tsf_to_dataframe.
    rewrite (ReaderMore.read_lines_all_blank date float_of_str int_of_str
               strtobool strptime lines _ Hall).
    reflexivity.
Qed.

(** X21: the conversion never fails with the message that a series should
    contain at least one numeric value: splitting the value field at the
    commas always gives at least one token, so that a row with an empty
    value field fails in [float] instead. *)
Theorem no_numeric_values_never_raised (date : Type)
    (float_of_str : string -> option float) (int_of_str : string -> option Z)
    (strtobool : string -> option bool) (strptime : string -> option date)
    (lines : list string) (value_column_name : string) (e : Tsf.tsf_error) :
  Tsf.convert_tsf_to_dataframe date float_of_str int_of_str strtobool strptime
    lines value_column_name = Tsf.Fail e ->
  e <> Tsf.NoNumericValues.
Proof.
  intros Herr.
  destruct (ReaderMore.convert_error date float_of_str int_of_str strtobool
              strptime lines value_column_name _ Herr)
    as [Hloop | (st & Hst & [[_ He] | [_ [He | [He | He]]]])];
    try (subst e; discriminate).
  apply ReaderMore.read_lines_error in Hloop. exact (proj2 Hloop).
Qed.

Lemma no_numeric_values_never_raised_witness :
  Tsf.convert_tsf_to_dataframe unit float_of_one (fun _ => None) (fun _ => None)
    (fun _ => None) ["@attribute series_name string"; "@data"; "T1:"]
    "series_value" = Tsf.Fail Tsf.BuiltinValueError
  /\ Tsf.BuiltinValueError <> Tsf.NoNumericValues.
Proof.
  split; [reflexivity |].
  exact (no_numeric_values_never_raised unit float_of_one (fun _ => None)
           (fun _ => None) (fun _ => None)
           ["@attribute series_name string"; "@data"; "T1:"] "series_value"
           Tsf.BuiltinValueError eq_refl).
Defined.

(** X22: after lines that are read without error and declare no attribute,
    a [@data] tag or a data row fails with "Missing attribute section.
    Attribute section must come before data.", whatever follows. *)
Theorem convert_data_before_attributes (date : Type)
    (float_of_str : string -> option float) (int_of_str : string -> option Z)
    (strtobool : string -> option bool) (strptime : string -> option date)
    (pre post : list string) (line value_column_name : string)
    (st : Tsf.state date) :
  Tsf.read_lines date float_of_str int_of_str strtobool strptime pre Tsf.initial
    = Tsf.Done st ->
  Forall (fun l => is_attribute l = false) pre ->
  is_data_tag line = true \/ is_data_row line = true ->
  Tsf.convert_tsf_to_dataframe date float_of_str int_of_str strtobool strptime
    (pre ++ line :: post) value_column_name
  = Tsf.Fail Tsf.MissingAttributeSectionBeforeData.
Proof.
  intros Hpre Hnone Hline.
  apply (ReaderFacts.convert_fails_at date float_of_str int_of_str strtobool
           strptime pre post line st _ _ Hpre).
  apply ReaderMore.read_line_without_columns; [| exact Hline].
  exact (ReaderMore.read_lines_columns date float_of_str int_of_str strtobool
           strptime pre _ st Hpre Hnone).
Qed.

Lemma convert_data_before_attributes_witness :
  let convert := Tsf.convert_tsf_to_dataframe unit (fun _ => None) (fun _ => None)
                   (fun _ => None) (fun _ => None) in
  convert ["# a comment"; "@frequency daily"; "@data"; "@attribute a string"]
    "series_value" = Tsf.Fail Tsf.MissingAttributeSectionBeforeData
  /\ convert ["@frequency daily"; "T1:1,2,3"] "series_value"
     = Tsf.Fail Tsf.MissingAttributeSectionBeforeData.
Proof.
  intros convert. split.
  - refine (convert_data_before_attributes unit (fun _ => None) (fun _ => None)
              (fun _ => None) (fun _ => None)
              ["# a comment"; "@frequency daily"] ["@attribute a string"]
              "@data" "series_value" _ eq_refl _ _).
    + repeat constructor.
    + left. reflexivity.
  - refine (convert_data_before_attributes unit (fun _ => None) (fun _ => None)
              (fun _ => None) (fun _ => None)
              ["@frequency daily"] [] "T1:1,2,3" "series_value" _ eq_refl _ _).
    + repeat constructor.
    + right. reflexivity.
Defined.

(** X23: a file of blank lines and comments with at least one comment
    fails with "Missing attribute section.", not with "Empty file.": a
    comment counts as a line. *)
Theorem convert_comments_only (date : Type)
    (float_of_str : string -> option float) (int_of_str : string -> option Z)
    (strtobool : string -> option bool) (strptime : string -> option date)
    (lines : list string) (value_column_name : string) :
  Forall (fun l => is_blank l = true \/ is_comment l = true) lines ->
  Exists (fun l => is_comment l = true) lines ->
  Tsf.convert_tsf_to_dataframe date float_of_str int_of_str strtobool strptime
    lines value_column_name = Tsf.Fail Tsf.MissingAttributeSection.
Proof.
  intros Hall Hex.
  destruct (ReaderMore.read_lines_comments date float_of_str int_of_str strtobool
              strptime lines Tsf.initial Hall) as (st & Hst & Hcols).
  assert (Hlt : Tsf.line_count (@Tsf.initial date) < Tsf.line_count st).
  { apply (ReaderMore.read_lines_counted date float_of_str int_of_str strtobool
             strptime lines _ st Hst).
    eapply Exists_impl; [exact Hex |]. cbn. intros l Hl.
    unfold is_comment in Hl. unfold is_blank.
    destruct (ReaderMore.comment_not_meta _ Hl) as [Hne _]. rewrite Hne.
    reflexivity. }
  cbn in Hlt, Hcols.
  unfold Tsf.convert_tsf_to_dataframe. rewrite Hst. unfold mbind, Tsf.outcome_bind.
  replace (Tsf.line_count st =? 0) with false by (symmetry; apply Z.eqb_neq; lia).
  rewrite Hcols. reflexivity.
Qed.

Lemma convert_comments_only_witness :
  Tsf.convert_tsf_to_dataframe unit (fun _ => None) (fun _ => None)
    (fun _ => None) (fun _ => None) ["  "; "# only a comment"; ""] "series_value"
  = Tsf.Fail Tsf.MissingAttributeSection.
Proof.
  refine (convert_comments_only unit (fun _ => None) (fun _ => None)
            (fun _ => None) (fun _ => None) ["  "; "# only a comment"; ""]
            "series_value" _ _).
  - constructor; [left; reflexivity |].
    constructor; [right; reflexivity |].
    constructor; [left; reflexivity | constructor].
  - apply Exists_cons_tl, Exists_cons_hd. reflexivity.
Defined.

(** X24: when the conversion succeeds, the value column of the result
    holds one series for each data row of the file, there is at least one,
    and no series consists of missing values only. *)
Theorem convert_series_per_row (date : Type)
    (float_of_str : string -> option float) (int_of_str : string -> option Z)
    (strtobool : string -> option bool) (strptime : string -> option date)
    (lines : list string) (value_column_name : string) (ld : Tsf.loaded date) :
  Tsf.convert_tsf_to_dataframe date float_of_str int_of_str strtobool strptime
    lines value_column_name = Tsf.Done ld ->
  exists all_series,
    Tsf.loaded_data date ld !! value_column_name = Some (Tsf.Series date all_series)
    /\ length all_series = length (List.filter is_data_row lines)
    /\ (0 < length all_series)%nat
    /\ Forall (fun s => has_value s = true) all_series.
Proof.
  unfold Tsf.convert_tsf_to_dataframe, mbind, Tsf.outcome_bind.
  destruct (Tsf.read_lines _ _ _ _ _ lines _) as [st |] eqn:Hst; [| discriminate].
  destruct (Tsf.line_count st =? 0); [discriminate |].
  destruct (_ =? 0)%nat; [discriminate |].
  destruct (Tsf.found_data_section st) eqn:Hsec; cbn [negb]; [| discriminate].
  destruct (Tsf.data_frame _ _) as [d |] eqn:Hd; [| discriminate].
  intros Hld. inversion Hld. subst ld. cbn.
  apply ReaderMore.data_frame_done in Hd. subst d.
  exists (Tsf.all_series st). rewrite lookup_insert_eq.
  assert (Hkept : series_kept (@Tsf.initial date))
    by (split; [reflexivity | constructor]).
  destruct (ReaderMore.read_lines_rows date float_of_str int_of_str strtobool
              strptime lines _ st Hst Hkept) as [[_ Hvals] Hlen].
  cbn in Hlen. split; [reflexivity | split; [exact Hlen | split; [| exact Hvals]]].
  rewrite Hlen.
  destruct (List.filter is_data_row lines) eqn:Hrows; [exfalso | cbn; lia].
  apply ReaderMore.filter_nil_Forall in Hrows.
  destruct (ReaderFacts.read_lines_fields date float_of_str int_of_str strtobool
              strptime lines _ st Hst) as (_ & _ & _ & _ & _ & _ & Hsame).
  rewrite (Hsame Hrows) in Hsec. discriminate Hsec.
Qed.

Lemma convert_series_per_row_witness :
  exists all_series,
    Tsf.loaded_data unit one_row_loaded !! "series_value"
      = Some (Tsf.Series unit all_series)
    /\ length all_series
       = length (List.filter is_data_row
                   ["@attribute series_name string"; "@frequency daily"; "@data";
                    "T1:1,?"])
    /\ (0 < length all_series)%nat
    /\ Forall (fun s => has_value s = true) all_series.
Proof.
  refine (convert_series_per_row unit float_of_one (fun _ => None) (fun _ => None)
            (fun _ => None)
            ["@attribute series_name string"; "@frequency daily"; "@data"; "T1:1,?"]
            "series_value" one_row_loaded _).
  reflexivity.
Defined.

(** X25: after lines that are read without error and hold the [@data] tag,
    a data row whose number of colon-separated fields is not the number of
    declared attributes plus one fails with "Missing attributes/values in
    series.". *)
Theorem convert_field_count (date : Type)
    (float_of_str : string -> option float) (int_of_str : string -> option Z)
    (strtobool : string -> option bool) (strptime : string -> option date)
    (pre post : list string) (row value_column_name : string)
    (st : Tsf.state date) :
  Tsf.read_lines date float_of_str int_of_str strtobool strptime pre Tsf.initial
    = Tsf.Done st ->
  Exists (fun l => is_data_tag l = true) pre ->
  is_data_row row = true ->
  length (split ":" (strip row)) <> S (length (Tsf.col_names st)) ->
  Tsf.convert_tsf_to_dataframe date float_of_str int_of_str strtobool strptime
    (pre ++ row :: post) value_column_name
  = Tsf.Fail Tsf.MissingAttributesOrValues.
Proof.
  intros Hpre Htag Hrow Hlen.
  destruct (ReaderFacts.read_lines_fields date float_of_str int_of_str strtobool
              strptime pre Tsf.initial st Hpre)
    as (_ & _ & _ & Hfound & _).
  destruct (Hfound Htag) as [Hfound_tag Hcols].
  apply (ReaderFacts.convert_fails_at date float_of_str int_of_str strtobool
           strptime pre post row st _ _ Hpre).
  apply ReaderMore.read_line_field_count; assumption.
Qed.

Lemma convert_field_count_witness :
  let convert := Tsf.convert_tsf_to_dataframe unit float_of_one (fun _ => None)
                   (fun _ => None) (fun _ => None) in
  convert ["@attribute series_name string"; "@data"; "1,1,1"; "T2:1"]
    "series_value" = Tsf.Fail Tsf.MissingAttributesOrValues
  /\ convert ["@attribute series_name string"; "@data"; "T1:2001:1,1"]
       "series_value" = Tsf.Fail Tsf.MissingAttributesOrValues.
Proof.
  intros convert. split.
  - refine (convert_field_count unit float_of_one (fun _ => None)
              (fun _ => None) (fun _ => None)
              ["@attribute series_name string"; "@data"] ["T2:1"]
              "1,1,1" "series_value" _ eq_refl _ _ _).
    + apply Exists_cons_tl, Exists_cons_hd. reflexivity.
    + reflexivity.
    + intros Hlen. vm_compute in Hlen. discriminate Hlen.
  - refine (convert_field_count unit float_of_one (fun _ => None)
              (fun _ => None) (fun _ => None)
              ["@attribute series_name string"; "@data"] []
              "T1:2001:1,1" "series_value" _ eq_refl _ _ _).
    + apply Exists_cons_tl, Exists_cons_hd. reflexivity.
    + reflexivity.
    + intros Hlen. vm_compute in Hlen. discriminate Hlen.
Defined.

(** X26: after lines that are read without error, an [@attribute] line
    that does not split at single spaces into exactly three words, and any
    other line that starts with [@], is not the [@data] tag and does not
    split into exactly two words, fail with "Invalid meta-data
    specification.". *)
Theorem convert_invalid_meta_data (date : Type)
    (float_of_str : string -> option float) (int_of_str : string -> option Z)
    (strtobool : string -> option bool) (strptime : string -> option date)
    (pre post : list string) (line value_column_name : string)
    (st : Tsf.state date) :
  Tsf.read_lines date float_of_str int_of_str strtobool strptime pre Tsf.initial
    = Tsf.Done st ->
  (is_attribute line = true /\ length (split " " (strip line)) <> 3%nat)
  \/ (startswith (strip line) "@" = true /\ is_data_tag line = false
      /\ is_attribute line = false /\ length (split " " (strip line)) <> 2%nat) ->
  Tsf.convert_tsf_to_dataframe date float_of_str int_of_str strtobool strptime
    (pre ++ line :: post) value_column_name
  = Tsf.Fail Tsf.InvalidMetaData.
Proof.
  intros Hpre Hline.
  apply (ReaderFacts.convert_fails_at date float_of_str int_of_str strtobool
           strptime pre post line st _ _ Hpre).
  apply ReaderMore.read_line_invalid_meta_data. exact Hline.
Qed.

Lemma convert_invalid_meta_data_witness :
  let convert := Tsf.convert_tsf_to_dataframe unit (fun _ => None) (fun _ => None)
                   (fun _ => None) (fun _ => None) in
  convert ["@attribute  series_name string"; "@data"] "series_value"
    = Tsf.Fail Tsf.InvalidMetaData
  /\ convert ["@attribute series_name string"; "@relation"; "@data"]
       "series_value" = Tsf.Fail Tsf.InvalidMetaData.
Proof.
  intros convert. split.
  - refine (convert_invalid_meta_data unit (fun _ => None) (fun _ => None)
              (fun _ => None) (fun _ => None) [] ["@data"]
              "@attribute  series_name string" "series_value" _ eq_refl _).
    left. split; [reflexivity |].
    intros Hlen. vm_compute in Hlen. discriminate Hlen.
  - refine (convert_invalid_meta_data unit (fun _ => None) (fun _ => None)
              (fun _ => None) (fun _ => None)
              ["@attribute series_name string"] ["@data"]
              "@relation" "series_value" _ eq_refl _).
    right. split; [reflexivity | split; [reflexivity | split; [reflexivity |]]].
    intros Hlen. vm_compute in Hlen. discriminate Hlen.
Defined.
